(** * Hybrid PyMuPDF + OCR chunking: a shallow embedding and its properties

    The development embeds [hybrid_chunking.py] (the footnote and paragraph
    recognisers, the page and document processors and the chunk assembler),
    the orchestrator and the page worker of [databricks_hybrid_chunking.py],
    and the lookup helpers of [databricks_config.py].

    Conventions.
    - A Python [str] is a [string]; a character is a code point below 256
      (Latin-1), classified as CPython classifies it ([str.isspace],
      [str.isdecimal], [str.isalnum]).
    - A Python [int] is a [Z]; a Python [float] is a binary64 [float].
    - A pattern is the raw string of the source; [re_compile] reads it into
      a term of [regex], and the matcher is a backtracking matcher with
      greedy repetition, as [re] is.
    - A raised exception is the [Raise] case of [Py.result]; the PDF
      library and the OCR engine are given by the [Document] and [Page]
      of a chunker. *)

From Stdlib Require Import ZArith NArith Bool Ascii String List Lia.
From Stdlib Require Import PrimFloat SpecFloat FloatOps Uint63.
From stdpp Require Import base tactics option list strings gmap pretty sorting.

Set Warnings "-inexact-float".
Local Open Scope string_scope.
Local Open Scope list_scope.
Local Open Scope Z_scope.

(* ------------------------------------------------------------------ *)
(** ** Python strings *)

Module PyStr.

Definition ord (a : ascii) : N := N_of_ascii a.

Definition in_range (lo hi : N) (a : ascii) : bool :=
  ((lo <=? ord a) && (ord a <=? hi))%N.

Definition is_code (n : N) (a : ascii) : bool := (ord a =? n)%N.

(** [str.isspace] on one character: TAB..CR, FS..US, SPACE, NEL, NBSP. *)
Definition isspace (a : ascii) : bool :=
  in_range 9 13 a || in_range 28 32 a || is_code 133 a || is_code 160 a.

(** [str.isdecimal] on one character; the class [\d] of [re]. *)
Definition isdecimal (a : ascii) : bool := in_range 48 57 a.

Definition isalpha (a : ascii) : bool :=
  in_range 65 90 a || in_range 97 122 a
  || is_code 170 a || is_code 181 a || is_code 186 a
  || in_range 192 214 a || in_range 216 246 a || in_range 248 255 a.

(** [str.isalnum]: alphabetic, decimal, digit (superscripts) or numeric
    (vulgar fractions). *)
Definition isalnum (a : ascii) : bool :=
  isalpha a || isdecimal a
  || is_code 178 a || is_code 179 a || is_code 185 a || in_range 188 190 a.

(** The class [\w] of [re] on [str] patterns. *)
Definition isword (a : ascii) : bool := isalnum a || is_code 95 a.

Definition lower_char (a : ascii) : ascii :=
  if in_range 65 90 a || (in_range 192 222 a && negb (is_code 215 a))
  then ascii_of_N (ord a + 32) else a.

(** [s.lower()] *)
Fixpoint lower (s : string) : string :=
  match s with
  | EmptyString => EmptyString
  | String a s' => String (lower_char a) (lower s')
  end.

(** [len(s)] *)
Definition len (s : string) : Z := Z.of_nat (String.length s).

(** [s.lstrip()] *)
Fixpoint lstrip (s : string) : string :=
  match s with
  | EmptyString => EmptyString
  | String a s' => if isspace a then lstrip s' else s
  end.

(** [s.rstrip()] *)
Fixpoint rstrip (s : string) : string :=
  match s with
  | EmptyString => EmptyString
  | String a s' =>
      match rstrip s' with
      | EmptyString => if isspace a then EmptyString else String a EmptyString
      | t => String a t
      end
  end.

(** [s.strip()] *)
Definition strip (s : string) : string := rstrip (lstrip s).

(** [s[n:]] for [0 <= n]. *)
Fixpoint drop (n : nat) (s : string) : string :=
  match n, s with
  | O, _ => s
  | S _, EmptyString => EmptyString
  | S n', String _ s' => drop n' s'
  end.

(** [s.split(sep)] for a one-character separator: the result always has
    one more field than there are separators. *)
Fixpoint split_on (sep : ascii) (s : string) : list string :=
  match s with
  | EmptyString => [EmptyString]
  | String a s' =>
      if Ascii.eqb a sep then EmptyString :: split_on sep s'
      else match split_on sep s' with
           | w :: ws => String a w :: ws
           | [] => [String a EmptyString]
           end
  end.

(** [s.split()]: the maximal runs of non-whitespace characters. *)
Fixpoint split_ws_aux (s : string) : string * list string :=
  match s with
  | EmptyString => (EmptyString, [])
  | String a s' =>
      let '(w, ws) := split_ws_aux s' in
      if isspace a
      then (EmptyString, match w with EmptyString => ws | _ => w :: ws end)
      else (String a w, ws)
  end.

Definition split_ws (s : string) : list string :=
  let '(w, ws) := split_ws_aux s in
  match w with EmptyString => ws | _ => w :: ws end.

(** [sep.join(l)] *)
Fixpoint join (sep : string) (l : list string) : string :=
  match l with
  | [] => EmptyString
  | [x] => x
  | x :: l' => x +:+ sep +:+ join sep l'
  end.

Fixpoint startswith (p s : string) : bool :=
  match p, s with
  | EmptyString, _ => true
  | String a p', String b s' => Ascii.eqb a b && startswith p' s'
  | String _ _, EmptyString => false
  end.

(** [p in s] *)
Fixpoint contains (p s : string) : bool :=
  startswith p s ||
  match s with
  | EmptyString => false
  | String _ s' => contains p s'
  end.

(** Truth value of a string: [bool(s)]. *)
Definition truthy (s : string) : bool :=
  match s with EmptyString => false | _ => true end.

End PyStr.

(* ------------------------------------------------------------------ *)
(** ** Regular expressions: the fragment of [re] the configuration uses *)

Module Re.

Inductive cclass : Type :=
| CDigit                 (* \d *)
| CSpace                 (* \s *)
| CWord                  (* \w *)
| CChar (a : ascii).     (* a literal character *)

Inductive regex : Type :=
| REmpty
| ROne (c : cclass)
| RRep (c : cclass) (lo : nat) (hi : option nat)   (* greedy c{lo,hi} *)
| RBol                                             (* ^ *)
| REol                                             (* $ *)
| RBoundary                                        (* \b *)
| RGroup (n : nat) (r : regex)
| RAlt (r1 r2 : regex)
| RSeq (r1 r2 : regex)
| RNever.                  (* a pattern outside the fragment *)

Definition rseq (l : list regex) : regex := fold_right RSeq REmpty l.

Definition ralt (l : list regex) : regex :=
  match l with
  | [] => REmpty
  | r :: l' => fold_left RAlt l' r
  end.

(** *** Reading a pattern

    The pattern syntax of the fragment: literal characters, the escapes
    [\d], [\s], [\w], [\b] and escaped punctuation, the anchors [^] and [$],
    capturing groups numbered by their opening parenthesis, alternation,
    and the greedy quantifiers [+], [?], [*], [{m}], [{m,}] and [{m,n}] on a
    single character or class.  The reader walks the pattern once, with a
    stack of the groups that are open. *)

(** A group being read: its number, the alternatives already closed
    (latest first) and the items of the current alternative (latest
    first). *)
Record frame : Type := Frame {
  f_group : nat;
  f_alts : list regex;
  f_items : list regex
}.

Inductive pmode : Type :=
| PNormal
| PEscape                                     (* after a backslash *)
| PLow (lo : nat)                             (* inside {lo *)
| PHigh (lo : nat) (hi : option nat).         (* inside {lo,hi *)

Definition add_item (r : regex) (f : frame) : frame :=
  Frame (f_group f) (f_alts f) (r :: f_items f).

Definition frame_regex (f : frame) : regex :=
  ralt (rev (rseq (rev (f_items f)) :: f_alts f)).

(** A quantifier applies to the item before it, a single character or
    class. *)
Definition quantify (lo : nat) (hi : option nat) (f : frame) : option frame :=
  match f_items f with
  | ROne c :: items => Some (Frame (f_group f) (f_alts f) (RRep c lo hi :: items))
  | _ => None
  end.

Definition digit_value (a : ascii) : nat := (nat_of_ascii a - 48)%nat.

Definition escape (a : ascii) : option regex :=
  if Ascii.eqb a "d" then Some (ROne CDigit)
  else if Ascii.eqb a "s" then Some (ROne CSpace)
  else if Ascii.eqb a "w" then Some (ROne CWord)
  else if Ascii.eqb a "b" then Some RBoundary
  else if PyStr.isalnum a then None
  else Some (ROne (CChar a)).

Fixpoint parse_from (s : string) (mode : pmode) (cur : frame)
    (stack : list frame) (next_group : nat) : option regex :=
  match s with
  | EmptyString =>
      match mode, stack with
      | PNormal, [] => Some (frame_regex cur)
      | _, _ => None
      end
  | String a s' =>
      match mode with
      | PEscape =>
          match escape a with
          | Some r => parse_from s' PNormal (add_item r cur) stack next_group
          | None => None
          end
      | PLow lo =>
          if PyStr.isdecimal a
          then parse_from s' (PLow (10 * lo + digit_value a)) cur stack next_group
          else if Ascii.eqb a ","
          then parse_from s' (PHigh lo None) cur stack next_group
          else if Ascii.eqb a "}"
          then match quantify lo (Some lo) cur with
               | Some cur' => parse_from s' PNormal cur' stack next_group
               | None => None
               end
          else None
      | PHigh lo hi =>
          if PyStr.isdecimal a
          then parse_from s'
                 (PHigh lo (Some (10 * default 0%nat hi + digit_value a))%nat)
                 cur stack next_group
          else if Ascii.eqb a "}"
          then match quantify lo hi cur with
               | Some cur' => parse_from s' PNormal cur' stack next_group
               | None => None
               end
          else None
      | PNormal =>
          if Ascii.eqb a "\" then parse_from s' PEscape cur stack next_group
          else if Ascii.eqb a "("
          then parse_from s' PNormal (Frame next_group [] []) (cur :: stack)
                 (S next_group)
          else if Ascii.eqb a ")"
          then match stack with
               | parent :: stack' =>
                   parse_from s' PNormal
                     (add_item (RGroup (f_group cur) (frame_regex cur)) parent)
                     stack' next_group
               | [] => None
               end
          else if Ascii.eqb a "|"
          then parse_from s' PNormal
                 (Frame (f_group cur) (rseq (rev (f_items cur)) :: f_alts cur) [])
                 stack next_group
          else if Ascii.eqb a "^" then parse_from s' PNormal (add_item RBol cur) stack next_group
          else if Ascii.eqb a "$" then parse_from s' PNormal (add_item REol cur) stack next_group
          else if Ascii.eqb a "+"
          then match quantify 1 None cur with
               | Some cur' => parse_from s' PNormal cur' stack next_group
               | None => None
               end
          else if Ascii.eqb a "?"
          then match quantify 0 (Some 1%nat) cur with
               | Some cur' => parse_from s' PNormal cur' stack next_group
               | None => None
               end
          else if Ascii.eqb a "*"
          then match quantify 0 None cur with
               | Some cur' => parse_from s' PNormal cur' stack next_group
               | None => None
               end
          else if Ascii.eqb a "{" then parse_from s' (PLow 0) cur stack next_group
          else if Ascii.eqb a "." || Ascii.eqb a "[" || Ascii.eqb a "]"
                  || Ascii.eqb a "}"
          then None
          else parse_from s' PNormal (add_item (ROne (CChar a)) cur) stack next_group
      end
  end.

Definition re_parse (pattern : string) : option regex :=
  parse_from pattern PNormal (Frame 0 [] []) [] 1.

(** [re.compile(pattern)] for a pattern of the fragment, which holds every
    pattern of the source ([source_patterns_read]).  A pattern outside the
    fragment is read as one that never matches, where [re] would match it
    or raise [re.error]: what is stated for every configuration holds of
    the code for the configurations whose patterns are in the fragment. *)
Definition re_compile (pattern : string) : regex :=
  match re_parse pattern with
  | Some r => r
  | None => RNever
  end.

(** *** Matching *)

(** The state of one matching attempt: the character before the cursor,
    the cursor, the text after the cursor and the groups closed so far. *)
Record mstate : Type := MState {
  ms_prev : option ascii;
  ms_pos : nat;
  ms_rest : string;
  ms_groups : list (nat * string)
}.

Definition ch_eq (ic : bool) (a b : ascii) : bool :=
  if ic then Ascii.eqb (PyStr.lower_char a) (PyStr.lower_char b)
  else Ascii.eqb a b.

Definition cls_test (ic : bool) (c : cclass) (a : ascii) : bool :=
  match c with
  | CDigit => PyStr.isdecimal a
  | CSpace => PyStr.isspace a
  | CWord => PyStr.isword a
  | CChar b => ch_eq ic b a
  end.

Definition hi_allows (hi : option nat) : bool :=
  match hi with Some O => false | _ => true end.

Definition hi_pred (hi : option nat) : option nat :=
  match hi with Some n => Some (Nat.pred n) | None => None end.

(** Greedy repetition: take one more character when allowed, and fall
    back to stopping here when the rest of the pattern fails. *)
Fixpoint rep_greedy (ic : bool) (c : cclass) (lo : nat) (hi : option nat)
    (prev : option ascii) (pos : nat) (s : string)
    (k : option ascii -> nat -> string -> option mstate) : option mstate :=
  let stop := match lo with O => k prev pos s | S _ => None end in
  match s with
  | String a s' =>
      if hi_allows hi && cls_test ic c a then
        match rep_greedy ic c (Nat.pred lo) (hi_pred hi) (Some a) (S pos) s' k with
        | Some r => Some r
        | None => stop
        end
      else stop
  | EmptyString => stop
  end.

Definition word_at_prev (p : option ascii) : bool :=
  match p with Some a => PyStr.isword a | None => false end.

Definition word_at_next (s : string) : bool :=
  match s with String a _ => PyStr.isword a | EmptyString => false end.

Definition at_eol (s : string) : bool :=
  match s with
  | EmptyString => true
  | String a EmptyString => PyStr.is_code 10 a
  | _ => false
  end.

Definition close_group (n : nat) (st st' : mstate) : mstate :=
  MState (ms_prev st') (ms_pos st') (ms_rest st')
    ((n, String.substring 0 (ms_pos st' - ms_pos st) (ms_rest st)) :: ms_groups st').

Fixpoint rmatch (ic : bool) (r : regex) (st : mstate)
    (k : mstate -> option mstate) : option mstate :=
  match r with
  | REmpty => k st
  | ROne c =>
      match ms_rest st with
      | String a s' =>
          if cls_test ic c a
          then k (MState (Some a) (S (ms_pos st)) s' (ms_groups st))
          else None
      | EmptyString => None
      end
  | RRep c lo hi =>
      rep_greedy ic c lo hi (ms_prev st) (ms_pos st) (ms_rest st)
        (fun p n s => k (MState p n s (ms_groups st)))
  | RBol => if Nat.eqb (ms_pos st) 0 then k st else None
  | REol => if at_eol (ms_rest st) then k st else None
  | RBoundary =>
      if xorb (word_at_prev (ms_prev st)) (word_at_next (ms_rest st))
      then k st else None
  | RGroup n r1 => rmatch ic r1 st (fun st' => k (close_group n st st'))
  | RAlt r1 r2 =>
      match rmatch ic r1 st k with
      | Some x => Some x
      | None => rmatch ic r2 st k
      end
  | RSeq r1 r2 => rmatch ic r1 st (fun st' => rmatch ic r2 st' k)
  | RNever => None
  end.

(** A match object: [start()], [end()] and the groups. *)
Record match_obj : Type := MatchObj {
  m_start : nat;
  m_end : nat;
  m_groups : list (nat * string)
}.

Definition try_at (ic : bool) (r : regex) (prev : option ascii) (pos : nat)
    (s : string) : option match_obj :=
  match rmatch ic r (MState prev pos s []) Some with
  | Some st => Some (MatchObj pos (ms_pos st) (ms_groups st))
  | None => None
  end.

(** [m.group(n)] for a group that took part in the match. *)
Fixpoint lookup_group (n : nat) (gs : list (nat * string)) : option string :=
  match gs with
  | [] => None
  | (i, s) :: gs' => if Nat.eqb i n then Some s else lookup_group n gs'
  end.

(** [m.group(n)] for a group the pattern has, as group 1 of every number
    pattern of the source; [re] raises [IndexError] for a group the
    pattern lacks, where this gives the empty string. *)
Definition group (n : nat) (m : match_obj) : string :=
  match lookup_group n (m_groups m) with Some s => s | None => EmptyString end.

(** [re.match(pattern, s)]; [ic] is the flag [re.IGNORECASE]. *)
Definition re_match (ic : bool) (pattern : string) (s : string) : option match_obj :=
  try_at ic (re_compile pattern) None 0 s.

Fixpoint search_from (ic : bool) (r : regex) (prev : option ascii) (pos : nat)
    (s : string) : option match_obj :=
  match try_at ic r prev pos s with
  | Some m => Some m
  | None =>
      match s with
      | String a s' => search_from ic r (Some a) (S pos) s'
      | EmptyString => None
      end
  end.

(** [re.search(pattern, s)] *)
Definition re_search (ic : bool) (pattern : string) (s : string) : option match_obj :=
  search_from ic (re_compile pattern) None 0 s.

(** [bool(re.search(pattern, s))] *)
Definition found (ic : bool) (pattern : string) (s : string) : bool :=
  match re_search ic pattern s with Some _ => true | None => false end.

(** [re.findall] for a pattern with one group that matches no empty
    string: the group of each successive non-overlapping match, scanning
    from the left.  [skip] counts the characters still covered by the last
    match. *)
Fixpoint findall_from (ic : bool) (r : regex) (prev : option ascii) (pos : nat)
    (s : string) (skip : nat) : list string :=
  match skip with
  | S k =>
      match s with
      | String a s' => findall_from ic r (Some a) (S pos) s' k
      | EmptyString => []
      end
  | O =>
      match try_at ic r prev pos s with
      | Some m =>
          group 1 m ::
          match s with
          | String a s' =>
              findall_from ic r (Some a) (S pos) s' (Nat.pred (m_end m - m_start m))
          | EmptyString => []
          end
      | None =>
          match s with
          | String a s' => findall_from ic r (Some a) (S pos) s' 0
          | EmptyString => []
          end
      end
  end.

(** [re.findall(pattern, s)] *)
Definition re_findall (ic : bool) (pattern : string) (s : string) : list string :=
  findall_from ic (re_compile pattern) None 0 s 0.

End Re.

(* ------------------------------------------------------------------ *)
(** ** Python numbers, results and exceptions *)

Module Py.

(** [float(n)] for [0 <= n < 2^53], where the conversion is exact. *)
Definition float_of_int (n : Z) : float := PrimFloat.of_uint63 (Uint63.of_Z n).

(** The magnitude [m * 2^e] cut to an integer, and what is cut off. *)
Definition magnitude_floor (m : positive) (e : Z) : Z :=
  if 0 <=? e then Z.shiftl (Zpos m) e else Z.shiftr (Zpos m) (- e).

Definition magnitude_rem (m : positive) (e : Z) : Z :=
  if 0 <=? e then 0 else Z.land (Zpos m) (Z.ones (- e)).

(** [int(f)]: truncation toward zero. *)
Definition int_of_float (f : float) : Z :=
  match Prim2SF f with
  | S754_finite s m e =>
      let a := magnitude_floor m e in if s then - a else a
  | _ => 0
  end.

(** [round(f)]: to the nearest integer, ties to the even one. *)
Definition round (f : float) : Z :=
  match Prim2SF f with
  | S754_finite s m e =>
      let q := magnitude_floor m e in
      let r := magnitude_rem m e in
      let half := if 0 <=? e then 1 else Z.shiftl 1 (- e - 1) in
      let a :=
        if r <? half then q
        else if half <? r then q + 1
        else if Z.even q then q else q + 1 in
      if s then - a else a
  | _ => 0
  end.

(** [min(a, b)] of two floats: [b] only when it is strictly smaller. *)
Definition min (a b : float) : float := if (b <? a)%float then b else a.

Inductive exn : Type :=
| TypeError | IndexError | AttributeError | ValueError
| ZeroDivisionError | PicklingError
| RuntimeError (msg : string)
| OtherError (msg : string).

(** [str(e)] *)
Definition str_of_exn (e : exn) : string :=
  match e with
  | TypeError => "'NoneType' object is not subscriptable"
  | IndexError => "page not in document"
  | AttributeError => "'tuple' object has no attribute 'get'"
  | ValueError => "range() arg 3 must not be zero"
  | ZeroDivisionError => "integer division or modulo by zero"
  | PicklingError => "Could not serialize object"
  | RuntimeError msg => msg
  | OtherError msg => msg
  end.

Inductive result (A : Type) : Type :=
| Ok (a : A)
| Raise (e : exn).
Arguments Ok {A} a.
Arguments Raise {A} e.

Definition bind {A B : Type} (r : result A) (k : A -> result B) : result B :=
  match r with
  | Ok a => k a
  | Raise e => Raise e
  end.

(** [range(start, stop)] *)
Definition range (start stop : Z) : list Z :=
  map (fun i => start + Z.of_nat i) (seq 0 (Z.to_nat (stop - start))).

Fixpoint range_step_aux (fuel : nat) (i stop step : Z) : list Z :=
  match fuel with
  | O => []
  | S fuel' =>
      if i <? stop then i :: range_step_aux fuel' (i + step) stop step else []
  end.

(** [range(start, stop, step)]: a zero step raises, a negative step from
    below [stop] gives nothing. *)
Definition range_step (start stop step : Z) : result (list Z) :=
  if step =? 0 then Raise ValueError
  else if step <? 0 then Ok (filter (fun i => stop <? i)
                               (map (fun k => start + step * Z.of_nat k)
                                    (seq 0 (Z.to_nat (start - stop)))))
  else Ok (range_step_aux (Z.to_nat (stop - start)) start stop step).

(** [l[i:j]] for [0 <= i]; the end is clamped to the length. *)
Definition slice {A : Type} (i j : Z) (l : list A) : list A :=
  firstn (Z.to_nat (j - i)) (skipn (Z.to_nat i) l).

End Py.

Import PyStr Re Py.

#[global] Instance result_ret : MRet result := fun A a => Ok a.
#[global] Instance result_bind : MBind result := fun A B k r => bind r k.

(* ------------------------------------------------------------------ *)
(** ** Configuration ([HYBRID_CHUNKING_CONFIG]) *)

(** The entries of the configuration dictionary that the functions below
    read.  The two entries the orchestrator reads with
    [config.get(key, default)] may be absent. *)
Record config : Type := Config {
  skip_first_pages : option Z;
  pages_per_partition : option Z;
  footnote_pattern : string;
  paragraph_number_patterns : list string;
  high_number_patterns : list string;
  date_patterns : list string;
  header_patterns : list string
}.

(** The patterns of the configuration, as the raw strings of the source. *)
Definition footnote_start : string := "^(\d{1,3})\s+".

Definition primary_spaced : string := "^(\d{1,4})\.\s+".
Definition primary_bare : string := "^(\d{1,4})\.".

Definition high_four : string := "^(\d{4})\.\s+".
Definition high_three_four : string := "^(\d{3,4})\.\s+".

Definition date_year : string := "\b(19|20)\d{2}\b".
Definition date_day_month_year : string :=
  "\b\d{1,2}\s+(January|February|March|April|May|June|July|August|September|October|November|December)\s+\d{4}\b".
Definition date_day_word_year : string := "\b\d{1,2}\s+\w+\s+\d{4}\b".

Definition header_running : string :=
  "ICC-01/14-01/18-2784-Red\s+\d{2}-\d{2}-\d{4}\s+\d+/\d+\s+T".
Definition header_footer_line : string :=
  "No\.\s+ICC-01/14-01/18\s+\d+/\d+\s+\d{2}\s+\w+\s+\d{4}".
Definition header_page_number : string := "^\d+/\d+$".
Definition header_document : string := "^No\.\s+ICC-".

Definition HYBRID_CHUNKING_CONFIG : config := {|
  skip_first_pages := Some 6;
  pages_per_partition := None;
  footnote_pattern := footnote_start;
  paragraph_number_patterns := [primary_spaced; primary_bare];
  high_number_patterns := [high_four; high_three_four];
  date_patterns := [date_year; date_day_month_year; date_day_word_year];
  header_patterns :=
    [header_running; header_footer_line; header_page_number; header_document]
|}.

(** The citation patterns written out in [_is_valid_footnote_pymupdf] and
    [_calculate_footnote_confidence]. *)
Definition pat_witness : string := "P-\d+:".
Definition pat_transcript : string := "T-\d+".
Definition pat_car : string := "CAR-".
Definition pat_icc : string := "ICC-".
Definition pat_para : string := "para\.?\s+\d+".
Definition pat_page : string := "p\.\s+\d+".
Definition pat_lines : string := "lines?\s+\d+".
Definition pat_article : string := "Article\s+\d+".
Definition pat_rule : string := "Rule\s+\d+".

(** The pattern of [_extract_footnote_references]. *)
Definition pat_reference : string := "(\d{1,3})".

(* ------------------------------------------------------------------ *)
(** ** Data model *)

Record Footnote : Type := mkFootnote {
  fn_number : string;
  fn_content : string;
  fn_page : Z;
  fn_confidence : float;
  fn_detection_method : string;
  fn_referenced_paragraphs : list string
}.

Record LegalParagraph : Type := mkLegalParagraph {
  number : string;
  content : string;
  page : Z;
  section_type : string;
  token_count : Z;
  footnote_references : list string;
  start_line : Z;
  end_line : Z;
  extraction_method : string;
  confidence : float
}.

Inductive meta_value : Type :=
| MetaStr (s : string)
| MetaFloat (f : float).

Record SemanticChunk : Type := mkSemanticChunk {
  chunk_id : string;
  chunk_content : string;
  chunk_type : string;
  page_range : Z * Z;
  paragraph_numbers : list string;
  footnote_numbers : list string;
  chunk_token_count : Z;
  metadata : list (string * meta_value)
}.

(** What the PDF library gives for one page: the text layer
    ([page.get_text("text")]) and the outcome of rendering the page and
    running the OCR engine on it. *)
Record Page : Type := mkPage {
  get_text : string;
  image_to_string : result string
}.

(** An open document: [doc[i]] returns a page or raises. *)
Definition Document : Type := Z -> result Page.

(** [HybridPyMuPDFOCRChunker]: the fields of [self]. *)
Record Chunker : Type := mkChunker {
  pdf_path : string;
  cfg : config;
  doc : option Document;
  paragraphs : list LegalParagraph;
  footnotes : list Footnote
}.

(** [HybridPyMuPDFOCRChunker(pdf_path, config)]: no document is opened. *)
Definition new_chunker (path : string) (c : config) : Chunker :=
  mkChunker path c None [] [].

(** [self.doc[page_num]] *)
Definition load_page (self : Chunker) (page_num : Z) : result Page :=
  match doc self with
  | None => Raise TypeError
  | Some d => d page_num
  end.

(* ------------------------------------------------------------------ *)
(** ** The hybrid chunker ([HybridPyMuPDFOCRChunker]) *)

Definition newline : ascii := Ascii false true false true false false false false.

(** [any(re.search(pattern, line) for pattern in header_patterns)] *)
Definition is_header_footer (self : Chunker) (line : string) : bool :=
  existsb (fun pattern => found false pattern line) (header_patterns (cfg self)).

(** [extract_text_with_ocr]: any failure inside the [try] gives no lines. *)
Definition extract_text_with_ocr (self : Chunker) (page_num : Z) : list string :=
  match (pg ← load_page self page_num; image_to_string pg) with
  | Ok text =>
      map strip (filter (fun line => truthy (strip line)) (split_on newline text))
  | Raise _ => []
  end.

(** [clean_headers_footers] *)
Definition clean_headers_footers (self : Chunker) (lines : list string) : list string :=
  filter (fun line => negb (is_header_footer self line)) lines.

Definition legal_patterns : list string :=
  [pat_witness; pat_transcript; pat_car; pat_icc; pat_para; pat_page;
   pat_lines; pat_article; pat_rule].

(** The loop over the date patterns: [false] when it returns [False]. *)
Fixpoint passes_date_patterns (pats : list string) (content : string) : bool :=
  match pats with
  | [] => true
  | date_pattern :: pats' =>
      if found true date_pattern content then false
      else passes_date_patterns pats' content
  end.

(** [_is_valid_footnote_pymupdf] *)
Definition _is_valid_footnote_pymupdf (self : Chunker) (content footnote_num : string)
    : bool :=
  if len content <? 10 then false
  else if negb (passes_date_patterns (date_patterns (cfg self)) content) then false
  else existsb (fun pattern => found false pattern content) legal_patterns.

(** [_calculate_footnote_confidence] *)
Definition _calculate_footnote_confidence (content : string) : float :=
  let score := 0.0%float in
  let score := if found false pat_witness content then (score + 0.4)%float else score in
  let score := if found false pat_transcript content then (score + 0.3)%float else score in
  let score := if found false pat_car content then (score + 0.2)%float else score in
  let score := if found false pat_icc content then (score + 0.2)%float else score in
  let score := if found false pat_para content then (score + 0.1)%float else score in
  let score := if found false pat_page content then (score + 0.1)%float else score in
  let score := if found false pat_article content then (score + 0.1)%float else score in
  let score := if found false pat_rule content then (score + 0.1)%float else score in
  let score := if 50 <? len content then (score + 0.1)%float else score in
  Py.min score 1.0%float.

(** [current_footnote.content += " " + line] *)
Definition append_content (f : Footnote) (line : string) : Footnote :=
  mkFootnote (fn_number f) (fn_content f +:+ " " +:+ line) (fn_page f)
    (fn_confidence f) (fn_detection_method f) (fn_referenced_paragraphs f).

(** The state of the footnote scan: the closed footnotes and the open one. *)
Definition fn_state : Type := list Footnote * option Footnote.

(** [if current_footnote: footnotes.append(current_footnote)] *)
Definition save_footnote (st : fn_state) : list Footnote :=
  match snd st with
  | Some f => fst st ++ [f]
  | None => fst st
  end.

(** One turn of the loop of [extract_footnotes_pymupdf]. *)
Definition footnote_step (self : Chunker) (page_num : Z) (st : fn_state)
    (line : string) : fn_state :=
  let line := strip line in
  if negb (truthy line) then st
  else if is_header_footer self line then st
  else
    match re_match false (footnote_pattern (cfg self)) line with
    | Some footnote_match =>
        let saved := save_footnote st in
        let footnote_num := group 1 footnote_match in
        let content := strip (drop (m_end footnote_match) line) in
        if _is_valid_footnote_pymupdf self content footnote_num
        then (saved,
              Some (mkFootnote footnote_num content (page_num + 1)
                      (_calculate_footnote_confidence content) "pymupdf" []))
        else (saved, None)
    | None =>
        match snd st with
        | Some current_footnote =>
            if 10 <? len line
            then (fst st, Some (append_content current_footnote line))
            else st
        | None => st
        end
    end.

(** The scan of [extract_footnotes_pymupdf] over the lines of a text layer. *)
Definition scan_footnotes (self : Chunker) (page_num : Z) (lines : list string)
    : list Footnote :=
  save_footnote (fold_left (footnote_step self page_num) lines ([], None)).

(** [extract_footnotes_pymupdf] *)
Definition extract_footnotes_pymupdf (self : Chunker) (page_num : Z)
    : result (list Footnote) :=
  pg ← load_page self page_num;
  mret (scan_footnotes self page_num (split_on newline (get_text pg))).

(** [_is_valid_paragraph] *)
Definition _is_valid_paragraph (content : string) : bool :=
  if len content <? 50 then false
  else if existsb (fun indicator => contains indicator (lower content))
            ["chamber"; "court"; "evidence"; "statute"; "article"]
  then true
  else 10 <=? Z.of_nat (length (split_ws content)).

(** [_extract_footnote_references] *)
Definition _extract_footnote_references (content : string) : list string :=
  re_findall false pat_reference content.

(** [int(len(content.split()) * 1.3)] *)
Definition estimate_tokens (content : string) : Z :=
  int_of_float (float_of_int (Z.of_nat (length (split_ws content))) * 1.3)%float.

(** The first pattern of the list that matches at the start of the line. *)
Fixpoint first_match (patterns : list string) (line : string) : option match_obj :=
  match patterns with
  | [] => None
  | pattern :: patterns' =>
      match re_match false pattern line with
      | Some m => Some m
      | None => first_match patterns' line
      end
  end.

(** The paragraph-number match of a line: the primary patterns, then the
    high-number patterns when none of the primary ones matched. *)
Definition find_para_match (self : Chunker) (line : string) : option match_obj :=
  match first_match (paragraph_number_patterns (cfg self)) line with
  | Some m => Some m
  | None => first_match (high_number_patterns (cfg self)) line
  end.

(** The state of the paragraph scan. *)
Record para_state : Type := mkParaState {
  ps_paragraphs : list LegalParagraph;
  current_para : list string;
  current_num : option string;
  seen_numbers : gset string
}.

(** [current_para and current_num and current_num not in seen_numbers] *)
Definition can_finalize (st : para_state) : option string :=
  match current_para st, current_num st with
  | _ :: _, Some num =>
      if truthy num && negb (bool_decide (num ∈ seen_numbers st))
      then Some num else None
  | _, _ => None
  end.

(** Closing the open paragraph: it is emitted when its number is new and
    its content is valid; [stop] is the line index where it ends. *)
Definition finalize (page_num stop : Z) (st : para_state) : para_state :=
  match can_finalize st with
  | Some num =>
      let content := strip (join " " (current_para st)) in
      if _is_valid_paragraph content then
        let paragraph :=
          mkLegalParagraph num content (page_num + 1) "main_text"
            (estimate_tokens content) (_extract_footnote_references content)
            (stop - Z.of_nat (length (current_para st))) stop
            "hybrid_ocr" 0.8%float in
        mkParaState (ps_paragraphs st ++ [paragraph]) (current_para st)
          (current_num st) ({[num]} ∪ seen_numbers st)
      else st
  | None => st
  end.

(** One turn of the loop of [extract_paragraphs_ocr], with the match of the
    line given. *)
Definition para_step (page_num line_num : Z) (para_match : option match_obj)
    (line : string) (st : para_state) : para_state :=
  match para_match with
  | Some m =>
      let st := finalize page_num line_num st in
      let new_num := group 1 m in
      if negb (bool_decide (new_num ∈ seen_numbers st))
      then mkParaState (ps_paragraphs st) [strip (drop (m_end m) line)]
             (Some new_num) (seen_numbers st)
      else mkParaState (ps_paragraphs st) [] None (seen_numbers st)
  | None =>
      match current_para st with
      | _ :: _ =>
          mkParaState (ps_paragraphs st) (current_para st ++ [line])
            (current_num st) (seen_numbers st)
      | [] => st
      end
  end.

(** The loop over [enumerate(lines)], for a given way to match a line. *)
Fixpoint scan_paragraphs (matcher : string -> option match_obj) (page_num : Z)
    (line_num : Z) (lines : list string) (st : para_state) : para_state :=
  match lines with
  | [] => st
  | line :: lines' =>
      scan_paragraphs matcher page_num (line_num + 1) lines'
        (para_step page_num line_num (matcher line) line st)
  end.

Definition extract_paragraphs_with (matcher : string -> option match_obj)
    (lines : list string) (page_num : Z) : list LegalParagraph :=
  let st := scan_paragraphs matcher page_num 0 lines (mkParaState [] [] None ∅) in
  ps_paragraphs (finalize page_num (Z.of_nat (length lines)) st).

(** [extract_paragraphs_ocr] *)
Definition extract_paragraphs_ocr (self : Chunker) (lines : list string)
    (page_num : Z) : list LegalParagraph :=
  extract_paragraphs_with (find_para_match self) lines page_num.

(** [process_page] *)
Definition process_page (self : Chunker) (page_num : Z)
    : result (list LegalParagraph * list Footnote) :=
  footnotes ← extract_footnotes_pymupdf self page_num;
  let lines := extract_text_with_ocr self page_num in
  match lines with
  | [] => mret ([], footnotes)
  | _ :: _ =>
      let cleaned_lines := clean_headers_footers self lines in
      let paragraphs := extract_paragraphs_ocr self cleaned_lines page_num in
      mret (paragraphs, footnotes)
  end.

(** *** The chunk assembler *)

(** The dictionary [paragraphs_by_page]. *)
Definition group_by_page (paras : list LegalParagraph) : gmap Z (list LegalParagraph) :=
  fold_left
    (fun by_page para =>
       <[page para := default [] (by_page !! page para) ++ [para]]> by_page)
    paras ∅.

(** [sorted(paragraphs_by_page.keys())] *)
Definition sorted_pages (by_page : gmap Z (list LegalParagraph)) : list Z :=
  merge_sort Z.le (elements (dom by_page)).

Definition paragraph_chunk (id : Z) (para : LegalParagraph) : SemanticChunk :=
  mkSemanticChunk ("para_" +:+ pretty id) (content para) "paragraph"
    (page para, page para) [number para] (footnote_references para)
    (token_count para)
    [("extraction_method", MetaStr (extraction_method para));
     ("confidence", MetaFloat (confidence para));
     ("section_type", MetaStr (section_type para))].

Definition footnote_chunk (id : Z) (footnote : Footnote) : SemanticChunk :=
  mkSemanticChunk ("footnote_" +:+ pretty id) (fn_content footnote) "footnote"
    (fn_page footnote, fn_page footnote) [] [fn_number footnote]
    (estimate_tokens (fn_content footnote))
    [("detection_method", MetaStr (fn_detection_method footnote));
     ("confidence", MetaFloat (fn_confidence footnote))].

(** The chunks built so far and the next value of the counter. *)
Definition chunk_state : Type := list SemanticChunk * Z.

Definition add_chunk {A : Type} (mk : Z -> A -> SemanticChunk) (st : chunk_state)
    (x : A) : chunk_state :=
  (fst st ++ [mk (snd st) x], snd st + 1).

(** The body of the loop over the sorted pages. *)
Definition emit_page (self : Chunker) (by_page : gmap Z (list LegalParagraph))
    (st : chunk_state) (page_num : Z) : chunk_state :=
  let page_paragraphs := default [] (by_page !! page_num) in
  let page_footnotes := filter (fun f => fn_page f =? page_num) (footnotes self) in
  let st := fold_left (add_chunk paragraph_chunk) page_paragraphs st in
  fold_left (add_chunk footnote_chunk) page_footnotes st.

(** [create_semantic_chunks] *)
Definition create_semantic_chunks (self : Chunker) : list SemanticChunk :=
  let paragraphs_by_page := group_by_page (paragraphs self) in
  fst (fold_left (emit_page self paragraphs_by_page)
         (sorted_pages paragraphs_by_page) ([], 1)).

(* ------------------------------------------------------------------ *)
(** ** The distributed orchestrator ([DatabricksHybridChunker]) *)

(** One entry of the result list: the dictionary built for a page. *)
Record page_entry : Type := mkPageEntry {
  pe_page : Z;
  pe_paragraphs : list LegalParagraph;
  pe_footnotes : list Footnote;
  pe_processing_time : Z;
  pe_success : bool;
  pe_error : option string
}.

Definition failure_entry (page_num : Z) (error : option string) : page_entry :=
  mkPageEntry page_num [] [] 0 false error.

(** [bool(t)] of the pair [process_page] returns: a pair is never empty. *)
Definition pair_truthy {A B : Type} (t : A * B) : bool := true.

(** [t.get(key, default)] on a pair: tuples have no such attribute. *)
Definition pair_get {A B C : Type} (t : A * B) (key : string) (dflt : C) : result C :=
  Raise AttributeError.

(** The body of the inner [try] of [_process_page_partition]. *)
Definition try_page (chunker : Chunker) (page_num : Z) : result page_entry :=
  page_result ← process_page chunker page_num;
  if pair_truthy page_result then
    paras ← pair_get page_result "paragraphs" ([] : list LegalParagraph);
    notes ← pair_get page_result "footnotes" ([] : list Footnote);
    time ← pair_get page_result "processing_time" 0;
    mret (mkPageEntry page_num paras notes time true None)
  else mret (failure_entry page_num None).

(** One turn of the page loop: the inner [except] records the failure. *)
Definition partition_entry (chunker : Chunker) (page_num : Z) : page_entry :=
  match try_page chunker page_num with
  | Ok entry => entry
  | Raise e => failure_entry page_num (Some (str_of_exn e))
  end.

(** [chunker.close()] *)
Definition close (self : Chunker) : result unit :=
  match doc self with
  | Some _ => Ok tt
  | None => Ok tt
  end.

(** [_process_page_partition]: a fresh chunker per partition; when the
    outer [try] fails after the loop, a failure entry per page is added to
    what the loop has already recorded. *)
Definition _process_page_partition (path : string) (c : config) (pages : list Z)
    : list page_entry :=
  let chunker := new_chunker path c in
  let results := map (partition_entry chunker) pages in
  match close chunker with
  | Ok _ => results
  | Raise e =>
      results ++ map (fun page_num => failure_entry page_num (Some (str_of_exn e))) pages
  end.

(** The parallel execution capability.  A function handed to [flatMap] is
    shipped to the executors: Spark pickles it, with what it references,
    when the job is submitted.  [sh_holds_session] says that the function
    reaches a Spark session, which cannot be pickled. *)
Record shipped (A B : Type) : Type := mkShipped {
  sh_fun : A -> list B;
  sh_holds_session : bool
}.
Arguments mkShipped {A B} sh_fun sh_holds_session.
Arguments sh_fun {A B} s.
Arguments sh_holds_session {A B} s.

(** [sparkContext.parallelize(c, numSlices)] on a list: the batch size is
    [len(c) // numSlices]. *)
Definition parallelize {A : Type} (c : list A) (numSlices : Z) : result (list A) :=
  if numSlices =? 0 then Raise ZeroDivisionError else Ok c.

(** [rdd.flatMap(f).collect()]: [collect] submits the job, which pickles
    [f]; the results come back in partition order. *)
Definition flatMap_collect {A B : Type} (f : shipped A B) (rdd : list A)
    : result (list B) :=
  if sh_holds_session f then Raise PicklingError
  else Ok (flat_map (sh_fun f) rdd).

(** [self._process_page_partition], the function handed to [flatMap]: a
    bound method of the orchestrator, whose field [self.spark] is the
    active Spark session. *)
Definition partition_task (path : string) (c : config)
    : shipped (list Z) page_entry :=
  mkShipped (_process_page_partition path c) true.

(** [[pages[i:i + n] for i in range(0, len(pages), n)]] *)
Definition make_partitions (pages_to_process : list Z) (n : Z) : result (list (list Z)) :=
  starts ← range_step 0 (Z.of_nat (length pages_to_process)) n;
  mret (map (fun i => slice i (i + n) pages_to_process) starts).

Definition set_paragraph_page (p : Z) (para : LegalParagraph) : LegalParagraph :=
  mkLegalParagraph (number para) (content para) p (section_type para)
    (token_count para) (footnote_references para) (start_line para)
    (end_line para) (extraction_method para) (confidence para).

Definition set_footnote_page (p : Z) (f : Footnote) : Footnote :=
  mkFootnote (fn_number f) (fn_content f) p (fn_confidence f)
    (fn_detection_method f) (fn_referenced_paragraphs f).

Record statistics : Type := mkStatistics {
  total_pages_processed : Z;
  successful_pages : Z;
  failed_pages : Z;
  total_paragraphs : Z;
  total_footnotes : Z;
  total_processing_time : float;
  avg_time_per_page : float
}.

Record document_result : Type := mkDocumentResult {
  dr_paragraphs : list LegalParagraph;
  dr_footnotes : list Footnote;
  dr_statistics : statistics
}.

(** The aggregation loop: paragraphs, footnotes, succeeded, failed. *)
Definition aggregate_step
    (acc : list LegalParagraph * list Footnote * Z * Z) (page_result : page_entry)
    : list LegalParagraph * list Footnote * Z * Z :=
  let '(all_paragraphs, all_footnotes, successful, failed) := acc in
  if pe_success page_result then
    (all_paragraphs ++ map (set_paragraph_page (pe_page page_result))
                           (pe_paragraphs page_result),
     all_footnotes ++ map (set_footnote_page (pe_page page_result))
                          (pe_footnotes page_result),
     successful + 1, failed)
  else (all_paragraphs, all_footnotes, successful, failed + 1).

(** The page partitions of a run. *)
Definition page_partitions (c : config) (total_pages : Z) : result (list (list Z)) :=
  let skip_pages := default 6 (skip_first_pages c) in
  let start_page := skip_pages + 1 in
  let pages_to_process := range start_page (total_pages + 1) in
  make_partitions pages_to_process (default 50 (pages_per_partition c)).

(** The collected per-page results of a run. *)
Definition collect_results (path : string) (c : config) (total_pages : Z)
    : result (list page_entry) :=
  if total_pages =? 0 then Raise (RuntimeError "Could not determine PDF page count")
  else
    partitions ← page_partitions c total_pages;
    partition_rdd ← parallelize partitions (Z.of_nat (length partitions));
    flatMap_collect (partition_task path c) partition_rdd.

(** [process_document_distributed]; [total_pages] is what
    [_get_pdf_metadata] returned, the two times are the clock readings. *)
Definition process_document_distributed (path : string) (c : config)
    (total_pages : Z) (start_time end_time : float) : result document_result :=
  all_results ← collect_results path c total_pages;
  let '(all_paragraphs, all_footnotes, successful, failed) :=
    fold_left aggregate_step all_results ([], [], 0, 0) in
  let total_time := (end_time - start_time)%float in
  let n := Z.of_nat (length all_results) in
  mret (mkDocumentResult all_paragraphs all_footnotes
          (mkStatistics n successful failed
             (Z.of_nat (length all_paragraphs)) (Z.of_nat (length all_footnotes))
             total_time
             (match all_results with
              | [] => 0%float
              | _ :: _ => (total_time / float_of_int n)%float
              end))).

(** The configuration of the notebook: the default one with
    [pages_per_partition] set to 50. *)
Definition notebook_config : config :=
  Config (Some 6) (Some 50) (footnote_pattern HYBRID_CHUNKING_CONFIG)
    (paragraph_number_patterns HYBRID_CHUNKING_CONFIG)
    (high_number_patterns HYBRID_CHUNKING_CONFIG)
    (date_patterns HYBRID_CHUNKING_CONFIG)
    (header_patterns HYBRID_CHUNKING_CONFIG).

(* ------------------------------------------------------------------ *)
(** ** Reference definitions the properties are stated against *)

(** The paragraph scan with the primary patterns only. *)
Definition find_para_match_primary (self : Chunker) (line : string) : option match_obj :=
  first_match (paragraph_number_patterns (cfg self)) line.

Definition extract_paragraphs_primary_only (self : Chunker) (lines : list string)
    (page_num : Z) : list LegalParagraph :=
  extract_paragraphs_with (find_para_match_primary self) lines page_num.

(** Footnote validation as three conditions. *)
Definition long_enough (content : string) : bool := 10 <=? len content.

Definition is_date (self : Chunker) (content : string) : bool :=
  existsb (fun date_pattern => found true date_pattern content) (date_patterns (cfg self)).

Definition looks_like_citation (content : string) : bool :=
  found false pat_witness content || found false pat_transcript content
  || found false pat_car content || found false pat_icc content
  || found false pat_para content || found false pat_page content
  || found false pat_lines content || found false pat_article content
  || found false pat_rule content.

(** The confidence score as a table of increments. *)
Definition confidence_increments : list (string * float) :=
  [(pat_witness, 0.4); (pat_transcript, 0.3); (pat_car, 0.2); (pat_icc, 0.2);
   (pat_para, 0.1); (pat_page, 0.1); (pat_article, 0.1); (pat_rule, 0.1)]%float.

Definition add_increment (content : string) (score : float) (entry : string * float)
    : float :=
  if found false (fst entry) content then (score + snd entry)%float else score.

Definition confidence_by_table (content : string) : float :=
  let score := fold_left (add_increment content) confidence_increments 0.0%float in
  let score := if 50 <? len content then (score + 0.1)%float else score in
  if (1.0 <? score)%float then 1.0%float else score.

(** [round(word_count * 1.3)] *)
Definition rounded_estimate (content : string) : Z :=
  Py.round (float_of_int (Z.of_nat (length (split_ws content))) * 1.3)%float.

(** The maximal runs of decimal digits of a string, in order: the run that
    starts at the head (empty when the head is no digit) and the later ones. *)
Definition cons_run (r : string) (rs : list string) : list string :=
  match r with EmptyString => rs | _ => r :: rs end.

Fixpoint digit_runs_aux (s : string) : string * list string :=
  match s with
  | EmptyString => (EmptyString, [])
  | String a s' =>
      let '(r, rs) := digit_runs_aux s' in
      if isdecimal a then (String a r, rs) else (EmptyString, cons_run r rs)
  end.

Definition digit_runs (s : string) : list string :=
  cons_run (fst (digit_runs_aux s)) (snd (digit_runs_aux s)).

(** The standalone references: the maximal digit runs of one to three digits. *)
Definition standalone_references (s : string) : list string :=
  filter (fun r => (String.length r <=? 3)%nat) (digit_runs s).

(** A digit run cut from the left into pieces of three; the last piece has
    what is left. *)
Fixpoint pieces_of_three (r : string) : list string :=
  match r with
  | String a (String b (String c r')) =>
      String a (String b (String c EmptyString)) :: pieces_of_three r'
  | EmptyString => []
  | _ => [r]
  end.

Definition digit_pieces (s : string) : list string :=
  flat_map pieces_of_three (digit_runs s).

(** Whether a string opens with a decimal digit. *)
Definition starts_with_digit (s : string) : bool :=
  match s with String a _ => isdecimal a | EmptyString => false end.

(** [numbered line g]: the line opens with the three or four digits [g]
    and a dot. *)
Inductive numbered : string -> string -> Prop :=
| numbered3 c1 c2 c3 rest :
    cls_test false CDigit c1 = true -> cls_test false CDigit c2 = true ->
    cls_test false CDigit c3 = true ->
    numbered (String c1 (String c2 (String c3 (String "." rest))))
             (String c1 (String c2 (String c3 "")))
| numbered4 c1 c2 c3 c4 rest :
    cls_test false CDigit c1 = true -> cls_test false CDigit c2 = true ->
    cls_test false CDigit c3 = true -> cls_test false CDigit c4 = true ->
    numbered (String c1 (String c2 (String c3 (String c4 (String "." rest)))))
             (String c1 (String c2 (String c3 (String c4 "")))).

(** What every paragraph emitted for page index [page_num] carries. *)
Definition well_formed (page_num : Z) (p : LegalParagraph) : Prop :=
  token_count p = estimate_tokens (content p)
  /\ footnote_references p = _extract_footnote_references (content p)
  /\ _is_valid_paragraph (content p) = true
  /\ page p = page_num + 1.

(** The invariant of the paragraph scan: the emitted numbers are pairwise
    distinct, they are exactly the numbers in [seen_numbers], and every
    emitted paragraph is well formed. *)
Definition para_inv (page_num : Z) (st : para_state) : Prop :=
  NoDup (map number (ps_paragraphs st))
  /\ (forall n, n ∈ map number (ps_paragraphs st) <-> n ∈ seen_numbers st)
  /\ Forall (well_formed page_num) (ps_paragraphs st).

(** [int(k * 1.3)] against the exact floor of [13 k / 10]. *)
Definition truncation_agrees (k : Z) : bool :=
  int_of_float (float_of_int k * 1.3)%float =? 13 * k / 10.

Fixpoint agrees_from (k : Z) (fuel : nat) : bool :=
  match fuel with
  | O => true
  | S fuel' => truncation_agrees k && agrees_from (k + 1) fuel'
  end.

(* ------------------------------------------------------------------ *)
(** ** Sample inputs *)

(** [HybridPyMuPDFOCRChunker("data/jugement.pdf")], as [main] builds it. *)
Definition default_chunker : Chunker :=
  new_chunker "data/jugement.pdf" HYBRID_CHUNKING_CONFIG.

Definition line_nine_words : string :=
  "45. The Chamber notes the submissions of the Prosecution accordingly.".

Definition paragraph_nine_words : LegalParagraph :=
  mkLegalParagraph "45"
    "The Chamber notes the submissions of the Prosecution accordingly."
    3 "main_text" 11 [] 0 1 "hybrid_ocr" 0.8.

Definition line_with_year : string :=
  "45. The Chamber finds that in 2014 the accused was present at the relevant location.".

Definition paragraph_with_year : LegalParagraph :=
  mkLegalParagraph "45"
    "The Chamber finds that in 2014 the accused was present at the relevant location."
    3 "main_text" 18 ["201"; "4"] 0 1 "hybrid_ocr" 0.8.

(** The content of a footnote opened with [opening] after the
    continuation lines [conts] were appended. *)
Definition continued (opening : string) (conts : list string) : string :=
  fold_left (fun c line => c +:+ " " +:+ line) conts opening.

(** [opened_by self page_num f]: the footnote [f] was opened on page index
    [page_num] by a numbered line whose content passed validation and gave
    the confidence, and only continuation lines were added since. *)
Definition opened_by (self : Chunker) (page_num : Z) (f : Footnote) : Prop :=
  exists opening conts,
    _is_valid_footnote_pymupdf self opening (fn_number f) = true
    /\ fn_confidence f = _calculate_footnote_confidence opening
    /\ fn_content f = continued opening conts
    /\ Forall (fun line => 10 < len line) conts
    /\ fn_page f = page_num + 1.

(** The invariant of the footnote scan. *)
Definition fn_inv (self : Chunker) (page_num : Z) (st : fn_state) : Prop :=
  Forall (opened_by self page_num) (fst st)
  /\ forall f, snd st = Some f -> opened_by self page_num f.

(** A text layer with a footnote and a continuation line that brings a
    date and a transcript reference. *)
Definition text_with_continuation : string :=
  "12 P-0123: witness statement, para. 45" +:+ String newline
    "continued on 23 February 1975 in T-45 transcript".

Definition footnote_with_continuation : Footnote :=
  mkFootnote "12"
    "P-0123: witness statement, para. 45 continued on 23 February 1975 in T-45 transcript"
    3 0.5 "pymupdf" [].

(** A page whose text layer reads and whose OCR fails. *)
Definition page_without_ocr : Page :=
  mkPage text_with_continuation (Raise (OtherError "tesseract is not installed")).

(** A chunker on an open document all of whose pages are [page_without_ocr]. *)
Definition chunker_without_ocr : Chunker :=
  mkChunker "data/jugement.pdf" HYBRID_CHUNKING_CONFIG
    (Some (fun _ => Ok page_without_ocr)) [] [].

(** A chunker on an open document that has the single page 0. *)
Definition chunker_one_page : Chunker :=
  mkChunker "data/jugement.pdf" HYBRID_CHUNKING_CONFIG
    (Some (fun i => if i =? 0 then Ok page_without_ocr else Raise IndexError))
    [] [].

(** Collections with a footnote on a page that has no paragraph. *)
Definition sample_paragraph : LegalParagraph :=
  mkLegalParagraph "45"
    "The Chamber notes the submissions of the Prosecution accordingly."
    4 "main_text" 11 [] 0 1 "hybrid_ocr" 0.8.

Definition footnote_page_3 : Footnote :=
  mkFootnote "12" "P-0123: witness statement, para. 45" 3 0.5 "pymupdf" [].

Definition footnote_page_4 : Footnote :=
  mkFootnote "13" "See ICC-01/14-01/18-2784" 4 0.2 "pymupdf" [].

Definition chunker_with_lone_footnote : Chunker :=
  mkChunker "data/jugement.pdf" HYBRID_CHUNKING_CONFIG None
    [sample_paragraph] [footnote_page_3; footnote_page_4].

(* ------------------------------------------------------------------ *)
(** ** Where an emitted paragraph comes from *)

(** The lines [lines[i+1:j]]. *)
Definition lines_between (all : list string) (i j : nat) : list string :=
  firstn (j - S i) (skipn (S i) all).

(** [accumulated matcher all i j num buf]: line [i] of [all] is a numbered
    line with number [num], the buffer holds what follows the number on
    that line and then the lines [i+1 .. j-1], and none of these matches. *)
Definition accumulated (matcher : string -> option match_obj) (all : list string)
    (i j : nat) (num : string) (buf : list string) : Prop :=
  exists line m,
    all !! i = Some line /\ matcher line = Some m /\ num = group 1 m
    /\ buf = strip (drop (m_end m) line) :: lines_between all i j
    /\ (i < j <= length all)%nat
    /\ Forall (fun l => matcher l = None) (lines_between all i j).

(** [traced matcher all p]: the paragraph [p] was read from the lines
    [start_line p .. end_line p - 1] of [all]. *)
Definition traced (matcher : string -> option match_obj) (all : list string)
    (p : LegalParagraph) : Prop :=
  exists i j buf,
    start_line p = Z.of_nat i /\ end_line p = Z.of_nat j
    /\ accumulated matcher all i j (number p) buf
    /\ content p = strip (join " " buf).

(** The paragraphs emitted so far, before line [n]. *)
Definition closed_inv (matcher : string -> option match_obj) (all : list string)
    (n : nat) (ps : list LegalParagraph) : Prop :=
  Forall (traced matcher all) ps
  /\ Forall (fun p => end_line p <= Z.of_nat n) ps
  /\ StronglySorted (fun p q => end_line p <= start_line q) ps.

(** The state of the scan before line [n]. *)
Definition trace_inv (matcher : string -> option match_obj) (all : list string)
    (n : nat) (st : para_state) : Prop :=
  closed_inv matcher all n (ps_paragraphs st)
  /\ match current_para st with
     | [] => True
     | _ :: _ =>
         exists i num,
           current_num st = Some num
           /\ accumulated matcher all i n num (current_para st)
           /\ Forall (fun p => end_line p <= Z.of_nat i) (ps_paragraphs st)
     end.

(** [s] is a string of at least [lo] and at most [hi] decimal digits. *)
Fixpoint all_decimal (s : string) : bool :=
  match s with
  | EmptyString => true
  | String a s' => isdecimal a && all_decimal s'
  end.

Definition decimal_number (lo hi : nat) (s : string) : Prop :=
  all_decimal s = true /\ (lo <= String.length s <= hi)%nat.

(* ------------------------------------------------------------------ *)
(** ** Occurrences of a paragraph number on a page *)







(* ------------------------------------------------------------------ *)
(** ** Where an emitted footnote comes from *)

(** A line the footnote scan looks at: not blank and no header or footer. *)
Definition kept_line (self : Chunker) (l : string) : bool :=
  truthy (strip l) && negb (is_header_footer self (strip l)).

(** The footnote-number match of a line the scan looks at. *)
Definition numbered_line (self : Chunker) (l : string) : option match_obj :=
  if kept_line self l
  then re_match false (footnote_pattern (cfg self)) (strip l)
  else None.

(** The continuation lines among [ls]: the lines looked at, stripped, that
    are longer than 10 characters. *)
Definition continuation (self : Chunker) (ls : list string) : list string :=
  filter (fun l => 10 <? len l) (map strip (filter (kept_line self) ls)).

(** [fn_traced self page_num all i j f]: the footnote [f] was opened by
    line [i] of [all], whose content passed validation, and continued by
    the lines [i+1 .. j-1], none of which is numbered. *)
Definition fn_traced (self : Chunker) (page_num : Z) (all : list string)
    (i j : nat) (f : Footnote) : Prop :=
  exists line m,
    all !! i = Some line /\ numbered_line self line = Some m
    /\ (i < j <= length all)%nat
    /\ Forall (fun l => numbered_line self l = None) (lines_between all i j)
    /\ _is_valid_footnote_pymupdf self (strip (drop (m_end m) (strip line)))
         (group 1 m) = true
    /\ f = mkFootnote (group 1 m)
             (continued (strip (drop (m_end m) (strip line)))
                (continuation self (lines_between all i j)))
             (page_num + 1)
             (_calculate_footnote_confidence (strip (drop (m_end m) (strip line))))
             "pymupdf" [].

(** Line [j] carries a footnote number, or [j] is the end of the text. *)
Definition fn_end (self : Chunker) (all : list string) (j : nat) : Prop :=
  j = length all \/ exists l m, all !! j = Some l /\ numbered_line self l = Some m.

(** The state of the footnote scan before line [n]: a saved footnote was
    closed by a numbered line or by the end of the text. *)
Definition fn_trace_inv (self : Chunker) (page_num : Z) (all : list string)
    (n : nat) (st : fn_state) : Prop :=
  Forall (fun f => exists i j,
            (j <= n)%nat /\ fn_traced self page_num all i j f /\ fn_end self all j)
    (fst st)
  /\ forall f, snd st = Some f -> exists i, fn_traced self page_num all i n f.

(* ------------------------------------------------------------------ *)
(** ** The document loop ([process_document]) *)

(** What [process_document] asks of the PDF library: the outcome of
    [fitz.open(path)], and [bool(doc)] and [len(doc)] of an open
    document. *)
Record Fitz : Type := mkFitz {
  fitz_open : string -> result Document;
  doc_bool : Document -> bool;
  doc_len : Document -> Z
}.

(** [open_document] *)
Definition open_document (lib : Fitz) (self : Chunker) : result Chunker :=
  d ← fitz_open lib (pdf_path self);
  mret (mkChunker (pdf_path self) (cfg self) (Some d) (paragraphs self)
          (footnotes self)).

(** [bool(self.doc)] *)
Definition doc_truthy (lib : Fitz) (self : Chunker) : bool :=
  match doc self with
  | None => false
  | Some d => doc_bool lib d
  end.

(** [len(self.doc)] *)
Definition len_doc (lib : Fitz) (self : Chunker) : result Z :=
  match doc self with
  | None => Raise TypeError
  | Some d => Ok (doc_len lib d)
  end.

(** [self.config["skip_first_pages"]]: a missing key raises. *)
Definition config_skip_first_pages (c : config) : result Z :=
  match skip_first_pages c with
  | Some n => Ok n
  | None => Raise (OtherError "'skip_first_pages'")
  end.

(** The page loop of [process_document]: the two lists are extended page
    by page; an exception of [process_page] leaves the loop. *)
Fixpoint process_pages (self : Chunker) (pages : list Z)
    (all_paragraphs : list LegalParagraph) (all_footnotes : list Footnote)
    : result (list LegalParagraph * list Footnote) :=
  match pages with
  | [] => mret (all_paragraphs, all_footnotes)
  | page_num :: pages' =>
      r ← process_page self page_num;
      process_pages self pages' (all_paragraphs ++ fst r) (all_footnotes ++ snd r)
  end.

(** [if not self.doc: self.open_document()] *)
Definition ensure_open (lib : Fitz) (self : Chunker) : result Chunker :=
  if doc_truthy lib self then mret self else open_document lib self.

(** [process_document]: the chunker as the call leaves it, and the pair it
    returns. *)
Definition process_document (lib : Fitz) (self : Chunker)
    : result (Chunker * (list LegalParagraph * list Footnote)) :=
  self ← ensure_open lib self;
  skip ← config_skip_first_pages (cfg self);
  n ← len_doc lib self;
  r ← process_pages self (range skip n) [] [];
  mret (mkChunker (pdf_path self) (cfg self) (doc self) (fst r) (snd r), r).

(** The patterns of the configuration are those of
    [HYBRID_CHUNKING_CONFIG]: they compile, and every number pattern has
    the group 1 the recognisers read, so that matching raises nothing. *)
Definition shipped_patterns (c : config) : Prop :=
  footnote_pattern c = footnote_pattern HYBRID_CHUNKING_CONFIG
  /\ paragraph_number_patterns c = paragraph_number_patterns HYBRID_CHUNKING_CONFIG
  /\ high_number_patterns c = high_number_patterns HYBRID_CHUNKING_CONFIG
  /\ date_patterns c = date_patterns HYBRID_CHUNKING_CONFIG
  /\ header_patterns c = header_patterns HYBRID_CHUNKING_CONFIG.

(** A page with a text layer and a readable image. *)
Definition page_with_ocr : Page :=
  mkPage text_with_continuation
    (Ok ("No. ICC-01/14-01/18 12/345" +:+ String newline line_nine_words)).

(** A document of eight pages: only the last two are read with the default
    configuration, the first of them with OCR and the second without. *)
Definition sample_document : Document :=
  fun i =>
    if (0 <=? i) && (i <? 6) then Ok (mkPage "" (Ok ""))
    else if i =? 6 then Ok page_with_ocr
    else if i =? 7 then Ok page_without_ocr
    else Raise IndexError.

(** A chunker on [sample_document], with the default configuration. *)
Definition sample_chunker : Chunker :=
  mkChunker "data/jugement.pdf" HYBRID_CHUNKING_CONFIG (Some sample_document) [] [].

Definition sample_fitz : Fitz :=
  mkFitz (fun _ => Ok sample_document) (fun _ => true) (fun _ => 8).

Definition paragraph_page_7 : LegalParagraph :=
  mkLegalParagraph "45"
    "The Chamber notes the submissions of the Prosecution accordingly."
    7 "main_text" 11 [] 0 1 "hybrid_ocr" 0.8.

Definition footnote_page_7 : Footnote :=
  mkFootnote "12"
    "P-0123: witness statement, para. 45 continued on 23 February 1975 in T-45 transcript"
    7 0.5 "pymupdf" [].

Definition footnote_page_8 : Footnote :=
  mkFootnote "12"
    "P-0123: witness statement, para. 45 continued on 23 February 1975 in T-45 transcript"
    8 0.5 "pymupdf" [].

(** A library whose documents cannot be opened. *)
Definition broken_fitz : Fitz :=
  mkFitz (fun _ => Raise (OtherError "no such file")) (fun _ => true) (fun _ => 0).

(** A library that reports nine pages for [sample_document]. *)
Definition long_fitz : Fitz :=
  mkFitz (fun _ => Ok sample_document) (fun _ => true) (fun _ => 9).

(** What a page contributes: distinct paragraph numbers, and the page
    stamp [page_num + 1] on every paragraph and footnote. *)
Definition page_result_ok (page_num : Z)
    (r : list LegalParagraph * list Footnote) : Prop :=
  NoDup (map number (fst r))
  /\ Forall (fun p => page p = page_num + 1) (fst r)
  /\ Forall (fun f => fn_page f = page_num + 1) (snd r).

(** The results [per_page] of [process_page] on the pages [pages]. *)
Definition page_results (self : Chunker) (pages : list Z)
    (per_page : list (list LegalParagraph * list Footnote)) : Prop :=
  Forall2 (fun page_num r => process_page self page_num = Ok r) pages per_page.

(** A configuration without the key [skip_first_pages]. *)
Definition config_without_skip : config :=
  Config None None (footnote_pattern HYBRID_CHUNKING_CONFIG)
    (paragraph_number_patterns HYBRID_CHUNKING_CONFIG)
    (high_number_patterns HYBRID_CHUNKING_CONFIG)
    (date_patterns HYBRID_CHUNKING_CONFIG)
    (header_patterns HYBRID_CHUNKING_CONFIG).

(** [load_page] returns a page. *)
Definition loadable (self : Chunker) (page_num : Z) : Prop :=
  exists pg, load_page self page_num = Ok pg.

(* ------------------------------------------------------------------ *)
(** ** What the chunk assembler emits *)

(** The chunk of a paragraph or of a footnote. *)
Definition source_chunk (id : Z) (x : LegalParagraph + Footnote) : SemanticChunk :=
  match x with
  | inl para => paragraph_chunk id para
  | inr footnote => footnote_chunk id footnote
  end.

(** The chunks of [xs], numbered consecutively from [id]. *)
Fixpoint number_from (id : Z) (xs : list (LegalParagraph + Footnote))
    : list SemanticChunk :=
  match xs with
  | [] => []
  | x :: xs' => source_chunk id x :: number_from (id + 1) xs'
  end.

(** The paragraphs and then the footnotes of page [page_num]. *)
Definition page_sources (self : Chunker) (page_num : Z)
    : list (LegalParagraph + Footnote) :=
  map inl (filter (fun p => page p =? page_num) (paragraphs self))
  ++ map inr (filter (fun f => fn_page f =? page_num) (footnotes self)).

(** Some paragraph is on the page of the footnote [f]. *)
Definition on_paragraph_page (self : Chunker) (f : Footnote) : bool :=
  existsb (fun p => page p =? fn_page f) (paragraphs self).

(** The prefix of the identifier of a chunk of the given type. *)
Definition id_prefix (type : string) : string :=
  if String.eqb type "paragraph" then "para_" else "footnote_".

(** The page of a paragraph or footnote. *)
Definition source_page (x : LegalParagraph + Footnote) : Z :=
  match x with
  | inl para => page para
  | inr footnote => fn_page footnote
  end.

(** The chunks of type "paragraph". *)
Definition paragraph_chunks (chunks : list SemanticChunk) : list SemanticChunk :=
  filter (fun c => String.eqb (chunk_type c) "paragraph") chunks.

(** The paragraphs among the chunked items. *)
Definition source_paragraphs (xs : list (LegalParagraph + Footnote))
    : list LegalParagraph :=
  flat_map (fun x => match x with inl para => [para] | inr _ => [] end) xs.

(* ------------------------------------------------------------------ *)
(** ** The page worker for user-defined functions
       ([process_page_for_databricks]) *)

(** [process_page_for_databricks]: the whole body is inside the [try]. *)
Definition process_page_for_databricks (page_num : Z) (path : string) (c : config)
    : page_entry :=
  let attempt :=
    let chunker := new_chunker path c in
    result ← process_page chunker page_num;
    _ ← close chunker;
    if pair_truthy result then
      paras ← pair_get result "paragraphs" ([] : list LegalParagraph);
      notes ← pair_get result "footnotes" ([] : list Footnote);
      time ← pair_get result "processing_time" 0;
      mret (mkPageEntry page_num paras notes time true None)
    else mret (failure_entry page_num None) in
  match attempt with
  | Ok entry => entry
  | Raise e => failure_entry page_num (Some (str_of_exn e))
  end.

(** The entry recorded for a page whose chunker has no open document. *)
Definition unopened_entry (page_num : Z) : page_entry :=
  failure_entry page_num (Some (str_of_exn TypeError)).

(** [_get_pdf_metadata]: the page count, or 0 when the document cannot be
    opened. *)
Definition _get_pdf_metadata (lib : Fitz) (path : string) : Z :=
  match fitz_open lib path with
  | Ok d => doc_len lib d
  | Raise _ => 0
  end.

(** [ceil(a / n)] for a positive [n]. *)
Definition ceil_div (a n : Z) : Z := (a + n - 1) / n.

(** A configuration that sets [pages_per_partition] to [n]. *)
Definition config_with_partition (n : Z) : config :=
  Config (Some 6) (Some n) (footnote_pattern HYBRID_CHUNKING_CONFIG)
    (paragraph_number_patterns HYBRID_CHUNKING_CONFIG)
    (high_number_patterns HYBRID_CHUNKING_CONFIG)
    (date_patterns HYBRID_CHUNKING_CONFIG)
    (header_patterns HYBRID_CHUNKING_CONFIG).

(* ------------------------------------------------------------------ *)
(** ** The lines handed to the paragraph recogniser *)

(** The first character of [s] is no whitespace ([s] may be empty). *)
Definition starts_clean (s : string) : Prop :=
  match s with
  | EmptyString => True
  | String a _ => isspace a = false
  end.

(* ------------------------------------------------------------------ *)
(** ** The deployment configuration ([databricks_config.py]) *)

Module DatabricksConfig.

Definition VECTOR_SEARCH_ENDPOINT : string := "jgmt".
Definition VECTOR_SEARCH_INDEX : string := "icc.jugement.main_text_summarized".
Definition BGE_MODEL_ENDPOINT : string := "databricks-bge-large-en".
Definition LLAMA_MODEL_ENDPOINT : string := "databricks-meta-llama-3-3-70b-instruct".

Definition SECTION_WEIGHTS : gmap string float :=
  list_to_map
    [("VERDICT", 1.5%float);
     ("SENTENCE", 1.4%float);
     ("FINDINGS_OF_FACT", 1.3%float);
     ("OVERVIEW", 1.1%float);
     ("EVIDENTIARY_CONSIDERATIONS", 1.0%float);
     ("HEADER", 0.5%float)].

Definition LEGAL_EXPANSIONS : gmap string (list string) :=
  list_to_map
    [("war crimes", ["war crime"; "violations of the laws of war"; "grave breaches"]);
     ("crimes against humanity",
      ["crime against humanity"; "systematic attack"; "widespread attack"]);
     ("genocide", ["genocidal acts"; "intent to destroy"; "ethnic cleansing"]);
     ("murder", ["kill"; "killing"; "assassination"; "homicide"; "unlawful killing"]);
     ("persecution", ["persecute"; "persecuted"; "discriminatory acts"; "targeting"]);
     ("torture", ["ill-treatment"; "cruel treatment"; "inhuman treatment"]);
     ("evidentiary", ["evidence"; "proof"; "testimony"; "witness"]);
     ("sentence", ["sentencing"; "punishment"; "penalty"; "years"]);
     ("verdict", ["finding"; "conclusion"; "determination"; "guilty"; "not guilty"]);
     ("anti-balaka", ["anti balaka"; "anti-balaka forces"; "militia"]);
     ("elements", ["subordinates"; "fighters"; "combatants"; "forces"; "troops"]);
     ("command", ["instruct"; "order"; "direct"; "tell"; "responsibility"])].

Definition DATABRICKS_PATHS : gmap string string :=
  list_to_map
    [("pdf_input", "/Volumes/icc/jugement/files/");
     ("chunks_output", "/Volumes/icc/jugement/files/processed/");
     ("temp_files", "/Volumes/icc/jugement/files/temp/");
     ("chunks_table", "icc.jugement.chunks");
     ("rag_table", "icc.jugement.chunks_for_rag");
     ("summary_table", "icc.jugement.chunks_summary");
     ("parsed_document_table", "icc.jugement.parsed_document");
     ("parsed_for_chunking", "icc.jugement.parsed_for_chunking");
     ("vector_search_model", "icc.jugement.vector_search_model");
     ("rag_model", "icc.jugement.rag_model");
     ("vector_search_endpoint_name", "icc-vector-search-endpoint");
     ("rag_endpoint_name", "icc-rag-production-endpoint")].

(** [get_section_weight] *)
Definition get_section_weight (section_type : string) : float :=
  default 1.0%float (SECTION_WEIGHTS !! section_type).

(** [get_legal_expansions] *)
Definition get_legal_expansions (term : string) : list string :=
  default [] (LEGAL_EXPANSIONS !! lower term).

(** [get_databricks_path] *)
Definition get_databricks_path (path_type : string) : string :=
  default "" (DATABRICKS_PATHS !! path_type).

(** What a helper that may raise [ValueError] does. *)
Inductive outcome (A : Type) : Type :=
| Returns (a : A)
| RaisesValueError (msg : string).
Arguments Returns {A} a.
Arguments RaisesValueError {A} msg.

(** [get_model_endpoint] *)
Definition get_model_endpoint (model_type : string) : outcome string :=
  if String.eqb (lower model_type) "bge" then Returns BGE_MODEL_ENDPOINT
  else if String.eqb (lower model_type) "llama" then Returns LLAMA_MODEL_ENDPOINT
  else if String.eqb (lower model_type) "vector_search"
       then Returns VECTOR_SEARCH_ENDPOINT
  else RaisesValueError ("Unknown model type: " +:+ model_type).

(** [repr] of a list of strings without quotes or escapes; the missing
    values it is used on are empty strings. *)
Definition repr_list (l : list string) : string :=
  "[" +:+ join ", " (map (fun s => "'" +:+ s +:+ "'") l) +:+ "]".

(** [validate_config] on the list [required_endpoints]. *)
Definition validate (required_endpoints : list string) : outcome bool :=
  let missing := filter (fun endpoint => negb (truthy endpoint)) required_endpoints in
  match missing with
  | _ :: _ =>
      RaisesValueError ("Missing required configuration values: " +:+ repr_list missing)
  | [] => Returns true
  end.

(** [validate_config] *)
Definition validate_config : outcome bool :=
  validate [VECTOR_SEARCH_ENDPOINT; VECTOR_SEARCH_INDEX; BGE_MODEL_ENDPOINT;
            LLAMA_MODEL_ENDPOINT].

End DatabricksConfig.

(* ------------------------------------------------------------------ *)
(** * Properties *)

(** ** The paragraph recogniser keeps its invariant *)

Section ParagraphScan.

Variable matcher : string -> option match_obj.
Variable page_num : Z.

Lemma para_inv_init : para_inv page_num (mkParaState [] [] None ∅).
Proof.
  split; [constructor|]. split; [|constructor].
  intros n; simpl. set_solver.
Qed.

Lemma can_finalize_fresh st num :
  can_finalize st = Some num → num ∉ seen_numbers st.
Proof.
  unfold can_finalize.
  destruct (current_para st); [done|].
  destruct (current_num st) as [n|]; [|done].
  destruct (truthy n); simpl; [|done].
  case_bool_decide; simpl; [done|]. by intros [= <-].
Qed.

Lemma finalize_inv stop st :
  para_inv page_num st → para_inv page_num (finalize page_num stop st).
Proof.
  intros (Hnd & Hseen & Hwf). unfold finalize.
  destruct (can_finalize st) as [num|] eqn:Hcan; [|done].
  destruct (_is_valid_paragraph _) eqn:Hvalid; [|done].
  apply can_finalize_fresh in Hcan.
  split; [|split]; simpl.
  - rewrite map_app; simpl. apply NoDup_app. split; [done|]. split.
    + intros n Hn Hn'. apply list_elem_of_singleton in Hn' as ->.
      by apply Hcan, Hseen.
    + apply NoDup_singleton.
  - intros n. rewrite map_app, elem_of_app, Hseen; simpl.
    rewrite list_elem_of_singleton, elem_of_union, elem_of_singleton. tauto.
  - apply Forall_app. split; [done|]. by repeat constructor.
Qed.

Lemma para_step_inv line_num m line st :
  para_inv page_num st → para_inv page_num (para_step page_num line_num m line st).
Proof.
  intros Hinv. unfold para_step. destruct m as [m|].
  - apply (finalize_inv line_num) in Hinv.
    destruct (negb _); exact Hinv.
  - destruct (current_para st); exact Hinv.
Qed.

Lemma scan_paragraphs_inv lines : ∀ line_num st,
  para_inv page_num st →
  para_inv page_num (scan_paragraphs matcher page_num line_num lines st).
Proof.
  induction lines as [|line lines IH]; intros line_num st Hinv; simpl; [done|].
  by apply IH, para_step_inv.
Qed.

Lemma extract_paragraphs_with_inv lines :
  NoDup (map number (extract_paragraphs_with matcher lines page_num))
  ∧ Forall (well_formed page_num) (extract_paragraphs_with matcher lines page_num).
Proof.
  unfold extract_paragraphs_with.
  destruct (finalize_inv (Z.of_nat (length lines)) _
              (scan_paragraphs_inv lines 0 _ para_inv_init)) as (? & _ & ?).
  done.
Qed.

End ParagraphScan.

Lemma scan_paragraphs_ext m1 m2 page_num lines :
  (∀ line, m1 line = m2 line) →
  ∀ line_num st,
    scan_paragraphs m1 page_num line_num lines st
    = scan_paragraphs m2 page_num line_num lines st.
Proof.
  intros Hext. induction lines as [|line lines IH]; intros line_num st; simpl; [done|].
  by rewrite Hext, IH.
Qed.

Lemma emitted_well_formed self lines page_num p :
  p ∈ extract_paragraphs_ocr self lines page_num → well_formed page_num p.
Proof.
  intros Hp.
  destruct (extract_paragraphs_with_inv (find_para_match self) page_num lines)
    as [_ Hwf].
  rewrite Forall_forall in Hwf. by apply Hwf.
Qed.

(* ------------------------------------------------------------------ *)
(** ** Facts about the matcher *)

Lemma digit_is_not_dot (c : ascii) :
  cls_test false CDigit c = true → cls_test false (CChar ".") c = false.
Proof. destruct c as [[] [] [] [] [] [] [] []]; vm_compute; congruence. Qed.

Lemma dot_test c : cls_test false (CChar ".") c = true → c = "."%char.
Proof. unfold cls_test, ch_eq. by intros ?%Ascii.eqb_eq. Qed.

(** Whatever a greedy repetition returns, the continuation returned it. *)
Lemma rep_greedy_result (Q : mstate → Prop) ic c k :
  (∀ p n s st, k p n s = Some st → Q st) →
  ∀ s lo hi prev pos st,
    rep_greedy ic c lo hi prev pos s k = Some st → Q st.
Proof.
  intros Hk. induction s as [|a s IH]; intros lo hi prev pos st; simpl.
  - destruct lo; [apply Hk|done].
  - destruct (hi_allows hi && cls_test ic c a).
    + destruct (rep_greedy ic c (Nat.pred lo) (hi_pred hi) (Some a) (S pos) s k)
        as [r|] eqn:Hrec.
      * intros [= <-]. by eapply IH.
      * destruct lo; [apply Hk|done].
    + destruct lo; [apply Hk|done].
Qed.

(** A repetition that ends the pattern leaves the groups as they were. *)
Lemma rep_greedy_groups ic c lo hi prev pos s g st :
  rep_greedy ic c lo hi prev pos s (λ p n s', Some (MState p n s' g)) = Some st →
  ms_groups st = g.
Proof.
  apply (rep_greedy_result (λ st', ms_groups st' = g)).
  by intros p n s' st' [= <-].
Qed.

Lemma rep_greedy_exhausted ic c prev pos s k :
  rep_greedy ic c 0 (Some 0%nat) prev pos s k = k prev pos s.
Proof. by destruct s. Qed.

Lemma substring_nothing s : substring 0 0 s = EmptyString.
Proof. by destruct s. Qed.

(** ** The high-number patterns of the default configuration *)

Lemma compile_primary_bare :
  re_compile primary_bare
  = rseq [RBol; RGroup 1 (rseq [RRep CDigit 1 (Some 4%nat)]); ROne (CChar ".")].
Proof. reflexivity. Qed.

Lemma compile_high_four :
  re_compile high_four
  = rseq [RBol; RGroup 1 (rseq [RRep CDigit 4 (Some 4%nat)]); ROne (CChar ".");
          RRep CSpace 1 None].
Proof. reflexivity. Qed.

Lemma compile_high_three_four :
  re_compile high_three_four
  = rseq [RBol; RGroup 1 (rseq [RRep CDigit 3 (Some 4%nat)]); ROne (CChar ".");
          RRep CSpace 1 None].
Proof. reflexivity. Qed.

Lemma compile_reference :
  re_compile pat_reference = rseq [RGroup 1 (rseq [RRep CDigit 1 (Some 3%nat)])].
Proof. reflexivity. Qed.

Section DefaultPatterns.

Local Opaque cls_test.

(** Case analysis on the class test a hypothesis is stuck on. *)
Ltac test_in H :=
  match type of H with
  | context [cls_test false (CChar ".") ?c] =>
      match goal with
      | E : cls_test false CDigit c = true |- _ =>
          rewrite (digit_is_not_dot c E) in H
      | _ =>
          let E := fresh "E" in
          destruct (cls_test false (CChar ".") c) eqn:E;
          [apply dot_test in E; subst c|]
      end
  | context [cls_test false CDigit ?c] =>
      let E := fresh "E" in destruct (cls_test false CDigit c) eqn:E
  | context [cls_test false CSpace ?c] =>
      let E := fresh "E" in destruct (cls_test false CSpace c) eqn:E
  end; cbn in H; try discriminate H.

Ltac finish_shape Hm :=
  match type of Hm with
  | context [rep_greedy ?ic ?c ?lo ?hi ?prev ?pos ?s ?k] =>
      let E := fresh "E" in let st := fresh "st" in
      destruct (rep_greedy ic c lo hi prev pos s k) as [st|] eqn:E;
      cbn in Hm; [|try discriminate Hm]
  end.

Ltac conclude_shape :=
  match goal with
  | E : rep_greedy _ _ _ _ _ _ _ _ = Some ?st |- context [?st] =>
      apply rep_greedy_groups in E;
      unfold group; cbn; rewrite E; cbn; constructor
  end.

Lemma high_four_shape line m :
  re_match false high_four line = Some m → numbered line (group 1 m).
Proof.
  unfold re_match. rewrite compile_high_four. unfold try_at. intros Hm.
  destruct line as [|c1 [|c2 [|c3 [|c4 [|c5 rest]]]]]; cbn in Hm; try discriminate Hm.
  all: repeat test_in Hm.
  finish_shape Hm. injection Hm as <-. by conclude_shape.
Qed.

Lemma high_three_four_shape line m :
  re_match false high_three_four line = Some m → numbered line (group 1 m).
Proof.
  unfold re_match. rewrite compile_high_three_four. unfold try_at. intros Hm.
  destruct line as [|c1 [|c2 [|c3 [|c4 [|c5 rest]]]]]; cbn in Hm; try discriminate Hm.
  all: repeat (test_in Hm || finish_shape Hm).
  all: injection Hm as <-.
  all: by conclude_shape.
Qed.

Lemma primary_bare_on_numbered line g :
  numbered line g →
  ∃ m, re_match false primary_bare line = Some m ∧ group 1 m = g.
Proof.
  unfold re_match. rewrite compile_primary_bare. unfold try_at.
  destruct 1 as [c1 c2 c3 rest E1 E2 E3 | c1 c2 c3 c4 rest E1 E2 E3 E4]; cbn.
  - rewrite E1; cbn. rewrite E2; cbn. rewrite E3; cbn.
    destruct (cls_test false CDigit ".") eqn:E4; cbn.
    + by apply digit_is_not_dot in E4.
    + eexists; split; [reflexivity|done].
  - rewrite E1; cbn. rewrite E2; cbn. rewrite E3; cbn. rewrite E4; cbn.
    eexists; split; [reflexivity|done].
Qed.

Lemma high_number_shape h line m :
  h ∈ high_number_patterns HYBRID_CHUNKING_CONFIG →
  re_match false h line = Some m → numbered line (group 1 m).
Proof.
  simpl. intros [-> | [-> | []%elem_of_nil]%elem_of_cons]%elem_of_cons.
  - apply high_four_shape.
  - apply high_three_four_shape.
Qed.

(** When no primary pattern matches a line, no high-number pattern does. *)
Lemma fallback_finds_nothing line :
  first_match (paragraph_number_patterns HYBRID_CHUNKING_CONFIG) line = None →
  first_match (high_number_patterns HYBRID_CHUNKING_CONFIG) line = None.
Proof.
  intros Hprimary.
  assert (re_match false primary_bare line = None) as Hbare.
  { simpl in Hprimary.
    destruct (re_match false primary_spaced line); [done|].
    by destruct (re_match false primary_bare line). }
  assert (∀ h m, h ∈ high_number_patterns HYBRID_CHUNKING_CONFIG →
                 re_match false h line = Some m → False) as Hnone.
  { intros h m Hh Hm.
    destruct (primary_bare_on_numbered _ _ (high_number_shape _ _ _ Hh Hm))
      as (m' & Hm' & _). congruence. }
  simpl in *.
  destruct (re_match false high_four line) eqn:E1.
  { exfalso. eapply Hnone; [|exact E1]. set_solver. }
  destruct (re_match false high_three_four line) eqn:E2; [|done].
  exfalso. eapply Hnone; [|exact E2]. set_solver.
Qed.

End DefaultPatterns.

Lemma find_para_match_default self line :
  paragraph_number_patterns (cfg self)
    = paragraph_number_patterns HYBRID_CHUNKING_CONFIG →
  high_number_patterns (cfg self) = high_number_patterns HYBRID_CHUNKING_CONFIG →
  find_para_match self line = find_para_match_primary self line.
Proof.
  intros Hprimary Hhigh. unfold find_para_match, find_para_match_primary.
  rewrite Hprimary, Hhigh.
  destruct (first_match (paragraph_number_patterns _) line) eqn:E; [done|].
  by apply fallback_finds_nothing.
Qed.

(* ------------------------------------------------------------------ *)
(** ** [re.findall] with the reference pattern *)

Lemma findall_from_cons ic r prev pos a s :
  findall_from ic r prev pos (String a s) 0 =
  match try_at ic r prev pos (String a s) with
  | Some m =>
      group 1 m :: findall_from ic r (Some a) (S pos) s (Nat.pred (m_end m - m_start m))
  | None => findall_from ic r (Some a) (S pos) s 0
  end.
Proof. reflexivity. Qed.

Lemma findall_from_skip ic r prev pos a s k :
  findall_from ic r prev pos (String a s) (S k) = findall_from ic r (Some a) (S pos) s k.
Proof. reflexivity. Qed.

Lemma digit_pieces_runs s :
  digit_pieces s
  = pieces_of_three (fst (digit_runs_aux s))
    ++ flat_map pieces_of_three (snd (digit_runs_aux s)).
Proof.
  unfold digit_pieces, digit_runs, cons_run.
  by destruct (fst (digit_runs_aux s)).
Qed.

Lemma digit_runs_aux_cons a s :
  digit_runs_aux (String a s)
  = if isdecimal a then (String a (fst (digit_runs_aux s)), snd (digit_runs_aux s))
    else (EmptyString, digit_runs s).
Proof. simpl. unfold digit_runs. by destruct (digit_runs_aux s), (isdecimal a). Qed.

Lemma digit_pieces_skip a s :
  isdecimal a = false → digit_pieces (String a s) = digit_pieces s.
Proof.
  intros Ha. rewrite (digit_pieces_runs (String a s)), digit_runs_aux_cons, Ha.
  reflexivity.
Qed.

Lemma first_run_empty s :
  starts_with_digit s = false → fst (digit_runs_aux s) = EmptyString.
Proof.
  destruct s as [|a s]; [done|]. simpl starts_with_digit. intros Ha.
  by rewrite digit_runs_aux_cons, Ha.
Qed.

Lemma digit_pieces_one a s :
  isdecimal a = true → starts_with_digit s = false →
  digit_pieces (String a s) = String a "" :: digit_pieces s.
Proof.
  intros Ha Hs. rewrite !digit_pieces_runs, digit_runs_aux_cons, Ha; simpl.
  by rewrite (first_run_empty s Hs).
Qed.

Lemma digit_pieces_two a b s :
  isdecimal a = true → isdecimal b = true → starts_with_digit s = false →
  digit_pieces (String a (String b s)) = String a (String b "") :: digit_pieces s.
Proof.
  intros Ha Hb Hs.
  rewrite !digit_pieces_runs, !digit_runs_aux_cons, Ha, Hb; simpl.
  by rewrite (first_run_empty s Hs).
Qed.

Lemma digit_pieces_three a b c s :
  isdecimal a = true → isdecimal b = true → isdecimal c = true →
  digit_pieces (String a (String b (String c s)))
  = String a (String b (String c "")) :: digit_pieces s.
Proof.
  intros Ha Hb Hc.
  by rewrite !digit_pieces_runs, !digit_runs_aux_cons, Ha, Hb, Hc.
Qed.

Section ReferencePattern.

Local Opaque cls_test findall_from.

Ltac digit_case c :=
  let E := fresh "E" in
  destruct (cls_test false CDigit c) eqn:E; cbn.

Ltac digit_known a H :=
  change (cls_test false CDigit a) with (isdecimal a); rewrite H; cbn.

Ltac fix_length :=
  repeat match goal with
    | |- context [(S ?p - ?p)%nat] => replace (S p - p)%nat with 1%nat by lia
    | |- context [(S (S ?p) - ?p)%nat] => replace (S (S p) - p)%nat with 2%nat by lia
    | |- context [(S (S (S ?p)) - ?p)%nat] =>
        replace (S (S (S p)) - p)%nat with 3%nat by lia
    end; cbn.

Lemma reference_none prev pos s :
  starts_with_digit s = false → try_at false (re_compile pat_reference) prev pos s = None.
Proof.
  destruct s as [|a s]; [done|]. simpl starts_with_digit. intros Ha.
  rewrite compile_reference; unfold try_at; cbn. by digit_known a Ha.
Qed.

Lemma reference_one prev pos a s :
  isdecimal a = true → starts_with_digit s = false →
  try_at false (re_compile pat_reference) prev pos (String a s)
  = Some (MatchObj pos (S pos) [(1%nat, String a "")]).
Proof.
  intros Ha Hs. rewrite compile_reference; unfold try_at.
  destruct s as [|b s]; simpl in Hs; cbn; digit_known a Ha.
  - by fix_length.
  - digit_known b Hs. by fix_length.
Qed.

Lemma reference_two prev pos a b s :
  isdecimal a = true → isdecimal b = true → starts_with_digit s = false →
  try_at false (re_compile pat_reference) prev pos (String a (String b s))
  = Some (MatchObj pos (S (S pos)) [(1%nat, String a (String b ""))]).
Proof.
  intros Ha Hb Hs. rewrite compile_reference; unfold try_at.
  destruct s as [|c s]; simpl in Hs; cbn; digit_known a Ha; digit_known b Hb.
  - by fix_length.
  - digit_known c Hs. by fix_length.
Qed.

Lemma reference_three prev pos a b c s :
  isdecimal a = true → isdecimal b = true → isdecimal c = true →
  try_at false (re_compile pat_reference) prev pos (String a (String b (String c s)))
  = Some (MatchObj pos (S (S (S pos)))
            [(1%nat, String a (String b (String c "")))]).
Proof.
  intros Ha Hb Hc. rewrite compile_reference; unfold try_at; cbn.
  digit_known a Ha. digit_known b Hb. digit_known c Hc.
  rewrite rep_greedy_exhausted; cbn. fix_length. by rewrite substring_nothing.
Qed.

Lemma findall_reference_pieces n : ∀ s prev pos,
  (String.length s ≤ n)%nat →
  findall_from false (re_compile pat_reference) prev pos s 0 = digit_pieces s.
Proof.
  induction n as [|n IH]; intros s prev pos Hlen.
  { destruct s; [reflexivity|simpl in Hlen; lia]. }
  destruct s as [|a s]; [reflexivity|]. simpl in Hlen.
  rewrite findall_from_cons.
  destruct (isdecimal a) eqn:Ha.
  2:{ rewrite reference_none by done. rewrite digit_pieces_skip by done.
      apply IH. lia. }
  destruct (starts_with_digit s) eqn:Hs.
  2:{ rewrite reference_one by done. rewrite digit_pieces_one by done.
      cbn. fix_length. f_equal. apply IH. lia. }
  destruct s as [|b s]; [done|]. simpl in Hs, Hlen.
  destruct (starts_with_digit s) eqn:Hs2.
  2:{ rewrite reference_two by done. rewrite digit_pieces_two by done.
      cbn. fix_length. rewrite findall_from_skip. f_equal. apply IH. lia. }
  destruct s as [|c s]; [done|]. simpl in Hs2, Hlen.
  rewrite reference_three by done. rewrite digit_pieces_three by done.
  cbn. fix_length. rewrite !findall_from_skip. f_equal. apply IH. lia.
Qed.

End ReferencePattern.

Lemma extract_footnote_references_pieces content :
  _extract_footnote_references content = digit_pieces content.
Proof.
  unfold _extract_footnote_references, re_findall.
  by apply (findall_reference_pieces (String.length content)).
Qed.

(* ------------------------------------------------------------------ *)
(** ** [int(k * 1.3)] on the word counts of a page *)

Lemma agrees_from_spec fuel : ∀ k j,
  agrees_from k fuel = true → k <= j < k + Z.of_nat fuel → truncation_agrees j = true.
Proof.
  induction fuel as [|fuel IH]; intros k j H Hj; [lia|].
  simpl in H. apply andb_true_iff in H as [Hk Hrest].
  destruct (decide (j = k)) as [->|Hne]; [done|].
  apply (IH (k + 1)); [done|lia].
Qed.

Lemma truncation_agrees_upto : agrees_from 0 (Z.to_nat 100001) = true.
Proof. vm_compute. reflexivity. Qed.

Lemma estimate_is_floor (n : Z) :
  0 <= n <= 100000 →
  int_of_float (float_of_int n * 1.3)%float = 13 * n / 10.
Proof.
  intros Hn. apply Z.eqb_eq.
  apply (agrees_from_spec _ 0 n truncation_agrees_upto).
  rewrite Z2Nat.id; lia.
Qed.

(* ------------------------------------------------------------------ *)
(** ** Token estimates and sample runs *)

Lemma emits_nine_words :
  extract_paragraphs_ocr default_chunker [line_nine_words] 2 = [paragraph_nine_words].
Proof. vm_compute. reflexivity. Qed.

Lemma emits_with_year :
  extract_paragraphs_ocr default_chunker [line_with_year] 2 = [paragraph_with_year].
Proof. vm_compute. reflexivity. Qed.

(* ------------------------------------------------------------------ *)
(** ** Claims about the paragraph recogniser *)

(** C3 as stated fails: the one-line page [line_nine_words] gives a
    paragraph of nine words whose token count is 11, while
    [round(9 * 1.3)] is 12. *)
Lemma token_count_not_rounded :
  paragraph_nine_words ∈ extract_paragraphs_ocr default_chunker [line_nine_words] 2
  ∧ token_count paragraph_nine_words = 11
  ∧ rounded_estimate (content paragraph_nine_words) = 12
  ∧ token_count paragraph_nine_words ≠ rounded_estimate (content paragraph_nine_words).
Proof.
  rewrite emits_nine_words. split; [by apply list_elem_of_singleton|].
  split; [reflexivity|]. split; [by vm_compute|]. by vm_compute.
Qed.

(** C3, amended: the token count of every emitted paragraph is
    [int(word_count * 1.3)], the binary64 product cut toward zero, where
    [word_count] counts the whitespace-delimited tokens of the content; up
    to 100000 words this is the floor of [13 * word_count / 10]. *)
Theorem token_count_truncated self lines page_num p :
  p ∈ extract_paragraphs_ocr self lines page_num →
  let words := Z.of_nat (length (split_ws (content p))) in
  token_count p = int_of_float (float_of_int words * 1.3)%float
  ∧ (words <= 100000 → token_count p = 13 * words / 10).
Proof.
  intros Hp words. destruct (emitted_well_formed _ _ _ _ Hp) as (Htok & _).
  split; [exact Htok|]. intros Hw. rewrite Htok. apply estimate_is_floor. lia.
Qed.

Lemma token_count_truncated_witness :
  paragraph_nine_words ∈ extract_paragraphs_ocr default_chunker [line_nine_words] 2
  ∧ token_count paragraph_nine_words = 13 * 9 / 10.
Proof.
  assert (paragraph_nine_words
          ∈ extract_paragraphs_ocr default_chunker [line_nine_words] 2) as Hin.
  { vm_compute. constructor. }
  split; [exact Hin|].
  apply (token_count_truncated default_chunker [line_nine_words] 2 _ Hin).
  vm_compute. discriminate.
Defined.

(** C6 as stated fails: the content of [paragraph_with_year] holds the
    four-digit run 2014 and no run of one to three digits, yet its
    references are the pieces 201 and 4. *)
Lemma references_not_standalone :
  paragraph_with_year ∈ extract_paragraphs_ocr default_chunker [line_with_year] 2
  ∧ footnote_references paragraph_with_year = ["201"; "4"]
  ∧ standalone_references (content paragraph_with_year) = []
  ∧ footnote_references paragraph_with_year
    ≠ standalone_references (content paragraph_with_year).
Proof.
  rewrite emits_with_year. split; [by apply list_elem_of_singleton|].
  split; [reflexivity|]. split; [by vm_compute|]. by vm_compute.
Qed.

(** C6, amended: the references of every emitted paragraph are what
    [_extract_footnote_references] finds in its content, namely the
    successive non-overlapping matches of one to three digits read from
    the left: every maximal digit run cut into pieces of three digits, the
    last piece of a run holding what is left. *)
Theorem references_are_digit_pieces self lines page_num p :
  p ∈ extract_paragraphs_ocr self lines page_num →
  footnote_references p = _extract_footnote_references (content p)
  ∧ footnote_references p = digit_pieces (content p).
Proof.
  intros Hp. destruct (emitted_well_formed _ _ _ _ Hp) as (_ & Href & _).
  split; [exact Href|]. by rewrite Href, extract_footnote_references_pieces.
Qed.

Lemma references_are_digit_pieces_witness :
  paragraph_with_year ∈ extract_paragraphs_ocr default_chunker [line_with_year] 2
  ∧ footnote_references paragraph_with_year = digit_pieces (content paragraph_with_year).
Proof.
  assert (paragraph_with_year
          ∈ extract_paragraphs_ocr default_chunker [line_with_year] 2) as Hin.
  { vm_compute. constructor. }
  split; [exact Hin|].
  apply (references_are_digit_pieces default_chunker [line_with_year] 2 _ Hin).
Defined.

(** C10: under the default configuration (any configuration with its
    paragraph-number and high-number patterns) the high-number fallback is
    unreachable.  Whenever a high-number pattern matches a line, the primary
    pattern [^(\d{1,4})\.] matches it with the same captured number; so the
    match found for a line is the one the primary patterns find, and the
    scan with the primary patterns only emits the same paragraphs. *)
Theorem high_number_fallback_unreachable self :
  paragraph_number_patterns (cfg self)
    = paragraph_number_patterns HYBRID_CHUNKING_CONFIG →
  high_number_patterns (cfg self) = high_number_patterns HYBRID_CHUNKING_CONFIG →
  primary_bare ∈ paragraph_number_patterns (cfg self)
  ∧ (∀ h line m,
       h ∈ high_number_patterns (cfg self) →
       re_match false h line = Some m →
       ∃ m', re_match false primary_bare line = Some m' ∧ group 1 m' = group 1 m)
  ∧ (∀ line, find_para_match self line = find_para_match_primary self line)
  ∧ (∀ lines page_num,
       extract_paragraphs_ocr self lines page_num
       = extract_paragraphs_primary_only self lines page_num).
Proof.
  intros Hprimary Hhigh.
  split; [rewrite Hprimary; simpl; set_solver|]. split; [|split].
  - rewrite Hhigh. intros h line m Hh Hm.
    by eapply primary_bare_on_numbered, high_number_shape.
  - intros line. by apply find_para_match_default.
  - intros lines page_num.
    unfold extract_paragraphs_ocr, extract_paragraphs_primary_only,
      extract_paragraphs_with.
    rewrite (scan_paragraphs_ext (find_para_match self) (find_para_match_primary self));
      [done|].
    intros line. by apply find_para_match_default.
Qed.

Lemma high_number_fallback_unreachable_witness :
  paragraph_number_patterns (cfg default_chunker)
    = paragraph_number_patterns HYBRID_CHUNKING_CONFIG
  ∧ high_number_patterns (cfg default_chunker)
    = high_number_patterns HYBRID_CHUNKING_CONFIG
  ∧ ∀ lines page_num,
      extract_paragraphs_ocr default_chunker lines page_num
      = extract_paragraphs_primary_only default_chunker lines page_num.
Proof.
  split; [reflexivity|]. split; [reflexivity|].
  apply (high_number_fallback_unreachable default_chunker); reflexivity.
Defined.

(* ------------------------------------------------------------------ *)
(** ** The footnote recogniser *)

Lemma passes_date_patterns_existsb pats content :
  passes_date_patterns pats content
  = negb (existsb (fun date_pattern => found true date_pattern content) pats).
Proof.
  induction pats as [|p pats IH]; simpl; [done|].
  destruct (found true p content); simpl; [done|exact IH].
Qed.

Lemma legal_patterns_citation content :
  existsb (fun pattern => found false pattern content) legal_patterns
  = looks_like_citation content.
Proof.
  unfold legal_patterns, looks_like_citation; simpl.
  rewrite orb_false_r. by rewrite !orb_assoc.
Qed.

Lemma valid_footnote_conjunction self content footnote_num :
  _is_valid_footnote_pymupdf self content footnote_num
  = long_enough content && negb (is_date self content) && looks_like_citation content.
Proof.
  unfold _is_valid_footnote_pymupdf, long_enough, is_date.
  rewrite passes_date_patterns_existsb, legal_patterns_citation, negb_involutive.
  destruct (Z.ltb_spec (len content) 10) as [Hlt|Hge].
  - by replace (10 <=? len content) with false by (symmetry; apply Z.leb_gt; lia).
  - replace (10 <=? len content) with true by (symmetry; apply Z.leb_le; lia).
    simpl. by destruct (existsb _ _).
Qed.

(** C2: footnote validation is the conjunction of three conditions, all
    required: the content is at least 10 characters long, it matches no
    configured date pattern, and it matches one of the nine citation
    patterns.  So content shorter than 10 characters (9 in particular) is
    rejected whatever it cites, content that matches a date pattern is
    rejected even when it cites, and otherwise the verdict is whether a
    citation pattern is found. *)
Theorem footnote_validation_conjunction self content footnote_num :
  _is_valid_footnote_pymupdf self content footnote_num
  = long_enough content && negb (is_date self content) && looks_like_citation content
  ∧ (len content < 10 → _is_valid_footnote_pymupdf self content footnote_num = false)
  ∧ (is_date self content = true →
     _is_valid_footnote_pymupdf self content footnote_num = false)
  ∧ (10 <= len content → is_date self content = false →
     _is_valid_footnote_pymupdf self content footnote_num = looks_like_citation content).
Proof.
  rewrite valid_footnote_conjunction. unfold long_enough.
  split; [done|]. split; [|split].
  - intros Hlen. by replace (10 <=? len content) with false
      by (symmetry; apply Z.leb_gt; lia).
  - intros ->. by rewrite andb_false_r.
  - intros Hlen ->.
    by replace (10 <=? len content) with true by (symmetry; apply Z.leb_le; lia).
Qed.

Lemma footnote_validation_conjunction_witness :
  (len "ICC- p. 7" = 9 ∧ looks_like_citation "ICC- p. 7" = true
   ∧ _is_valid_footnote_pymupdf default_chunker "ICC- p. 7" "13" = false)
  ∧ (is_date default_chunker "ICC-01/05, judgment of 2014" = true
     ∧ looks_like_citation "ICC-01/05, judgment of 2014" = true
     ∧ _is_valid_footnote_pymupdf default_chunker "ICC-01/05, judgment of 2014" "13"
       = false).
Proof.
  split.
  - split; [reflexivity|]. split; [by vm_compute|].
    destruct (footnote_validation_conjunction default_chunker "ICC- p. 7" "13")
      as (_ & Hshort & _).
    apply Hshort. by vm_compute.
  - split; [by vm_compute|]. split; [by vm_compute|].
    destruct (footnote_validation_conjunction default_chunker
                "ICC-01/05, judgment of 2014" "13") as (_ & _ & Hdate & _).
    apply Hdate. by vm_compute.
Defined.

Lemma confidence_table content :
  _calculate_footnote_confidence content = confidence_by_table content.
Proof. reflexivity. Qed.

(** C5: the confidence score starts at 0, adds the increments of the
    table [confidence_increments] (witness 0.4, transcript 0.3, CAR- and
    ICC- 0.2 each, paragraph, page, Article and Rule 0.1 each) and 0.1 for
    a length over 50, and is capped at 1.0; every score lies between 0.0
    and 1.0, and content with both a witness and a transcript reference
    scores at least 0.7. *)
Theorem footnote_confidence_bounds content :
  _calculate_footnote_confidence content = confidence_by_table content
  ∧ (0 <=? _calculate_footnote_confidence content)%float = true
  ∧ (_calculate_footnote_confidence content <=? 1)%float = true
  ∧ (found false pat_witness content = true →
     found false pat_transcript content = true →
     (0.7 <=? _calculate_footnote_confidence content)%float = true).
Proof.
  split; [apply confidence_table|].
  unfold _calculate_footnote_confidence.
  destruct (found false pat_witness content), (found false pat_transcript content),
    (found false pat_car content), (found false pat_icc content),
    (found false pat_para content), (found false pat_page content),
    (found false pat_article content), (found false pat_rule content),
    (50 <? len content).
  all: vm_compute; repeat split; congruence.
Qed.

Lemma footnote_confidence_bounds_witness :
  found false pat_witness "P-0123: see T-45" = true
  ∧ found false pat_transcript "P-0123: see T-45" = true
  ∧ (0.7 <=? _calculate_footnote_confidence "P-0123: see T-45")%float = true.
Proof.
  assert (found false pat_witness "P-0123: see T-45" = true) as Hw by (by vm_compute).
  assert (found false pat_transcript "P-0123: see T-45" = true) as Ht by (by vm_compute).
  split; [exact Hw|]. split; [exact Ht|].
  destruct (footnote_confidence_bounds "P-0123: see T-45") as (_ & _ & _ & Hboth).
  by apply Hboth.
Defined.

(** ** The footnote scan keeps its invariant *)

Section FootnoteScan.

Variable self : Chunker.
Variable page_num : Z.

Lemma append_content_confidence f line :
  fn_confidence (append_content f line) = fn_confidence f.
Proof. reflexivity. Qed.

Lemma continued_snoc opening conts line :
  continued opening (conts ++ [line]) = continued opening conts +:+ " " +:+ line.
Proof. unfold continued. by rewrite fold_left_app. Qed.

Lemma append_content_opened_by f line :
  10 < len line → opened_by self page_num f →
  opened_by self page_num (append_content f line).
Proof.
  intros Hlen (opening & conts & Hvalid & Hconf & Hcontent & Hconts & Hpage).
  exists opening, (conts ++ [line]). simpl.
  rewrite continued_snoc, Hcontent.
  repeat split; try done. apply Forall_app. split; [done|]. by constructor.
Qed.

Lemma fn_inv_init : fn_inv self page_num ([], None).
Proof. split; [constructor|]. intros f [=]. Qed.

Lemma save_footnote_inv st :
  fn_inv self page_num st → Forall (opened_by self page_num) (save_footnote st).
Proof.
  intros [Hclosed Hopen]. unfold save_footnote.
  destruct (snd st) as [f|]; [|done].
  apply Forall_app. split; [done|]. constructor; [by apply Hopen|constructor].
Qed.

Lemma footnote_step_inv st line :
  fn_inv self page_num st → fn_inv self page_num (footnote_step self page_num st line).
Proof.
  intros Hinv. unfold footnote_step.
  destruct (negb (truthy (strip line))); [done|].
  destruct (is_header_footer self (strip line)); [done|].
  destruct (re_match false (footnote_pattern (cfg self)) (strip line)) as [m|].
  - pose proof (save_footnote_inv st Hinv) as Hsaved.
    destruct (_is_valid_footnote_pymupdf _ _ _) eqn:Hvalid.
    + split; [done|]. intros f [= <-].
      exists (strip (drop (m_end m) (strip line))), []. by repeat split.
    + split; [done|]. intros f [=].
  - destruct Hinv as [Hclosed Hopen].
    destruct (snd st) as [f|] eqn:Hcur.
    + destruct (Z.ltb_spec 10 (len (strip line))) as [Hlen|Hlen].
      * split; [done|]. intros f' [= <-].
        by apply append_content_opened_by, Hopen.
      * split; [done|]. by rewrite Hcur.
    + split; [done|]. by rewrite Hcur.
Qed.

Lemma scan_footnotes_inv lines :
  Forall (opened_by self page_num) (scan_footnotes self page_num lines).
Proof.
  unfold scan_footnotes. apply save_footnote_inv.
  generalize fn_inv_init. generalize (([], None) : fn_state).
  induction lines as [|line lines IH]; intros st Hinv; simpl; [done|].
  by apply IH, footnote_step_inv.
Qed.

End FootnoteScan.

Lemma scan_with_continuation :
  scan_footnotes default_chunker 2 (split_on newline text_with_continuation)
  = [footnote_with_continuation].
Proof. vm_compute. reflexivity. Qed.

Lemma extract_with_continuation :
  extract_footnotes_pymupdf chunker_without_ocr 2 = Ok [footnote_with_continuation].
Proof. vm_compute. reflexivity. Qed.

(** C9: the confidence and the validation verdict of a footnote come from
    the content of the numbered line that opened it.  Every footnote that
    [extract_footnotes_pymupdf] emits was opened by content that passed
    validation and fixed the confidence, with continuation lines appended
    after it; appending a line changes the content and leaves the
    confidence as it was; and there is a run whose emitted footnote has a
    confidence other than the score of its final content, and a final
    content that matches a date pattern and would not pass validation. *)
Theorem footnote_confidence_from_opening :
  (∀ self page_num fns f,
     extract_footnotes_pymupdf self page_num = Ok fns → f ∈ fns →
     opened_by self page_num f)
  ∧ (∀ f line,
       fn_confidence (append_content f line) = fn_confidence f
       ∧ fn_content (append_content f line) = fn_content f +:+ " " +:+ line)
  ∧ (∃ self page_num fns f,
       extract_footnotes_pymupdf self page_num = Ok fns ∧ f ∈ fns
       ∧ fn_confidence f ≠ _calculate_footnote_confidence (fn_content f)
       ∧ is_date self (fn_content f) = true
       ∧ _is_valid_footnote_pymupdf self (fn_content f) (fn_number f) = false).
Proof.
  split; [|split].
  - intros self page_num fns f Hfns Hf. unfold extract_footnotes_pymupdf in Hfns.
    destruct (load_page self page_num) as [pg|e]; simpl in Hfns; [|done].
    injection Hfns as <-.
    pose proof (scan_footnotes_inv self page_num (split_on newline (get_text pg))) as H.
    rewrite Forall_forall in H. by apply H.
  - done.
  - exists chunker_without_ocr, 2, [footnote_with_continuation],
      footnote_with_continuation.
    split; [apply extract_with_continuation|].
    split; [by apply list_elem_of_singleton|].
    split; [|split; by vm_compute].
    intros Heq. apply (f_equal (fun x => (x <? 0.6)%float)) in Heq.
    vm_compute in Heq. discriminate.
Qed.

Lemma footnote_confidence_from_opening_witness :
  footnote_with_continuation
    ∈ scan_footnotes default_chunker 2 (split_on newline text_with_continuation)
  ∧ opened_by chunker_without_ocr 2 footnote_with_continuation.
Proof.
  split; [rewrite scan_with_continuation; by apply list_elem_of_singleton|].
  destruct footnote_confidence_from_opening as (Hall & _).
  apply (Hall chunker_without_ocr 2 [footnote_with_continuation]).
  - apply extract_with_continuation.
  - by apply list_elem_of_singleton.
Defined.

(* ------------------------------------------------------------------ *)
(** ** The page processor *)

Lemma ocr_failure_gives_no_lines self page_num pg e :
  load_page self page_num = Ok pg → image_to_string pg = Raise e →
  extract_text_with_ocr self page_num = [].
Proof.
  intros Hpg Hocr. unfold extract_text_with_ocr. rewrite Hpg; simpl.
  by rewrite Hocr.
Qed.

(** C8 as stated fails: for a chunker whose document is not open, and for
    an open document asked for a page it does not have, the OCR line
    source yields no lines, since the failure to load the page is caught
    there; yet [process_page] raises, since the footnote extraction loads
    the page outside any [try]. *)
Lemma process_page_raises_without_lines :
  extract_text_with_ocr default_chunker 2 = []
  ∧ process_page default_chunker 2 = Raise TypeError
  ∧ extract_text_with_ocr chunker_one_page 2 = []
  ∧ process_page chunker_one_page 2 = Raise IndexError
  ∧ ∀ fns, process_page chunker_one_page 2 ≠ Ok ([], fns).
Proof.
  assert (process_page chunker_one_page 2 = Raise IndexError) as Hraise
    by reflexivity.
  repeat split; try reflexivity. intros fns. by rewrite Hraise.
Qed.

(** C8: when the text layer of a page gave the footnotes [fns] and the
    OCR line source yields no lines, [process_page] returns the empty
    paragraph list with [fns]; a failure of rendering or OCR is recovered
    as an empty line list, so the same holds then. *)
Theorem process_page_without_ocr_lines self page_num fns :
  extract_footnotes_pymupdf self page_num = Ok fns →
  (extract_text_with_ocr self page_num = [] →
   process_page self page_num = Ok ([], fns))
  ∧ (∀ pg e,
       load_page self page_num = Ok pg → image_to_string pg = Raise e →
       extract_text_with_ocr self page_num = []
       ∧ process_page self page_num = Ok ([], fns)).
Proof.
  intros Hfns.
  assert (extract_text_with_ocr self page_num = [] →
          process_page self page_num = Ok ([], fns)) as Hempty.
  { intros Hlines. unfold process_page. rewrite Hfns; simpl. by rewrite Hlines. }
  split; [exact Hempty|].
  intros pg e Hpg Hocr.
  pose proof (ocr_failure_gives_no_lines _ _ _ _ Hpg Hocr) as Hlines.
  split; [exact Hlines|by apply Hempty].
Qed.

Lemma process_page_without_ocr_lines_witness :
  extract_footnotes_pymupdf chunker_without_ocr 2 = Ok [footnote_with_continuation]
  ∧ extract_text_with_ocr chunker_without_ocr 2 = []
  ∧ process_page chunker_without_ocr 2 = Ok ([], [footnote_with_continuation]).
Proof.
  split; [apply extract_with_continuation|].
  split; [by vm_compute|].
  destruct (process_page_without_ocr_lines chunker_without_ocr 2
              [footnote_with_continuation] extract_with_continuation) as [Hempty _].
  apply Hempty. by vm_compute.
Defined.

(* ------------------------------------------------------------------ *)
(** ** The chunk assembler *)

(** C4, evaluated where the code departs from it: with one paragraph on
    page 4 and footnotes on pages 3 and 4, the assembler emits the
    paragraph chunk and the chunk of the footnote of page 4; the footnote
    of page 3, a page without paragraphs, gives rise to no chunk. *)
Theorem lone_footnote_gets_no_chunk :
  create_semantic_chunks chunker_with_lone_footnote
  = [paragraph_chunk 1 sample_paragraph; footnote_chunk 2 footnote_page_4]
  ∧ footnote_page_3 ∈ footnotes chunker_with_lone_footnote
  ∧ Forall (fun c => footnote_numbers c ≠ [fn_number footnote_page_3])
      (create_semantic_chunks chunker_with_lone_footnote).
Proof.
  assert (create_semantic_chunks chunker_with_lone_footnote
          = [paragraph_chunk 1 sample_paragraph; footnote_chunk 2 footnote_page_4])
    as Hchunks by (vm_compute; reflexivity).
  split; [exact Hchunks|]. split; [constructor|].
  rewrite Hchunks. by repeat constructor.
Qed.

(* ------------------------------------------------------------------ *)
(** ** The distributed orchestrator *)

(** C7, evaluated where the code departs from it: for 106 pages, 6
    skipped and 50 pages per partition the page range does split into the
    two partitions 7..56 and 57..106, but the run raises when the job is
    submitted: the function handed to [flatMap] is a bound method of the
    orchestrator, which holds the Spark session, and cannot be pickled.
    No page entry is collected and nothing is aggregated; no run of
    [process_document_distributed] returns, whatever the configuration and
    the page count.  The 100 entries of the claim are what the partition
    function gives when it is run on the two partitions directly. *)
Theorem distributed_run_never_returns path start_time end_time :
  page_partitions notebook_config 106 = Ok [range 7 57; range 57 107]
  ∧ collect_results path notebook_config 106 = Raise PicklingError
  ∧ process_document_distributed path notebook_config 106 start_time end_time
    = Raise PicklingError
  ∧ (∀ c total_pages r,
       process_document_distributed path c total_pages start_time end_time
       ≠ Ok r)
  ∧ length (flat_map (_process_page_partition path notebook_config)
              [range 7 57; range 57 107]) = 100%nat
  ∧ map pe_page (flat_map (_process_page_partition path notebook_config)
                   [range 7 57; range 57 107]) = range 7 107.
Proof.
  split; [by vm_compute|]. split; [by vm_compute|]. split; [by vm_compute|].
  split; [|split; by vm_compute].
  intros c total_pages r.
  unfold process_document_distributed, collect_results.
  destruct (total_pages =? 0); [done|].
  destruct (page_partitions c total_pages) as [partitions|e]; simpl; [|done].
  unfold parallelize.
  by destruct (Z.of_nat (length partitions) =? 0).
Qed.

(* ------------------------------------------------------------------ *)
(** ** The patterns of the source are in the fragment *)

Lemma source_patterns_read :
  Forall (fun pattern => is_Some (re_parse pattern))
    ([footnote_pattern HYBRID_CHUNKING_CONFIG; pat_reference]
     ++ paragraph_number_patterns HYBRID_CHUNKING_CONFIG
     ++ high_number_patterns HYBRID_CHUNKING_CONFIG
     ++ date_patterns HYBRID_CHUNKING_CONFIG
     ++ header_patterns HYBRID_CHUNKING_CONFIG
     ++ legal_patterns).
Proof.
  simpl app.
  repeat (constructor; [eexists; vm_compute; reflexivity|]). constructor.
Qed.

(** A second paragraph with a number already emitted on the page is
    dropped with its continuation lines, not merged into the first. *)
Lemma duplicate_number_is_discarded :
  extract_paragraphs_ocr default_chunker
    [line_nine_words;
     "45. The Court repeats the number of the paragraph above by mistake.";
     "This line continues the repeated paragraph and is dropped with it."] 2
  = [paragraph_nine_words].
Proof. vm_compute. reflexivity. Qed.

(* ------------------------------------------------------------------ *)
(** ** Partitions cover the page range *)

Lemma partitions_concat (pages : list Z) (n : Z) : 0 < n →
  ∀ fuel i, 0 <= i → Z.of_nat (length pages) - i <= Z.of_nat fuel →
    concat (map (fun j => slice j (j + n) pages)
              (range_step_aux fuel i (Z.of_nat (length pages)) n))
    = skipn (Z.to_nat i) pages.
Proof.
  intros Hn. induction fuel as [|fuel IH]; intros i Hi Hfuel; simpl.
  - symmetry. apply skipn_all2. lia.
  - destruct (Z.ltb_spec i (Z.of_nat (length pages))) as [Hlt|Hge]; simpl.
    + rewrite IH by lia. unfold slice.
      replace (i + n - i) with n by lia.
      replace (Z.to_nat (i + n)) with (Z.to_nat n + Z.to_nat i)%nat by lia.
      rewrite <- skipn_skipn. apply firstn_skipn.
    + symmetry. apply skipn_all2. lia.
Qed.

Lemma make_partitions_concat pages n : 0 < n →
  ∃ partitions, make_partitions pages n = Ok partitions ∧ concat partitions = pages.
Proof.
  intros Hn. unfold make_partitions, range_step.
  replace (n =? 0) with false by (symmetry; apply Z.eqb_neq; lia).
  replace (n <? 0) with false by (symmetry; apply Z.ltb_ge; lia).
  simpl. eexists; split; [reflexivity|].
  rewrite partitions_concat by lia. reflexivity.
Qed.

Lemma process_partition_pages path c pages :
  map pe_page (_process_page_partition path c pages) = pages.
Proof.
  unfold _process_page_partition; simpl.
  induction pages as [|p pages IH]; simpl; [done|]. by rewrite IH.
Qed.

(** The chunker of a partition never opens the document, so every page it
    processes is recorded as failed. *)
Lemma partition_entries_fail path c pages :
  Forall (fun entry => pe_success entry = false)
    (_process_page_partition path c pages).
Proof.
  unfold _process_page_partition; simpl.
  induction pages as [|p pages IH]; simpl; by constructor.
Qed.

(** Without paragraphs the assembler emits nothing, whatever the
    footnotes. *)
Lemma no_paragraphs_no_chunks self :
  paragraphs self = [] → create_semantic_chunks self = [].
Proof. unfold create_semantic_chunks. by intros ->. Qed.

(* ------------------------------------------------------------------ *)
(** ** Where an emitted paragraph comes from *)

Section ParagraphTrace.

Variable matcher : string -> option match_obj.
Variable page_num : Z.
Variable all : list string.

Lemma accumulated_length i j num buf :
  accumulated matcher all i j num buf → (length buf = j - i)%nat.
Proof.
  intros (line & m & Hline & _ & _ & -> & Hij & _). simpl.
  unfold lines_between. rewrite length_firstn, length_skipn. lia.
Qed.

Lemma lines_between_snoc i n line :
  (i < n)%nat → all !! n = Some line →
  lines_between all i (S n) = lines_between all i n ++ [line].
Proof.
  intros Hin Hline. unfold lines_between.
  replace (S n - S i)%nat with (S (n - S i)) by lia.
  apply take_S_r. rewrite lookup_drop.
  by replace (S i + (n - S i))%nat with n by lia.
Qed.

Lemma StronglySorted_snoc {A} (R : A → A → Prop) l x :
  StronglySorted R l → Forall (λ y, R y x) l → StronglySorted R (l ++ [x]).
Proof.
  induction 1 as [|y l Hl IH Hy]; intros Hx; simpl.
  - by repeat constructor.
  - inversion Hx; subst. constructor; [by apply IH|].
    apply Forall_app. split; [done|]. by constructor.
Qed.

Lemma closed_inv_mono n n' ps :
  (n ≤ n')%nat → closed_inv matcher all n ps → closed_inv matcher all n' ps.
Proof.
  intros Hn (Htr & Hend & Hsorted). split; [done|]. split; [|done].
  eapply Forall_impl; [exact Hend|]. simpl. intros p Hp. lia.
Qed.

(** Closing the open paragraph at line [n]. *)
Lemma finalize_trace n st :
  trace_inv matcher all n st →
  closed_inv matcher all n (ps_paragraphs (finalize page_num (Z.of_nat n) st)).
Proof.
  intros [Hclosed Hopen]. unfold finalize.
  destruct (can_finalize st) as [num|] eqn:Hcan; [|done].
  destruct (_is_valid_paragraph _); [|done]. simpl.
  unfold can_finalize in Hcan.
  destruct (current_para st) as [|x buf] eqn:Hbuf; [done|].
  destruct Hopen as (i & num' & Hnum & Hacc & Hbefore).
  rewrite Hnum in Hcan. destruct (_ && _); [|done]. injection Hcan as <-.
  pose proof (accumulated_length _ _ _ _ Hacc) as Hlen.
  pose proof Hacc as (_ & _ & _ & _ & _ & _ & Hij & _).
  destruct Hclosed as (Htr & Hend & Hsorted).
  split; [|split].
  - apply Forall_app. split; [done|]. constructor; [|constructor].
    exists i, n, (x :: buf). simpl in *. split; [lia|done].
  - apply Forall_app. split; [done|]. constructor; [simpl; lia|constructor].
  - apply StronglySorted_snoc; [done|].
    eapply Forall_impl; [exact Hbefore|]. simpl in *. intros p Hp. lia.
Qed.

Lemma para_step_trace n line st :
  all !! n = Some line →
  trace_inv matcher all n st →
  trace_inv matcher all (S n)
    (para_step page_num (Z.of_nat n) (matcher line) line st).
Proof.
  intros Hline Hinv. pose proof (lookup_lt_Some _ _ _ Hline) as Hn.
  unfold para_step. destruct (matcher line) as [m|] eqn:Hm.
  - pose proof (finalize_trace n st Hinv) as Hclosed.
    destruct (negb _); simpl.
    + split; [by eapply closed_inv_mono; [|exact Hclosed]; lia|].
      exists n, (group 1 m). split; [done|]. split.
      * exists line, m. repeat split; try done; try lia.
        -- unfold lines_between. by replace (S n - S n)%nat with 0%nat by lia.
        -- unfold lines_between. by replace (S n - S n)%nat with 0%nat by lia.
      * by destruct Hclosed as (_ & Hend & _).
    + split; [|done]. eapply closed_inv_mono; [|exact Hclosed]. lia.
  - destruct Hinv as [Hclosed Hopen].
    destruct (current_para st) as [|x buf] eqn:Hbuf; simpl.
    + split; [|by rewrite Hbuf]. eapply closed_inv_mono; [|exact Hclosed]. lia.
    + split; [eapply closed_inv_mono; [|exact Hclosed]; lia|].
      destruct Hopen as (i & num & Hnum & Hacc & Hbefore).
      exists i, num. split; [done|]. split; [|done].
      destruct Hacc as (l0 & m0 & Hl0 & Hm0 & -> & Hx & Hij & Hnone).
      injection Hx as -> ->.
      exists l0, m0. rewrite (lines_between_snoc i n line) by (done || lia).
      repeat split; try done; try lia.
      apply Forall_app. split; [done|]. by constructor.
Qed.

Lemma scan_paragraphs_trace rest : ∀ pre st,
  all = pre ++ rest →
  trace_inv matcher all (length pre) st →
  trace_inv matcher all (length all)
    (scan_paragraphs matcher page_num (Z.of_nat (length pre)) rest st).
Proof.
  induction rest as [|line rest IH]; intros pre st Hall Hinv; simpl.
  - rewrite app_nil_r in Hall. by subst pre.
  - replace (Z.of_nat (length pre) + 1) with (Z.of_nat (length (pre ++ [line])))
      by (rewrite length_app; simpl; lia).
    apply IH; [by rewrite <- app_assoc|].
    rewrite length_app; simpl. replace (length pre + 1)%nat with (S (length pre)) by lia.
    apply para_step_trace; [|done].
    rewrite Hall. by rewrite lookup_app_r, Nat.sub_diag by lia.
Qed.

Lemma extract_paragraphs_with_trace :
  closed_inv matcher all (length all) (extract_paragraphs_with matcher all page_num).
Proof.
  unfold extract_paragraphs_with. apply finalize_trace.
  apply (scan_paragraphs_trace all [] _ eq_refl).
  split; [|done]. by repeat split; constructor.
Qed.

End ParagraphTrace.

(* ------------------------------------------------------------------ *)
(** ** The numbers captured by the default patterns *)

Lemma compile_primary_spaced :
  re_compile primary_spaced
  = rseq [RBol; RGroup 1 (rseq [RRep CDigit 1 (Some 4%nat)]); ROne (CChar ".");
          RRep CSpace 1 None].
Proof. reflexivity. Qed.

Lemma compile_footnote_start :
  re_compile footnote_start
  = rseq [RBol; RGroup 1 (rseq [RRep CDigit 1 (Some 3%nat)]); RRep CSpace 1 None].
Proof. reflexivity. Qed.

Section CapturedNumbers.

Local Opaque cls_test.

Ltac test_in H :=
  match type of H with
  | context [cls_test false (CChar ".") ?c] =>
      match goal with
      | E : cls_test false CDigit c = true |- _ =>
          rewrite (digit_is_not_dot c E) in H
      | _ =>
          let E := fresh "E" in
          destruct (cls_test false (CChar ".") c) eqn:E;
          [apply dot_test in E; subst c|]
      end
  | context [cls_test false CDigit ?c] =>
      let E := fresh "E" in destruct (cls_test false CDigit c) eqn:E
  | context [cls_test false CSpace ?c] =>
      let E := fresh "E" in destruct (cls_test false CSpace c) eqn:E
  end; cbn in H; try discriminate H.

Ltac open_result Hm :=
  match type of Hm with
  | context [rep_greedy ?ic ?c ?lo ?hi ?prev ?pos ?s ?k] =>
      let E := fresh "E" in let st := fresh "st" in
      destruct (rep_greedy ic c lo hi prev pos s k) as [st|] eqn:E;
      cbn in Hm; [|try discriminate Hm]
  end.

(** The captured digits are known once the case analysis is done. *)
Ltac captured :=
  try match goal with
    | E : rep_greedy _ _ _ _ _ _ _ _ = Some ?st |- context [?st] =>
        apply rep_greedy_groups in E; unfold group; cbn; rewrite E; cbn
    end;
  unfold group, decimal_number; cbn;
  repeat match goal with
    | E : cls_test false CDigit ?c = true |- _ =>
        change (cls_test false CDigit c) with (isdecimal c) in E; rewrite E
    end;
  split; [reflexivity|lia].

Lemma primary_spaced_number line m :
  re_match false primary_spaced line = Some m → decimal_number 1 4 (group 1 m).
Proof.
  unfold re_match. rewrite compile_primary_spaced. unfold try_at. intros Hm.
  destruct line as [|c1 [|c2 [|c3 [|c4 [|c5 rest]]]]]; cbn in Hm; try discriminate Hm.
  all: repeat (test_in Hm || open_result Hm).
  all: injection Hm as <-.
  all: captured.
Qed.

Lemma primary_bare_number line m :
  re_match false primary_bare line = Some m → decimal_number 1 4 (group 1 m).
Proof.
  unfold re_match. rewrite compile_primary_bare. unfold try_at. intros Hm.
  destruct line as [|c1 [|c2 [|c3 [|c4 [|c5 rest]]]]]; cbn in Hm; try discriminate Hm.
  all: repeat (test_in Hm || open_result Hm).
  all: injection Hm as <-.
  all: captured.
Qed.

Lemma footnote_start_number line m :
  re_match false footnote_start line = Some m → decimal_number 1 3 (group 1 m).
Proof.
  unfold re_match. rewrite compile_footnote_start. unfold try_at. intros Hm.
  destruct line as [|c1 [|c2 [|c3 [|c4 rest]]]]; cbn in Hm; try discriminate Hm.
  all: repeat (test_in Hm || open_result Hm).
  all: injection Hm as <-.
  all: captured.
Qed.

End CapturedNumbers.

(* ------------------------------------------------------------------ *)
(** ** What the paragraph recogniser emits *)

(** Every emitted paragraph was built by [finalize] from valid content. *)
Lemma extract_paragraphs_with_Forall (P : LegalParagraph → Prop) matcher page_num :
  (∀ num content start stop,
     _is_valid_paragraph content = true →
     P (mkLegalParagraph num content (page_num + 1) "main_text"
          (estimate_tokens content) (_extract_footnote_references content)
          start stop "hybrid_ocr" 0.8%float)) →
  ∀ lines, Forall P (extract_paragraphs_with matcher lines page_num).
Proof.
  intros HP lines. unfold extract_paragraphs_with.
  assert (∀ stop st, Forall P (ps_paragraphs st) →
                     Forall P (ps_paragraphs (finalize page_num stop st))) as Hfin.
  { intros stop st Hst. unfold finalize.
    destruct (can_finalize st); [|done].
    destruct (_is_valid_paragraph _) eqn:Hvalid; [|done]. simpl.
    apply Forall_app. split; [done|]. constructor; [by apply HP|constructor]. }
  apply Hfin.
  assert (∀ n st, Forall P (ps_paragraphs st) →
            Forall P (ps_paragraphs (scan_paragraphs matcher page_num n lines st)))
    as Hscan.
  { induction lines as [|line lines IH]; intros n st Hst; simpl; [done|].
    apply IH. unfold para_step. destruct (matcher line).
    - specialize (Hfin n st Hst). by destruct (negb _).
    - by destruct (current_para st). }
  apply Hscan. constructor.
Qed.

Lemma emitted_paragraph_traced self lines page_num p :
  p ∈ extract_paragraphs_ocr self lines page_num →
  ∃ (i j : nat) line m,
    start_line p = Z.of_nat i ∧ end_line p = Z.of_nat j
    ∧ (i < j ≤ length lines)%nat
    ∧ lines !! i = Some line
    ∧ find_para_match self line = Some m
    ∧ number p = group 1 m
    ∧ content p
      = strip (join " " (strip (drop (m_end m) line) :: lines_between lines i j))
    ∧ Forall (λ l, find_para_match self l = None) (lines_between lines i j).
Proof.
  intros Hp.
  destruct (extract_paragraphs_with_trace (find_para_match self) page_num lines)
    as (Htr & _).
  rewrite Forall_forall in Htr.
  destruct (Htr p Hp) as (i & j & buf & Hi & Hj & Hacc & Hcontent).
  destruct Hacc as (line & m & Hline & Hm & Hnum & -> & Hij & Hnone).
  by exists i, j, line, m.
Qed.

(** X1: an emitted paragraph was opened by a numbered line of the page and
    holds what follows the number on that line and then the lines up to
    its end line, none of which is numbered; its number is the one
    captured on the opening line. *)
Theorem paragraph_provenance self lines page_num p :
  p ∈ extract_paragraphs_ocr self lines page_num →
  ∃ (i j : nat) line m,
    start_line p = Z.of_nat i ∧ end_line p = Z.of_nat j
    ∧ (i < j ≤ length lines)%nat
    ∧ lines !! i = Some line
    ∧ find_para_match self line = Some m
    ∧ number p = group 1 m
    ∧ content p
      = strip (join " " (strip (drop (m_end m) line) :: lines_between lines i j))
    ∧ Forall (λ l, find_para_match self l = None) (lines_between lines i j).
Proof.
  intros Hp.
  destruct (extract_paragraphs_with_trace (find_para_match self) page_num lines)
    as (Htr & _).
  rewrite Forall_forall in Htr.
  destruct (Htr p Hp) as (i & j & buf & Hi & Hj & Hacc & Hcontent).
  destruct Hacc as (line & m & Hline & Hm & Hnum & -> & Hij & Hnone).
  by exists i, j, line, m.
Qed.

Lemma paragraph_provenance_witness :
  paragraph_nine_words ∈ extract_paragraphs_ocr default_chunker [line_nine_words] 2
  ∧ ∃ (i j : nat) line m,
      start_line paragraph_nine_words = Z.of_nat i
      ∧ end_line paragraph_nine_words = Z.of_nat j
      ∧ (i < j ≤ length [line_nine_words])%nat
      ∧ [line_nine_words] !! i = Some line
      ∧ find_para_match default_chunker line = Some m
      ∧ number paragraph_nine_words = group 1 m
      ∧ content paragraph_nine_words
        = strip (join " " (strip (drop (m_end m) line)
                             :: lines_between [line_nine_words] i j))
      ∧ Forall (λ l, find_para_match default_chunker l = None)
          (lines_between [line_nine_words] i j).
Proof.
  assert (paragraph_nine_words
          ∈ extract_paragraphs_ocr default_chunker [line_nine_words] 2) as Hin.
  { vm_compute. constructor. }
  split; [exact Hin|].
  exact (paragraph_provenance default_chunker [line_nine_words] 2 _ Hin).
Defined.

(** X2: the paragraphs of a page come out in the order of their lines:
    each one ends before the next one starts, and every line range is a
    non-empty range of lines of the page. *)
Theorem paragraphs_in_line_order self lines page_num :
  StronglySorted (λ p q, end_line p <= start_line q)
    (extract_paragraphs_ocr self lines page_num)
  ∧ Forall (λ p, 0 <= start_line p < end_line p
                 ∧ end_line p <= Z.of_nat (length lines))
      (extract_paragraphs_ocr self lines page_num).
Proof.
  destruct (extract_paragraphs_with_trace (find_para_match self) page_num lines)
    as (Htr & _ & Hsorted).
  split; [exact Hsorted|].
  eapply Forall_impl; [exact Htr|]. simpl.
  intros p (i & j & buf & Hi & Hj & Hacc & _).
  destruct Hacc as (_ & _ & _ & _ & _ & _ & Hij & _). lia.
Qed.

(** X3: a page none of whose lines matches a paragraph-number pattern
    gives no paragraph. *)
Theorem no_numbered_line_no_paragraph self lines page_num :
  Forall (λ line, find_para_match self line = None) lines →
  extract_paragraphs_ocr self lines page_num = [].
Proof.
  intros Hnone.
  destruct (extract_paragraphs_ocr self lines page_num) as [|p ps] eqn:Hout; [done|].
  assert (p ∈ extract_paragraphs_ocr self lines page_num) as Hp
    by (rewrite Hout; constructor).
  destruct (emitted_paragraph_traced _ _ _ _ Hp)
    as (i & j & line & m & _ & _ & _ & Hline & Hm & _).
  rewrite Forall_forall in Hnone.
  rewrite (Hnone line) in Hm; [done|]. by eapply list_elem_of_lookup_2.
Qed.

Lemma no_numbered_line_no_paragraph_witness :
  Forall (λ line, find_para_match default_chunker line = None)
    ["The Chamber recalls its earlier findings."; "See above."]
  ∧ extract_paragraphs_ocr default_chunker
      ["The Chamber recalls its earlier findings."; "See above."] 2 = [].
Proof.
  assert (Forall (λ line, find_para_match default_chunker line = None)
            ["The Chamber recalls its earlier findings."; "See above."]) as Hnone.
  { repeat constructor; by vm_compute. }
  split; [exact Hnone|].
  exact (no_numbered_line_no_paragraph default_chunker _ 2 Hnone).
Defined.

Lemma valid_paragraph_length content :
  _is_valid_paragraph content = true →
  50 <= len content
  ∧ (existsb (λ indicator, contains indicator (lower content))
       ["chamber"; "court"; "evidence"; "statute"; "article"] = true
     ∨ 10 <= Z.of_nat (length (split_ws content))).
Proof.
  unfold _is_valid_paragraph.
  destruct (Z.ltb_spec (len content) 50) as [|Hlen]; [done|].
  destruct (existsb _ _); [by split; [|left]|].
  intros Hwords%Z.leb_le. by split; [|right].
Qed.

(** X4: every emitted paragraph passed [_is_valid_paragraph] (at least
    50 characters, and a legal indicator word or at least ten words), is on
    page [page_num + 1] and carries the fixed section type, extraction
    method and confidence. *)
Theorem emitted_paragraph_fields self lines page_num :
  Forall (λ p,
            50 <= len (content p)
            ∧ (existsb (λ indicator, contains indicator (lower (content p)))
                 ["chamber"; "court"; "evidence"; "statute"; "article"] = true
               ∨ 10 <= Z.of_nat (length (split_ws (content p))))
            ∧ page p = page_num + 1
            ∧ section_type p = "main_text"
            ∧ extraction_method p = "hybrid_ocr"
            ∧ confidence p = 0.8%float)
    (extract_paragraphs_ocr self lines page_num).
Proof.
  apply extract_paragraphs_with_Forall.
  intros num content start stop Hvalid. simpl.
  destruct (valid_paragraph_length content Hvalid). by repeat split.
Qed.

(** X5: under the default patterns a paragraph number is one to four
    decimal digits. *)
Theorem paragraph_number_digits self lines page_num p :
  paragraph_number_patterns (cfg self)
    = paragraph_number_patterns HYBRID_CHUNKING_CONFIG →
  high_number_patterns (cfg self) = high_number_patterns HYBRID_CHUNKING_CONFIG →
  p ∈ extract_paragraphs_ocr self lines page_num →
  decimal_number 1 4 (number p).
Proof.
  intros Hprimary Hhigh Hp.
  destruct (emitted_paragraph_traced _ _ _ _ Hp)
    as (i & j & line & m & _ & _ & _ & _ & Hm & -> & _).
  rewrite (find_para_match_default self line Hprimary Hhigh) in Hm.
  unfold find_para_match_primary in Hm. rewrite Hprimary in Hm. simpl in Hm.
  destruct (re_match false primary_spaced line) as [m1|] eqn:E1.
  { injection Hm as <-. by eapply primary_spaced_number. }
  destruct (re_match false primary_bare line) as [m2|] eqn:E2; [|done].
  injection Hm as <-. by eapply primary_bare_number.
Qed.

Lemma paragraph_number_digits_witness :
  paragraph_nine_words ∈ extract_paragraphs_ocr default_chunker [line_nine_words] 2
  ∧ decimal_number 1 4 (number paragraph_nine_words).
Proof.
  assert (paragraph_nine_words
          ∈ extract_paragraphs_ocr default_chunker [line_nine_words] 2) as Hin.
  { vm_compute. constructor. }
  split; [exact Hin|].
  exact (paragraph_number_digits default_chunker [line_nine_words] 2 _
           eq_refl eq_refl Hin).
Defined.


(* ------------------------------------------------------------------ *)
(** ** The first valid occurrence of a number wins *)


Section FirstOccurrence.

Variable matcher : string -> option match_obj.
Variable page_num : Z.
Variable all : list string.












End FirstOccurrence.




(* ------------------------------------------------------------------ *)
(** ** Where an emitted footnote comes from *)

Section FootnoteTrace.

Variable self : Chunker.
Variable page_num : Z.
Variable all : list string.

Lemma continuation_snoc ls line :
  continuation self (ls ++ [line])
  = continuation self ls
    ++ (if kept_line self line && (10 <? len (strip line)) then [strip line] else []).
Proof.
  unfold continuation. rewrite filter_app, map_app, filter_app. f_equal.
  destruct (kept_line self line) eqn:Hkept; simpl.
  - rewrite filter_cons_True by (by apply Is_true_true_2).
    rewrite filter_nil. simpl.
    destruct (10 <? len (strip line)) eqn:Hlen.
    + rewrite filter_cons_True by (by apply Is_true_true_2). by rewrite filter_nil.
    + rewrite filter_cons_False by (by apply Is_true_false_2). by rewrite filter_nil.
  - rewrite filter_cons_False by (by apply Is_true_false_2). by rewrite filter_nil.
Qed.

Lemma fn_traced_skip i n line f :
  all !! n = Some line → numbered_line self line = None →
  (kept_line self line && (10 <? len (strip line))) = false →
  fn_traced self page_num all i n f → fn_traced self page_num all i (S n) f.
Proof.
  intros Hline Hnone Hdrop (l0 & m & Hl0 & Hm & Hin & Hbetween & Hvalid & ->).
  pose proof (lookup_lt_Some _ _ _ Hline).
  exists l0, m. rewrite (lines_between_snoc all i n line) by (done || lia).
  rewrite continuation_snoc, Hdrop, app_nil_r.
  repeat split; try done; try lia.
  apply Forall_app. split; [done|]. by constructor.
Qed.

Lemma fn_traced_append i n line f :
  all !! n = Some line → numbered_line self line = None →
  kept_line self line = true → 10 < len (strip line) →
  fn_traced self page_num all i n f →
  fn_traced self page_num all i (S n) (append_content f (strip line)).
Proof.
  intros Hline Hnone Hkept Hlen (l0 & m & Hl0 & Hm & Hin & Hbetween & Hvalid & ->).
  pose proof (lookup_lt_Some _ _ _ Hline).
  exists l0, m. rewrite (lines_between_snoc all i n line) by (done || lia).
  rewrite continuation_snoc, Hkept.
  replace (10 <? len (strip line)) with true by (symmetry; by apply Z.ltb_lt).
  simpl. rewrite continued_snoc.
  repeat split; try done; try lia.
  apply Forall_app. split; [done|]. by constructor.
Qed.

Lemma fn_closed_mono n n' (fs : list Footnote) :
  (n ≤ n')%nat →
  Forall (λ f, ∃ i j, (j ≤ n)%nat ∧ fn_traced self page_num all i j f
                      ∧ fn_end self all j) fs →
  Forall (λ f, ∃ i j, (j ≤ n')%nat ∧ fn_traced self page_num all i j f
                      ∧ fn_end self all j) fs.
Proof.
  intros Hn Hfs. eapply Forall_impl; [exact Hfs|].
  intros f (i & j & Hj & Hf). exists i, j. split; [lia|done].
Qed.

Lemma save_footnote_trace n st :
  fn_end self all n →
  fn_trace_inv self page_num all n st →
  Forall (λ f, ∃ i j, (j ≤ n)%nat ∧ fn_traced self page_num all i j f
                      ∧ fn_end self all j)
    (save_footnote st).
Proof.
  intros Hend [Hclosed Hopen]. unfold save_footnote.
  destruct (snd st) as [f|]; [|done].
  apply Forall_app. split; [done|]. constructor; [|constructor].
  destruct (Hopen f eq_refl) as (i & Hf). exists i, n. split; [lia|by split].
Qed.

Lemma footnote_step_kept st line :
  footnote_step self page_num st line =
  if kept_line self line then
    match numbered_line self line with
    | Some m =>
        let content := strip (drop (m_end m) (strip line)) in
        if _is_valid_footnote_pymupdf self content (group 1 m)
        then (save_footnote st,
              Some (mkFootnote (group 1 m) content (page_num + 1)
                      (_calculate_footnote_confidence content) "pymupdf" []))
        else (save_footnote st, None)
    | None =>
        match snd st with
        | Some f =>
            if 10 <? len (strip line)
            then (fst st, Some (append_content f (strip line)))
            else st
        | None => st
        end
    end
  else st.
Proof.
  unfold footnote_step, numbered_line, kept_line.
  destruct (truthy (strip line)); simpl; [|done].
  by destruct (is_header_footer self (strip line)).
Qed.

Lemma footnote_step_trace n line st :
  all !! n = Some line →
  fn_trace_inv self page_num all n st →
  fn_trace_inv self page_num all (S n) (footnote_step self page_num st line).
Proof.
  intros Hline Hinv. pose proof (lookup_lt_Some _ _ _ Hline) as Hn.
  rewrite footnote_step_kept.
  destruct (kept_line self line) eqn:Hkept.
  2:{ destruct Hinv as [Hclosed Hopen].
      split; [by eapply fn_closed_mono; [|exact Hclosed]; lia|].
      intros f Hf. destruct (Hopen f Hf) as (i & Hi). exists i.
      eapply fn_traced_skip; try done.
      - unfold numbered_line. by rewrite Hkept.
      - by rewrite Hkept. }
  destruct (numbered_line self line) as [m|] eqn:Hm.
  - assert (fn_end self all n) as Hend by (right; by exists line, m).
    pose proof (save_footnote_trace n st Hend Hinv) as Hsaved. simpl.
    destruct (_is_valid_footnote_pymupdf _ _ _) eqn:Hvalid.
    + split; [by eapply fn_closed_mono; [|exact Hsaved]; lia|].
      intros f [= <-]. exists n, line, m.
      unfold lines_between. replace (S n - S n)%nat with 0%nat by lia. simpl.
      repeat split; try done; lia.
    + split; [by eapply fn_closed_mono; [|exact Hsaved]; lia|]. by intros f [=].
  - destruct Hinv as [Hclosed Hopen].
    destruct (snd st) as [f|] eqn:Hcur.
    + destruct (Hopen f eq_refl) as (i & Hi).
      destruct (Z.ltb_spec 10 (len (strip line))) as [Hlen|Hlen].
      * split; [by eapply fn_closed_mono; [|exact Hclosed]; lia|].
        intros f' [= <-]. exists i. by apply fn_traced_append.
      * split; [by eapply fn_closed_mono; [|exact Hclosed]; lia|].
        rewrite Hcur. intros f' [= <-]. exists i.
        eapply fn_traced_skip; try done.
        rewrite Hkept. simpl. apply Z.ltb_ge. lia.
    + split; [by eapply fn_closed_mono; [|exact Hclosed]; lia|].
      by rewrite Hcur.
Qed.

Lemma fold_footnotes_trace rest : ∀ pre st,
  all = pre ++ rest →
  fn_trace_inv self page_num all (length pre) st →
  fn_trace_inv self page_num all (length all)
    (fold_left (footnote_step self page_num) rest st).
Proof.
  induction rest as [|line rest IH]; intros pre st Hall Hinv; simpl.
  - rewrite app_nil_r in Hall. by subst pre.
  - specialize (IH (pre ++ [line]) (footnote_step self page_num st line)).
    apply IH; [by rewrite <- app_assoc|].
    rewrite length_app; simpl.
    replace (length pre + 1)%nat with (S (length pre)) by lia.
    apply footnote_step_trace; [|done].
    rewrite Hall. by rewrite lookup_app_r, Nat.sub_diag by lia.
Qed.

Lemma scan_footnotes_trace :
  Forall (λ f, ∃ i j, (j ≤ length all)%nat ∧ fn_traced self page_num all i j f
                      ∧ fn_end self all j)
    (scan_footnotes self page_num all).
Proof.
  unfold scan_footnotes. apply save_footnote_trace; [by left|].
  apply (fold_footnotes_trace all [] _ eq_refl).
  split; [constructor|]. by intros f [=].
Qed.

End FootnoteTrace.

(* ------------------------------------------------------------------ *)
(** ** What the footnote recogniser emits *)

Lemma confidence_in_unit_interval content :
  (0 <=? _calculate_footnote_confidence content)%float = true
  ∧ (_calculate_footnote_confidence content <=? 1)%float = true.
Proof.
  unfold _calculate_footnote_confidence.
  destruct (found false pat_witness content), (found false pat_transcript content),
    (found false pat_car content), (found false pat_icc content),
    (found false pat_para content), (found false pat_page content),
    (found false pat_article content), (found false pat_rule content),
    (50 <? len content).
  all: by vm_compute.
Qed.

Lemma len_append s t : len (s +:+ t) = len s + len t.
Proof.
  unfold len. rewrite <- Nat2Z.inj_add. f_equal.
  induction s as [|a s IH]; simpl; [done|]. by rewrite IH.
Qed.

Lemma len_continued opening conts : len opening <= len (continued opening conts).
Proof.
  unfold continued. revert opening.
  induction conts as [|line conts IH]; intros opening; simpl; [lia|].
  etrans; [|apply IH]. rewrite !len_append. unfold len. lia.
Qed.

Lemma valid_footnote_length self content num :
  _is_valid_footnote_pymupdf self content num = true → 10 <= len content.
Proof.
  unfold _is_valid_footnote_pymupdf.
  by destruct (Z.ltb_spec (len content) 10).
Qed.

Lemma emitted_footnote_traced self page_num fns f :
  extract_footnotes_pymupdf self page_num = Ok fns → f ∈ fns →
  ∃ pg (i j : nat),
    load_page self page_num = Ok pg
    ∧ fn_traced self page_num (split_on newline (get_text pg)) i j f
    ∧ fn_end self (split_on newline (get_text pg)) j.
Proof.
  intros Hfns Hf. unfold extract_footnotes_pymupdf in Hfns.
  destruct (load_page self page_num) as [pg|e]; simpl in Hfns; [|done].
  injection Hfns as <-.
  pose proof (scan_footnotes_trace self page_num (split_on newline (get_text pg)))
    as Htr.
  rewrite Forall_forall in Htr. destruct (Htr f Hf) as (i & j & _ & Hij).
  by exists pg, i, j.
Qed.

(** X6: an emitted footnote was opened by a numbered line [i] of the
    text layer whose content passed validation, and closed at [j], the
    next numbered line after [i] or the end of the text; its number is the
    captured one, its confidence is computed from the opening content
    alone, and its content is the opening content continued by the lines
    between [i] and [j] that are looked at and longer than 10
    characters. *)
Theorem footnote_provenance self page_num fns f :
  extract_footnotes_pymupdf self page_num = Ok fns → f ∈ fns →
  ∃ pg (i j : nat) line m,
    load_page self page_num = Ok pg
    ∧ split_on newline (get_text pg) !! i = Some line
    ∧ numbered_line self line = Some m
    ∧ (i < j ≤ length (split_on newline (get_text pg)))%nat
    ∧ Forall (λ l, numbered_line self l = None)
        (lines_between (split_on newline (get_text pg)) i j)
    ∧ (j = length (split_on newline (get_text pg))
       ∨ ∃ l m', split_on newline (get_text pg) !! j = Some l
                 ∧ numbered_line self l = Some m')
    ∧ _is_valid_footnote_pymupdf self (strip (drop (m_end m) (strip line)))
        (group 1 m) = true
    ∧ f = mkFootnote (group 1 m)
            (continued (strip (drop (m_end m) (strip line)))
               (continuation self
                  (lines_between (split_on newline (get_text pg)) i j)))
            (page_num + 1)
            (_calculate_footnote_confidence (strip (drop (m_end m) (strip line))))
            "pymupdf" [].
Proof.
  intros Hfns Hf.
  destruct (emitted_footnote_traced _ _ _ _ Hfns Hf)
    as (pg & i & j & Hpg & (line & m & Hline & Hm & Hij & Hnone & Hvalid & Hf')
        & Hend).
  by exists pg, i, j, line, m.
Qed.

Lemma footnote_provenance_witness :
  extract_footnotes_pymupdf chunker_without_ocr 2 = Ok [footnote_with_continuation]
  ∧ ∃ pg (i j : nat) line m,
      load_page chunker_without_ocr 2 = Ok pg
      ∧ split_on newline (get_text pg) !! i = Some line
      ∧ numbered_line chunker_without_ocr line = Some m
      ∧ (i < j ≤ length (split_on newline (get_text pg)))%nat
      ∧ Forall (λ l, numbered_line chunker_without_ocr l = None)
          (lines_between (split_on newline (get_text pg)) i j)
      ∧ (j = length (split_on newline (get_text pg))
         ∨ ∃ l m', split_on newline (get_text pg) !! j = Some l
                   ∧ numbered_line chunker_without_ocr l = Some m')
      ∧ _is_valid_footnote_pymupdf chunker_without_ocr
          (strip (drop (m_end m) (strip line))) (group 1 m) = true
      ∧ footnote_with_continuation
        = mkFootnote (group 1 m)
            (continued (strip (drop (m_end m) (strip line)))
               (continuation chunker_without_ocr
                  (lines_between (split_on newline (get_text pg)) i j)))
            (2 + 1)
            (_calculate_footnote_confidence (strip (drop (m_end m) (strip line))))
            "pymupdf" [].
Proof.
  split; [apply extract_with_continuation|].
  apply (footnote_provenance chunker_without_ocr 2 [footnote_with_continuation]).
  - apply extract_with_continuation.
  - by apply list_elem_of_singleton.
Defined.

(** X7: every emitted footnote is on page [page_num + 1], has detection
    method "pymupdf" and no referenced paragraphs, a content of at least
    10 characters and a confidence between 0 and 1. *)
Theorem emitted_footnote_fields self page_num fns f :
  extract_footnotes_pymupdf self page_num = Ok fns → f ∈ fns →
  fn_page f = page_num + 1
  ∧ fn_detection_method f = "pymupdf"
  ∧ fn_referenced_paragraphs f = []
  ∧ 10 <= len (fn_content f)
  ∧ (0 <=? fn_confidence f)%float = true
  ∧ (fn_confidence f <=? 1)%float = true.
Proof.
  intros Hfns Hf.
  destruct (emitted_footnote_traced _ _ _ _ Hfns Hf)
    as (pg & i & j & _ & Htr & _).
  destruct Htr as (line & m & _ & _ & _ & _ & Hvalid & ->). simpl.
  destruct (confidence_in_unit_interval (strip (drop (m_end m) (strip line)))).
  repeat split; try done.
  etrans; [by eapply valid_footnote_length|]. apply len_continued.
Qed.

Lemma emitted_footnote_fields_witness :
  extract_footnotes_pymupdf chunker_without_ocr 2 = Ok [footnote_with_continuation]
  ∧ fn_page footnote_with_continuation = 2 + 1
  ∧ 10 <= len (fn_content footnote_with_continuation).
Proof.
  split; [apply extract_with_continuation|].
  destruct (emitted_footnote_fields chunker_without_ocr 2
              [footnote_with_continuation] footnote_with_continuation
              extract_with_continuation) as (Hpage & _ & _ & Hlen & _).
  - by apply list_elem_of_singleton.
  - by split.
Defined.

(** X8: under the default footnote pattern a footnote number is one to
    three decimal digits. *)
Theorem footnote_number_digits self page_num fns f :
  footnote_pattern (cfg self) = footnote_pattern HYBRID_CHUNKING_CONFIG →
  extract_footnotes_pymupdf self page_num = Ok fns → f ∈ fns →
  decimal_number 1 3 (fn_number f).
Proof.
  intros Hpattern Hfns Hf.
  destruct (emitted_footnote_traced _ _ _ _ Hfns Hf)
    as (pg & i & j & _ & Htr & _).
  destruct Htr as (line & m & _ & Hm & _ & _ & _ & ->). simpl.
  unfold numbered_line in Hm. destruct (kept_line self line); [|done].
  rewrite Hpattern in Hm. by eapply footnote_start_number.
Qed.

Lemma footnote_number_digits_witness :
  footnote_pattern (cfg chunker_without_ocr) = footnote_pattern HYBRID_CHUNKING_CONFIG
  ∧ extract_footnotes_pymupdf chunker_without_ocr 2 = Ok [footnote_with_continuation]
  ∧ decimal_number 1 3 (fn_number footnote_with_continuation).
Proof.
  split; [reflexivity|]. split; [apply extract_with_continuation|].
  apply (footnote_number_digits chunker_without_ocr 2 [footnote_with_continuation]).
  - reflexivity.
  - apply extract_with_continuation.
  - by apply list_elem_of_singleton.
Defined.

(** X9: blank lines and header or footer lines do not affect the footnote
    scan. *)
Theorem footnote_scan_ignores_headers self page_num lines :
  scan_footnotes self page_num lines
  = scan_footnotes self page_num (filter (kept_line self) lines).
Proof.
  unfold scan_footnotes. f_equal. generalize (@nil Footnote, @None Footnote).
  induction lines as [|line lines IH]; intros st; simpl; [done|].
  destruct (kept_line self line) eqn:Hkept.
  - rewrite filter_cons_True by (by apply Is_true_true_2). simpl. apply IH.
  - rewrite filter_cons_False by (by apply Is_true_false_2).
    rewrite <- IH. by rewrite (footnote_step_kept self page_num st line), Hkept.
Qed.


(* ------------------------------------------------------------------ *)
(** ** Pages and documents *)

Lemma sample_run :
  process_document sample_fitz default_chunker
  = Ok (mkChunker "data/jugement.pdf" HYBRID_CHUNKING_CONFIG (Some sample_document)
          [paragraph_page_7] [footnote_page_7; footnote_page_8],
        ([paragraph_page_7], [footnote_page_7; footnote_page_8])).
Proof. vm_compute. reflexivity. Qed.

Lemma process_page_eq self page_num :
  process_page self page_num
  = (pg ← load_page self page_num;
     mret (extract_paragraphs_ocr self
             (clean_headers_footers self (extract_text_with_ocr self page_num))
             page_num,
           scan_footnotes self page_num (split_on newline (get_text pg)))).
Proof.
  unfold process_page, extract_footnotes_pymupdf.
  destruct (load_page self page_num) as [pg|e] eqn:Hpg; simpl; [|done].
  by destruct (extract_text_with_ocr self page_num).
Qed.

Lemma shipped_patterns_default : shipped_patterns HYBRID_CHUNKING_CONFIG.
Proof. by repeat split. Qed.

(** X10: with the shipped patterns, [process_page] raises exactly when
    the page cannot be loaded, and then with the exception of the load;
    otherwise it returns the paragraphs read from the cleaned OCR lines
    (none when OCR fails) and the footnotes of the text layer, so that it
    returns if and only if the page can be loaded. *)
Theorem process_page_outcome self page_num :
  shipped_patterns (cfg self) →
  match load_page self page_num with
  | Raise e => process_page self page_num = Raise e
  | Ok pg =>
      process_page self page_num
      = Ok (extract_paragraphs_ocr self
              (clean_headers_footers self (extract_text_with_ocr self page_num))
              page_num,
            scan_footnotes self page_num (split_on newline (get_text pg)))
  end
  ∧ ((∃ r, process_page self page_num = Ok r)
     ↔ ∃ pg, load_page self page_num = Ok pg)
  ∧ (∀ pg e,
       load_page self page_num = Ok pg → image_to_string pg = Raise e →
       process_page self page_num
       = Ok ([], scan_footnotes self page_num (split_on newline (get_text pg)))).
Proof.
  intros _. split; [|split].
  - unfold process_page, extract_footnotes_pymupdf.
    destruct (load_page self page_num) as [pg|e] eqn:Hpg; simpl; [|done].
    by destruct (extract_text_with_ocr self page_num).
  - unfold process_page, extract_footnotes_pymupdf.
    destruct (load_page self page_num) as [pg|e] eqn:Hpg; simpl.
    + split; intros _; [by exists pg|].
      destruct (extract_text_with_ocr self page_num); by eexists.
    + split; by intros [? ?].
  - intros pg e Hpg Hocr.
    pose proof (ocr_failure_gives_no_lines _ _ _ _ Hpg Hocr) as Hlines.
    unfold process_page, extract_footnotes_pymupdf. rewrite Hpg; simpl.
    by rewrite Hlines.
Qed.

Lemma process_page_outcome_witness :
  process_page sample_chunker 6
  = Ok (extract_paragraphs_ocr sample_chunker
          (clean_headers_footers sample_chunker
             (extract_text_with_ocr sample_chunker 6)) 6,
        scan_footnotes sample_chunker 6 (split_on newline (get_text page_with_ocr)))
  ∧ ((∃ r, process_page sample_chunker 6 = Ok r)
     ↔ ∃ pg, load_page sample_chunker 6 = Ok pg).
Proof.
  destruct (process_page_outcome sample_chunker 6 shipped_patterns_default)
    as (Hpage & Hiff & _).
  split; [exact Hpage|exact Hiff].
Defined.

Lemma process_page_result_ok self page_num r :
  process_page self page_num = Ok r → page_result_ok page_num r.
Proof.
  rewrite process_page_eq.
  destruct (load_page self page_num) as [pg|e] eqn:Hpg; simpl; [|done].
  intros [= <-]. unfold page_result_ok; simpl. split; [|split].
  - apply extract_paragraphs_with_inv.
  - apply extract_paragraphs_with_Forall. by intros.
  - pose proof (scan_footnotes_trace self page_num (split_on newline (get_text pg)))
      as Htr.
    eapply Forall_impl; [exact Htr|]. simpl.
    by intros f (i & j & _ & (line & m & _ & _ & _ & _ & _ & ->) & _).
Qed.

(** X11: what [process_page] returns for page index [page_num]: paragraph
    numbers are distinct within the page, and every paragraph and footnote
    is stamped with page [page_num + 1]. *)
Theorem process_page_stamps self page_num paras fns :
  process_page self page_num = Ok (paras, fns) →
  NoDup (map number paras)
  ∧ Forall (λ p, page p = page_num + 1) paras
  ∧ Forall (λ f, fn_page f = page_num + 1) fns.
Proof.
  rewrite process_page_eq.
  destruct (load_page self page_num) as [pg|e] eqn:Hpg; simpl; [|done].
  intros [= <- <-]. split; [|split].
  - apply extract_paragraphs_with_inv.
  - apply extract_paragraphs_with_Forall. by intros.
  - pose proof (scan_footnotes_trace self page_num (split_on newline (get_text pg)))
      as Htr.
    eapply Forall_impl; [exact Htr|]. simpl.
    by intros f (i & j & _ & (line & m & _ & _ & _ & _ & _ & ->) & _).
Qed.

Lemma process_page_sample :
  process_page (mkChunker "data/jugement.pdf" HYBRID_CHUNKING_CONFIG
                  (Some sample_document) [] []) 6
  = Ok ([paragraph_page_7], [footnote_page_7]).
Proof. vm_compute. reflexivity. Qed.

Lemma process_page_stamps_witness :
  NoDup (map number [paragraph_page_7])
  ∧ Forall (λ p, page p = 6 + 1) [paragraph_page_7]
  ∧ Forall (λ f, fn_page f = 6 + 1) [footnote_page_7].
Proof. exact (process_page_stamps _ 6 _ _ process_page_sample). Defined.

Lemma process_pages_ok self pages : ∀ ps fs r,
  process_pages self pages ps fs = Ok r →
  ∃ per_page,
    page_results self pages per_page
    ∧ r = (ps ++ concat (map fst per_page), fs ++ concat (map snd per_page)).
Proof.
  induction pages as [|p pages IH]; intros ps fs r; simpl.
  - intros [= <-]. exists []. split; [constructor|]. by rewrite !app_nil_r.
  - destruct (process_page self p) as [x|e] eqn:Hp; simpl; [|done].
    intros (per_page & Hall & ->)%IH. exists (x :: per_page).
    split; [by constructor|]. simpl. by rewrite !app_assoc.
Qed.

Lemma process_pages_complete self pages per_page : ∀ ps fs,
  page_results self pages per_page →
  process_pages self pages ps fs
  = Ok (ps ++ concat (map fst per_page), fs ++ concat (map snd per_page)).
Proof.
  intros ps fs Hall. revert ps fs.
  induction Hall as [|p x pages per_page Hp Hall IH]; intros ps fs; simpl.
  - by rewrite !app_nil_r.
  - rewrite Hp; simpl. by rewrite IH, !app_assoc.
Qed.

Lemma process_pages_raise self pre p post e : ∀ ps fs,
  Forall (λ q, ∃ r, process_page self q = Ok r) pre →
  process_page self p = Raise e →
  process_pages self (pre ++ p :: post) ps fs = Raise e.
Proof.
  intros ps fs Hpre Hp. revert ps fs.
  induction Hpre as [|q pre [r Hq] Hpre IH]; intros ps fs; simpl.
  - by rewrite Hp.
  - rewrite Hq; simpl. apply IH.
Qed.

Lemma ensure_open_fields lib self self1 :
  ensure_open lib self = Ok self1 →
  pdf_path self1 = pdf_path self ∧ cfg self1 = cfg self
  ∧ paragraphs self1 = paragraphs self ∧ footnotes self1 = footnotes self
  ∧ ∃ d, doc self1 = Some d
         ∧ (doc self = Some d ∧ doc_bool lib d = true
            ∨ doc_truthy lib self = false ∧ fitz_open lib (pdf_path self) = Ok d).
Proof.
  unfold ensure_open, doc_truthy, open_document.
  destruct (doc self) as [d|] eqn:Hdoc.
  - destruct (doc_bool lib d) eqn:Hbool.
    + intros [= <-]. repeat split; try done. exists d. rewrite Hdoc. by split; [|left].
    + destruct (fitz_open lib (pdf_path self)) as [d'|e] eqn:Hopen; simpl; [|done].
      intros [= <-]. repeat split; try done. exists d'. by split; [|right].
  - destruct (fitz_open lib (pdf_path self)) as [d'|e] eqn:Hopen; simpl; [|done].
    intros [= <-]. repeat split; try done. exists d'. by split; [|right].
Qed.

Lemma process_document_ok lib self self' paras fns :
  process_document lib self = Ok (self', (paras, fns)) →
  ∃ self1 skip n per_page,
    ensure_open lib self = Ok self1
    ∧ skip_first_pages (cfg self) = Some skip
    ∧ len_doc lib self1 = Ok n
    ∧ page_results self1 (range skip n) per_page
    ∧ paras = concat (map fst per_page) ∧ fns = concat (map snd per_page)
    ∧ self' = mkChunker (pdf_path self1) (cfg self1) (doc self1) paras fns.
Proof.
  unfold process_document.
  destruct (ensure_open lib self) as [self1|e] eqn:Hopen; simpl; [|done].
  destruct (ensure_open_fields _ _ _ Hopen) as (_ & Hcfg & _).
  unfold config_skip_first_pages. rewrite Hcfg.
  destruct (skip_first_pages (cfg self)) as [skip|]; simpl; [|done].
  destruct (len_doc lib self1) as [n|e] eqn:Hlen; simpl; [|done].
  destruct (process_pages self1 (range skip n) [] []) as [r|e] eqn:Hrun;
    simpl; [|done].
  intros [= <- ->].
  destruct (process_pages_ok _ _ _ _ _ Hrun) as (per_page & Hall & [= -> ->]).
  exists self1, skip, n, per_page. simpl. by rewrite Hcfg.
Qed.

(** X12: a successful [process_document] read the pages
    [skip_first_pages .. len(doc) - 1] of the open document, in this
    order, each with [process_page]; the lists it returns are the
    concatenations of the page results and are stored in the chunker. *)
Theorem process_document_result lib self self' paras fns :
  process_document lib self = Ok (self', (paras, fns)) →
  ∃ d skip per_page,
    doc self' = Some d
    ∧ (doc self = Some d ∧ doc_bool lib d = true
       ∨ doc_truthy lib self = false ∧ fitz_open lib (pdf_path self) = Ok d)
    ∧ skip_first_pages (cfg self) = Some skip
    ∧ page_results self' (range skip (doc_len lib d)) per_page
    ∧ paras = concat (map fst per_page) ∧ fns = concat (map snd per_page)
    ∧ paragraphs self' = paras ∧ footnotes self' = fns
    ∧ cfg self' = cfg self ∧ pdf_path self' = pdf_path self.
Proof.
  intros (self1 & skip & n & per_page & Hopen & Hskip & Hlen & Hall & Hp & Hf & ->)
    %process_document_ok.
  destruct (ensure_open_fields _ _ _ Hopen)
    as (Hpath & Hcfg & _ & _ & d & Hdoc & Hhow).
  unfold len_doc in Hlen. rewrite Hdoc in Hlen. injection Hlen as <-.
  exists d, skip, per_page. simpl. repeat split; try done.
Qed.

Lemma process_document_result_witness :
  ∃ d skip per_page,
    Some sample_document = Some d
    ∧ (doc default_chunker = Some d ∧ doc_bool sample_fitz d = true
       ∨ doc_truthy sample_fitz default_chunker = false
         ∧ fitz_open sample_fitz (pdf_path default_chunker) = Ok d)
    ∧ skip_first_pages (cfg default_chunker) = Some skip
    ∧ page_results
        (mkChunker "data/jugement.pdf" HYBRID_CHUNKING_CONFIG (Some sample_document)
           [paragraph_page_7] [footnote_page_7; footnote_page_8])
        (range skip (doc_len sample_fitz d)) per_page
    ∧ [paragraph_page_7] = concat (map fst per_page)
    ∧ [footnote_page_7; footnote_page_8] = concat (map snd per_page)
    ∧ [paragraph_page_7] = [paragraph_page_7]
    ∧ [footnote_page_7; footnote_page_8] = [footnote_page_7; footnote_page_8]
    ∧ HYBRID_CHUNKING_CONFIG = cfg default_chunker
    ∧ "data/jugement.pdf" = pdf_path default_chunker.
Proof. exact (process_document_result _ _ _ _ _ sample_run). Defined.

Lemma process_page_loadable self page_num :
  loadable self page_num ↔ ∃ r, process_page self page_num = Ok r.
Proof.
  unfold loadable. rewrite process_page_eq.
  destruct (load_page self page_num) as [pg|e]; simpl.
  - split; intros _; by eexists.
  - split; by intros [? ?].
Qed.

Lemma page_results_exist self pages :
  Forall (loadable self) pages → ∃ per_page, page_results self pages per_page.
Proof.
  induction 1 as [|p pages [r Hp]%process_page_loadable _ [per_page IH]].
  - exists []. constructor.
  - exists (r :: per_page). by constructor.
Qed.

Lemma page_results_loadable self pages per_page :
  page_results self pages per_page → Forall (loadable self) pages.
Proof.
  induction 1 as [|p r pages per_page Hp _ IH]; constructor; [|done].
  apply process_page_loadable. by exists r.
Qed.

(** X13: with the shipped patterns, once the document is open and
    [skip_first_pages] is configured, [process_document] returns exactly
    when every page of the range can be loaded: a failure of OCR on a page
    never stops the run. *)
Theorem process_document_returns lib self self1 skip n :
  shipped_patterns (cfg self) →
  ensure_open lib self = Ok self1 →
  skip_first_pages (cfg self) = Some skip →
  len_doc lib self1 = Ok n →
  (∃ self' r, process_document lib self = Ok (self', r))
  ↔ Forall (loadable self1) (range skip n).
Proof.
  intros _ Hopen Hskip Hlen. unfold process_document. rewrite Hopen; simpl.
  destruct (ensure_open_fields _ _ _ Hopen) as (_ & Hcfg & _).
  unfold config_skip_first_pages. rewrite Hcfg, Hskip, Hlen; simpl.
  split.
  - intros (self' & r & Hrun).
    destruct (process_pages self1 (range skip n) [] []) as [r'|e] eqn:Hpages;
      simpl in Hrun; [|done].
    destruct (process_pages_ok _ _ _ _ _ Hpages) as (per_page & Hall & _).
    by eapply page_results_loadable.
  - intros (per_page & Hall)%page_results_exist.
    rewrite (process_pages_complete _ _ _ [] [] Hall). simpl. by eexists _, _.
Qed.

Lemma process_document_returns_witness :
  (∃ self' r, process_document sample_fitz default_chunker = Ok (self', r))
  ↔ Forall (loadable (mkChunker "data/jugement.pdf" HYBRID_CHUNKING_CONFIG
                        (Some sample_document) [] []))
      (range 6 8).
Proof.
  exact (process_document_returns sample_fitz default_chunker _ 6 8
           shipped_patterns_default eq_refl eq_refl eq_refl).
Defined.

(** X14: with the shipped patterns, [process_document] stops at the first
    page of the range that cannot be loaded and raises the exception of
    that load. *)
Theorem process_document_raises lib self self1 skip n pre p post e :
  shipped_patterns (cfg self) →
  ensure_open lib self = Ok self1 →
  skip_first_pages (cfg self) = Some skip →
  len_doc lib self1 = Ok n →
  range skip n = pre ++ p :: post →
  Forall (loadable self1) pre →
  load_page self1 p = Raise e →
  process_document lib self = Raise e.
Proof.
  intros _ Hopen Hskip Hlen Hrange Hpre Hp. unfold process_document.
  rewrite Hopen; simpl.
  destruct (ensure_open_fields _ _ _ Hopen) as (_ & Hcfg & _).
  unfold config_skip_first_pages. rewrite Hcfg, Hskip, Hlen; simpl.
  rewrite Hrange, (process_pages_raise self1 pre p post e); [done| |].
  - eapply Forall_impl; [exact Hpre|]. intros q. apply process_page_loadable.
  - rewrite process_page_eq. by rewrite Hp.
Qed.

Lemma process_document_raises_witness :
  process_document long_fitz default_chunker = Raise IndexError.
Proof.
  apply (process_document_raises long_fitz default_chunker
           (mkChunker "data/jugement.pdf" HYBRID_CHUNKING_CONFIG
              (Some sample_document) [] [])
           6 9 [6; 7] 8 [] IndexError); try reflexivity.
  - apply shipped_patterns_default.
  - repeat constructor; by eexists.
Defined.

(** X15: [process_document] fails before reading any page when the
    document cannot be opened, with the exception of the PDF library, and
    when the configuration has no [skip_first_pages], with the key
    error. *)
Theorem process_document_cannot_start lib self :
  (∀ e, doc_truthy lib self = false →
        fitz_open lib (pdf_path self) = Raise e →
        process_document lib self = Raise e)
  ∧ (∀ self1, ensure_open lib self = Ok self1 →
              skip_first_pages (cfg self) = None →
              process_document lib self = Raise (OtherError "'skip_first_pages'")).
Proof.
  split.
  - intros e Htruthy Hopen. unfold process_document, ensure_open, open_document.
    by rewrite Htruthy, Hopen.
  - intros self1 Hopen Hskip. unfold process_document. rewrite Hopen; simpl.
    destruct (ensure_open_fields _ _ _ Hopen) as (_ & Hcfg & _).
    unfold config_skip_first_pages. by rewrite Hcfg, Hskip.
Qed.

Lemma process_document_cannot_start_witness :
  process_document broken_fitz default_chunker = Raise (OtherError "no such file")
  ∧ process_document sample_fitz (new_chunker "data/jugement.pdf" config_without_skip)
    = Raise (OtherError "'skip_first_pages'").
Proof.
  split.
  - destruct (process_document_cannot_start broken_fitz default_chunker) as [H _].
    apply H; reflexivity.
  - destruct (process_document_cannot_start sample_fitz
                (new_chunker "data/jugement.pdf" config_without_skip)) as [_ H].
    eapply H; reflexivity.
Defined.

Lemma range_elem_of start stop q : q ∈ range start stop ↔ start <= q < stop.
Proof.
  unfold range. rewrite list_elem_of_fmap. split.
  - intros (i & -> & Hi%elem_of_seq). lia.
  - intros Hq. exists (Z.to_nat (q - start)). split; [lia|].
    apply elem_of_seq. lia.
Qed.

Lemma range_sorted start stop : StronglySorted Z.lt (range start stop).
Proof.
  unfold range. generalize (Z.to_nat (stop - start)), 0%nat.
  intros k. induction k as [|k IH]; intros s; simpl; constructor; [apply IH|].
  apply Forall_forall. intros q (i & -> & Hi%elem_of_seq)%list_elem_of_fmap. lia.
Qed.

Section Keyed.
Context {A : Type} (key : A → Z) (num : A → string).

(** Groups stamped with the successors of strictly ascending page
    indices: the concatenation is ascending in the stamp, and the pairs of
    stamp and number are distinct when the numbers of each group are. *)
Lemma concat_stamped pages groups :
  Forall2 (λ q g, Forall (λ a, key a = q + 1) g) pages groups →
  StronglySorted Z.lt pages →
  Forall (λ a, ∃ q, q ∈ pages ∧ key a = q + 1) (concat groups)
  ∧ StronglySorted Z.le (map key (concat groups))
  ∧ (Forall (λ g, NoDup (map num g)) groups →
     NoDup (map (λ a, (key a, num a)) (concat groups))).
Proof.
  induction 1 as [|q g pages groups Hg _ IH]; intros Hsorted; simpl.
  { repeat split; constructor. }
  apply StronglySorted_inv in Hsorted as [Hsorted Hq].
  destruct (IH Hsorted) as (Hin & Hle & Hnodup). clear IH.
  assert (Forall (λ a, q + 1 < key a) (concat groups)) as Hlater.
  { eapply Forall_impl; [exact Hin|]. simpl. intros a (q' & Hq' & ->).
    rewrite Forall_forall in Hq. specialize (Hq q' Hq'). lia. }
  split; [|split].
  - apply Forall_app. split.
    + eapply Forall_impl; [exact Hg|]. simpl. intros a Ha. exists q.
      split; [constructor|done].
    + eapply Forall_impl; [exact Hin|]. simpl. intros a (q' & Hq' & Ha).
      exists q'. split; [by constructor|done].
  - rewrite map_app. apply StronglySorted_app_2.
    + intros k1 k2 (a & -> & Ha)%list_elem_of_fmap (b & -> & Hb)%list_elem_of_fmap.
      rewrite Forall_forall in Hg, Hlater.
      rewrite (Hg a Ha). specialize (Hlater b Hb). lia.
    + clear -Hg. induction Hg as [|a g Ha Hg IH]; simpl; constructor; [done|].
      apply Forall_forall. intros k (b & -> & Hb)%list_elem_of_fmap.
      rewrite Forall_forall in Hg. rewrite Ha, (Hg b Hb). lia.
    + done.
  - intros Hnum. apply Forall_cons in Hnum as [Hnum_g Hnum].
    rewrite map_app. apply NoDup_app. split; [|split].
    + clear -Hnum_g. induction g as [|a g IH]; simpl; [constructor|].
      simpl in Hnum_g. apply NoDup_cons in Hnum_g as [Ha Hnum_g].
      constructor; [|by apply IH].
      intros (b & [= _ Hnum] & Hb)%list_elem_of_fmap. apply Ha.
      rewrite Hnum. by apply list_elem_of_fmap_2.
    + intros [k s] (a & [= -> ->] & Ha)%list_elem_of_fmap
        (b & [= Hkey _] & Hb)%list_elem_of_fmap.
      rewrite Forall_forall in Hg, Hlater.
      specialize (Hlater b Hb). rewrite <- Hkey, (Hg a Ha) in Hlater. lia.
    + by apply Hnodup.
Qed.

End Keyed.

Lemma page_results_stamps self pages per_page :
  page_results self pages per_page →
  Forall2 (λ q g, Forall (λ p, page p = q + 1) g) pages (map fst per_page)
  ∧ Forall2 (λ q g, Forall (λ f, fn_page f = q + 1) g) pages (map snd per_page)
  ∧ Forall (λ g, NoDup (map number g)) (map fst per_page).
Proof.
  induction 1 as [|q r pages per_page Hr%process_page_result_ok _ IH]; simpl.
  { repeat split; constructor. }
  destruct Hr as (Hnum & Hpage & Hfn), IH as (IH1 & IH2 & IH3).
  repeat split; by constructor.
Qed.

(** X16: in the lists a successful [process_document] returns, every
    paragraph and footnote carries a page number between
    [skip_first_pages + 1] and the number of pages of the document, both
    lists are in ascending page order, and no two paragraphs share both
    page and number. *)
Theorem process_document_pages lib self self' paras fns :
  process_document lib self = Ok (self', (paras, fns)) →
  ∃ d skip,
    doc self' = Some d ∧ skip_first_pages (cfg self) = Some skip
    ∧ Forall (λ p, skip + 1 <= page p <= doc_len lib d) paras
    ∧ Forall (λ f, skip + 1 <= fn_page f <= doc_len lib d) fns
    ∧ StronglySorted Z.le (map page paras)
    ∧ StronglySorted Z.le (map fn_page fns)
    ∧ NoDup (map (λ p, (page p, number p)) paras).
Proof.
  intros (self1 & skip & n & per_page & Hopen & Hskip & Hlen & Hall & -> & -> & ->)
    %process_document_ok.
  destruct (ensure_open_fields _ _ _ Hopen) as (_ & _ & _ & _ & d & Hdoc & _).
  unfold len_doc in Hlen. rewrite Hdoc in Hlen. injection Hlen as <-.
  destruct (page_results_stamps _ _ _ Hall) as (Hparas & Hfns & Hnum).
  destruct (concat_stamped page number _ _ Hparas (range_sorted _ _))
    as (Hp_in & Hp_sorted & Hnodup).
  destruct (concat_stamped fn_page fn_number _ _ Hfns (range_sorted _ _))
    as (Hf_in & Hf_sorted & _).
  exists d, skip. repeat split; try done.
  - eapply Forall_impl; [exact Hp_in|]. simpl.
    intros p (q & Hq%range_elem_of & ->). lia.
  - eapply Forall_impl; [exact Hf_in|]. simpl.
    intros f (q & Hq%range_elem_of & ->). lia.
  - by apply Hnodup.
Qed.

Lemma process_document_pages_witness :
  ∃ d skip,
    Some sample_document = Some d
    ∧ skip_first_pages (cfg default_chunker) = Some skip
    ∧ Forall (λ p, skip + 1 <= page p <= doc_len sample_fitz d) [paragraph_page_7]
    ∧ Forall (λ f, skip + 1 <= fn_page f <= doc_len sample_fitz d)
        [footnote_page_7; footnote_page_8]
    ∧ StronglySorted Z.le (map page [paragraph_page_7])
    ∧ StronglySorted Z.le (map fn_page [footnote_page_7; footnote_page_8])
    ∧ NoDup (map (λ p, (page p, number p)) [paragraph_page_7]).
Proof. exact (process_document_pages _ _ _ _ _ sample_run). Defined.


(* ------------------------------------------------------------------ *)
(** ** The chunk assembler *)

Lemma number_from_app xs ys : ∀ id,
  number_from id (xs ++ ys)
  = number_from id xs ++ number_from (id + Z.of_nat (length xs)) ys.
Proof.
  induction xs as [|x xs IH]; intros id; simpl.
  - by rewrite Z.add_0_r.
  - rewrite IH. do 3 f_equal. lia.
Qed.

Lemma fold_add_paragraphs xs : ∀ st,
  fold_left (add_chunk paragraph_chunk) xs st
  = (fst st ++ number_from (snd st) (map inl xs), snd st + Z.of_nat (length xs)).
Proof.
  induction xs as [|x xs IH]; intros [chunks id]; simpl.
  - by rewrite app_nil_r, Z.add_0_r.
  - rewrite IH. unfold add_chunk; simpl. f_equal; [by rewrite <- app_assoc|lia].
Qed.

Lemma fold_add_footnotes xs : ∀ st,
  fold_left (add_chunk footnote_chunk) xs st
  = (fst st ++ number_from (snd st) (map inr xs), snd st + Z.of_nat (length xs)).
Proof.
  induction xs as [|x xs IH]; intros [chunks id]; simpl.
  - by rewrite app_nil_r, Z.add_0_r.
  - rewrite IH. unfold add_chunk; simpl. f_equal; [by rewrite <- app_assoc|lia].
Qed.

Lemma group_by_page_fold paras pg : ∀ m : gmap Z (list LegalParagraph),
  default [] (fold_left
                (λ by_page para,
                   <[page para := default [] (by_page !! page para) ++ [para]]>
                     by_page)
                paras m !! pg)
  = default [] (m !! pg) ++ filter (λ p, page p =? pg) paras.
Proof.
  induction paras as [|a paras IH]; intros m; simpl.
  - by rewrite app_nil_r.
  - rewrite IH. destruct (Z.eqb_spec (page a) pg) as [<-|Hne].
    + rewrite lookup_insert_eq; simpl.
      rewrite filter_cons_True by (by apply Is_true_true_2, Z.eqb_refl).
      by rewrite <- app_assoc.
    + rewrite lookup_insert_ne by done.
      rewrite filter_cons_False; [done|].
      apply Is_true_false_2. by apply Z.eqb_neq.
Qed.

Lemma group_by_page_lookup paras pg :
  default [] (group_by_page paras !! pg) = filter (λ p, page p =? pg) paras.
Proof. unfold group_by_page. by rewrite group_by_page_fold, lookup_empty. Qed.

Lemma group_by_page_dom_fold paras : ∀ m : gmap Z (list LegalParagraph),
  dom (fold_left
         (λ by_page para,
            <[page para := default [] (by_page !! page para) ++ [para]]> by_page)
         paras m)
  = dom m ∪ list_to_set (map page paras).
Proof.
  induction paras as [|a paras IH]; intros m; simpl.
  - by rewrite (right_id_L ∅ (∪)).
  - rewrite IH, dom_insert_L.
    by rewrite (comm_L (∪) {[page a]} (dom m)), (assoc_L (∪)).
Qed.

Lemma group_by_page_dom paras :
  dom (group_by_page paras) = list_to_set (map page paras).
Proof.
  unfold group_by_page.
  by rewrite group_by_page_dom_fold, dom_empty_L, (left_id_L ∅ (∪)).
Qed.

Lemma sorted_pages_elem_of paras pg :
  pg ∈ sorted_pages (group_by_page paras) ↔ ∃ p, p ∈ paras ∧ page p = pg.
Proof.
  unfold sorted_pages. rewrite merge_sort_Permutation, elem_of_elements.
  rewrite group_by_page_dom, elem_of_list_to_set, list_elem_of_fmap.
  split; intros (p & ? & ?); by exists p.
Qed.

Lemma sorted_pages_NoDup paras : NoDup (sorted_pages (group_by_page paras)).
Proof.
  unfold sorted_pages. rewrite merge_sort_Permutation. apply NoDup_elements.
Qed.

Lemma sorted_NoDup_lt (l : list Z) :
  StronglySorted Z.le l → NoDup l → StronglySorted Z.lt l.
Proof.
  induction 1 as [|x l _ IH Hx]; [constructor|].
  intros [Hnotin Hnodup]%NoDup_cons. constructor; [by apply IH|].
  apply Forall_forall. intros y Hy. rewrite Forall_forall in Hx.
  specialize (Hx y Hy). assert (x ≠ y) by (by intros ->). lia.
Qed.

Lemma sorted_pages_sorted paras :
  StronglySorted Z.lt (sorted_pages (group_by_page paras)).
Proof.
  apply sorted_NoDup_lt; [|apply sorted_pages_NoDup].
  unfold sorted_pages. apply StronglySorted_merge_sort; apply _.
Qed.

Lemma emit_page_sources self st pg :
  emit_page self (group_by_page (paragraphs self)) st pg
  = (fst st ++ number_from (snd st) (page_sources self pg),
     snd st + Z.of_nat (length (page_sources self pg))).
Proof.
  unfold emit_page, page_sources.
  rewrite group_by_page_lookup, fold_add_footnotes, fold_add_paragraphs; simpl.
  rewrite number_from_app, <- app_assoc, length_app, !length_map.
  f_equal. lia.
Qed.

Lemma fold_emit_page self pages : ∀ st,
  fold_left (emit_page self (group_by_page (paragraphs self))) pages st
  = (fst st ++ number_from (snd st) (flat_map (page_sources self) pages),
     snd st + Z.of_nat (length (flat_map (page_sources self) pages))).
Proof.
  induction pages as [|pg pages IH]; intros [chunks id]; simpl.
  - by rewrite app_nil_r, Z.add_0_r.
  - rewrite IH, emit_page_sources; simpl.
    rewrite number_from_app, <- app_assoc, length_app. f_equal. lia.
Qed.

Lemma create_semantic_chunks_sources self :
  create_semantic_chunks self
  = number_from 1
      (flat_map (page_sources self) (sorted_pages (group_by_page (paragraphs self)))).
Proof. unfold create_semantic_chunks. by rewrite fold_emit_page. Qed.

(** X17: the chunks are the paragraphs and then the footnotes of each
    page that has a paragraph, page by page in strictly ascending page
    order, numbered consecutively from 1. *)
Theorem create_semantic_chunks_structure self :
  create_semantic_chunks self
  = number_from 1
      (flat_map (page_sources self) (sorted_pages (group_by_page (paragraphs self))))
  ∧ StronglySorted Z.lt (sorted_pages (group_by_page (paragraphs self)))
  ∧ ∀ pg, pg ∈ sorted_pages (group_by_page (paragraphs self))
          ↔ ∃ p, p ∈ paragraphs self ∧ page p = pg.
Proof.
  split; [apply create_semantic_chunks_sources|].
  split; [apply sorted_pages_sorted|]. intros pg. apply sorted_pages_elem_of.
Qed.

Lemma number_from_lookup xs : ∀ id k c,
  number_from id xs !! k = Some c ↔
  ∃ x, xs !! k = Some x ∧ c = source_chunk (id + Z.of_nat k) x.
Proof.
  induction xs as [|x xs IH]; intros id k c; simpl.
  - split; [done|]. by intros (? & ? & _).
  - destruct k as [|k]; simpl.
    + rewrite Z.add_0_r. split.
      * intros [= <-]. by exists x.
      * by intros (? & [= <-] & ->).
    + rewrite IH. by replace (id + 1 + Z.of_nat k) with (id + Z.pos (Pos.of_succ_nat k)) by lia.
Qed.

Lemma source_chunk_id id x :
  chunk_id (source_chunk id x)
  = id_prefix (chunk_type (source_chunk id x)) +:+ pretty id.
Proof. by destruct x. Qed.

Lemma append_inj_l (s t1 t2 : string) : s +:+ t1 = s +:+ t2 → t1 = t2.
Proof. induction s as [|a s IH]; simpl; [done|]. intros [= H]. by apply IH. Qed.

Lemma chunk_id_inj i x j y :
  chunk_id (source_chunk i x) = chunk_id (source_chunk j y) → i = j.
Proof.
  destruct x, y; simpl; intros H.
  - by apply (append_inj_l "para_"), (inj pretty) in H.
  - done.
  - done.
  - by apply (append_inj_l "footnote_"), (inj pretty) in H.
Qed.

(** X18: no two chunks share an identifier, and the identifier of the
    chunk at position [k] is the prefix of its type followed by [k + 1] in
    decimal. *)
Theorem chunk_ids self :
  NoDup (map chunk_id (create_semantic_chunks self))
  ∧ ∀ (k : nat) c,
      create_semantic_chunks self !! k = Some c →
      chunk_id c = id_prefix (chunk_type c) +:+ pretty (1 + Z.of_nat k).
Proof.
  rewrite create_semantic_chunks_sources. split.
  - apply NoDup_alt. intros i j id. rewrite !list_lookup_fmap.
    destruct (number_from 1 _ !! i) as [c|] eqn:Hi; simpl; [|done].
    destruct (number_from 1 _ !! j) as [c'|] eqn:Hj; simpl; [|done].
    apply number_from_lookup in Hi as (x & _ & ->).
    apply number_from_lookup in Hj as (y & _ & ->).
    intros [= <-] [= H%chunk_id_inj]. lia.
  - intros k c (x & _ & ->)%number_from_lookup. apply source_chunk_id.
Qed.

Lemma chunk_ids_witness :
  create_semantic_chunks chunker_with_lone_footnote !! 1%nat
    = Some (footnote_chunk 2 footnote_page_4)
  ∧ chunk_id (footnote_chunk 2 footnote_page_4) = "footnote_2".
Proof.
  assert (create_semantic_chunks chunker_with_lone_footnote !! 1%nat
          = Some (footnote_chunk 2 footnote_page_4)) as Hk by (by vm_compute).
  split; [exact Hk|].
  destruct (chunk_ids chunker_with_lone_footnote) as [_ H].
  exact (H 1%nat _ Hk).
Defined.

Section FlatMapFilter.
Context {A : Type} (key : A → Z).

Lemma filter_key_partition pg (rest : list Z) (l : list A) :
  pg ∉ rest →
  filter (λ a, key a =? pg) l ++ filter (λ a, bool_decide (key a ∈ rest)) l
  ≡ₚ filter (λ a, bool_decide (key a ∈ pg :: rest)) l.
Proof.
  intros Hpg. induction l as [|a l IH]; simpl; [done|].
  destruct (Z.eqb_spec (key a) pg) as [Heq|Hne].
  - rewrite (filter_cons_True (λ a, key a =? pg))
      by (by apply Is_true_true_2, Z.eqb_eq).
    rewrite (filter_cons_True (λ a, bool_decide (key a ∈ pg :: rest)))
      by (apply Is_true_true_2, bool_decide_eq_true_2; rewrite Heq; constructor).
    rewrite (filter_cons_False (λ a, bool_decide (key a ∈ rest)))
      by (apply Is_true_false_2, bool_decide_eq_false_2; by rewrite Heq).
    simpl. by constructor.
  - rewrite (filter_cons_False (λ a, key a =? pg))
      by (by apply Is_true_false_2, Z.eqb_neq).
    destruct (decide (key a ∈ rest)) as [Hin|Hnotin].
    + rewrite (filter_cons_True (λ a, bool_decide (key a ∈ rest)))
        by (by apply Is_true_true_2, bool_decide_eq_true_2).
      rewrite (filter_cons_True (λ a, bool_decide (key a ∈ pg :: rest)))
        by (apply Is_true_true_2, bool_decide_eq_true_2; by constructor).
      rewrite <- IH. by rewrite Permutation_middle.
    + rewrite (filter_cons_False (λ a, bool_decide (key a ∈ rest)))
        by (by apply Is_true_false_2, bool_decide_eq_false_2).
      rewrite (filter_cons_False (λ a, bool_decide (key a ∈ pg :: rest))); [done|].
      apply Is_true_false_2, bool_decide_eq_false_2.
      by intros [H|H]%elem_of_cons.
Qed.

Lemma flat_map_filter_key (pages : list Z) (l : list A) :
  NoDup pages →
  flat_map (λ pg, filter (λ a, key a =? pg) l) pages
  ≡ₚ filter (λ a, bool_decide (key a ∈ pages)) l.
Proof.
  induction 1 as [|pg rest Hpg _ IH].
  - change (flat_map (λ pg, filter (λ a, key a =? pg) l) []) with (@nil A).
    induction l as [|a l IHl]; [done|].
    rewrite filter_cons_False; [done|].
    apply Is_true_false_2, bool_decide_eq_false_2, not_elem_of_nil.
  - change ((filter (λ a, key a =? pg) l
             ++ flat_map (λ pg, filter (λ a, key a =? pg) l) rest)
            ≡ₚ filter (λ a, bool_decide (key a ∈ pg :: rest)) l).
    rewrite IH. by apply filter_key_partition.
Qed.

End FlatMapFilter.

Lemma page_sources_permutation self pages :
  flat_map (page_sources self) pages
  ≡ₚ map inl (flat_map (λ pg, filter (λ p, page p =? pg) (paragraphs self)) pages)
     ++ map inr (flat_map (λ pg, filter (λ f, fn_page f =? pg) (footnotes self))
                   pages).
Proof.
  induction pages as [|pg pages IH]; simpl; [done|].
  rewrite IH, !map_app. unfold page_sources.
  rewrite <- !app_assoc. apply Permutation_app_head.
  rewrite !app_assoc. apply Permutation_app_tail. apply Permutation_app_comm.
Qed.

Lemma on_paragraph_page_elem_of self f :
  on_paragraph_page self f = true
  ↔ fn_page f ∈ sorted_pages (group_by_page (paragraphs self)).
Proof.
  unfold on_paragraph_page. rewrite existsb_exists, sorted_pages_elem_of.
  split; intros (p & Hp & Hpage).
  - exists p. split; [by apply list_elem_of_In|]. by apply Z.eqb_eq.
  - exists p. split; [by apply list_elem_of_In|]. by apply Z.eqb_eq.
Qed.

Lemma filter_paragraph_pages self :
  filter (λ p, bool_decide
                 (page p ∈ sorted_pages (group_by_page (paragraphs self))))
    (paragraphs self)
  = paragraphs self.
Proof.
  assert (∀ l : list LegalParagraph, (∀ p, p ∈ l → p ∈ paragraphs self) →
            filter (λ p, bool_decide
                           (page p ∈ sorted_pages (group_by_page (paragraphs self))))
              l = l) as Hall.
  { induction l as [|a l IH]; intros Hl; [done|].
    rewrite filter_cons_True.
    - f_equal. apply IH. intros p Hp. apply Hl. by constructor.
    - apply Is_true_true_2, bool_decide_eq_true_2, sorted_pages_elem_of. exists a.
      split; [|done]. apply Hl. constructor. }
  by apply Hall.
Qed.

Lemma filter_footnote_pages self :
  filter (λ f, bool_decide
                 (fn_page f ∈ sorted_pages (group_by_page (paragraphs self))))
    (footnotes self)
  = filter (on_paragraph_page self) (footnotes self).
Proof.
  apply list_filter_iff. intros f. split; intros H.
  - apply bool_decide_unpack in H.
    by apply Is_true_true_2, on_paragraph_page_elem_of.
  - apply bool_decide_pack, on_paragraph_page_elem_of. by apply Is_true_true_1.
Qed.

Lemma chunk_sources_permutation self :
  flat_map (page_sources self) (sorted_pages (group_by_page (paragraphs self)))
  ≡ₚ map inl (paragraphs self)
     ++ map inr (filter (on_paragraph_page self) (footnotes self)).
Proof.
  rewrite page_sources_permutation.
  rewrite !flat_map_filter_key by apply sorted_pages_NoDup.
  by rewrite filter_paragraph_pages, filter_footnote_pages.
Qed.

(** X19: every paragraph is chunked exactly once, and a footnote is
    chunked exactly once when some paragraph is on its page and not at all
    otherwise: up to order, the chunked items are the paragraphs and the
    footnotes on pages with a paragraph, so their counts add up. *)
Theorem chunked_items self :
  ∃ sources,
    create_semantic_chunks self = number_from 1 sources
    ∧ sources ≡ₚ map inl (paragraphs self)
                 ++ map inr (filter (on_paragraph_page self) (footnotes self))
    ∧ length (create_semantic_chunks self)
      = (length (paragraphs self)
         + length (filter (on_paragraph_page self) (footnotes self)))%nat.
Proof.
  eexists. split; [apply create_semantic_chunks_sources|].
  split; [apply chunk_sources_permutation|].
  rewrite create_semantic_chunks_sources.
  assert (∀ xs id, length (number_from id xs) = length xs) as Hlen.
  { induction xs as [|x xs IH]; intros id; simpl; [done|]. by rewrite IH. }
  by rewrite Hlen, chunk_sources_permutation, length_app, !length_map.
Qed.

Lemma number_from_elem_of xs id c :
  c ∈ number_from id xs ↔
  ∃ (k : nat) x, xs !! k = Some x ∧ c = source_chunk (id + Z.of_nat k) x.
Proof.
  rewrite list_elem_of_lookup. split.
  - intros (k & (x & Hx & ->)%number_from_lookup). by exists k, x.
  - intros (k & x & Hx & ->). exists k. apply number_from_lookup. by exists x.
Qed.

Lemma page_sources_footnote self pg f :
  inr f ∈ page_sources self pg ↔ f ∈ footnotes self ∧ fn_page f = pg.
Proof.
  unfold page_sources. rewrite elem_of_app, !list_elem_of_fmap. split.
  - intros [(p & [=] & _)|(f' & [= <-] & Hf)].
    apply list_elem_of_filter in Hf as [Hpage%Is_true_true_1%Z.eqb_eq Hf]. done.
  - intros [Hf <-]. right. exists f. split; [done|].
    apply list_elem_of_filter. split; [|done]. apply Is_true_true_2, Z.eqb_refl.
Qed.

Lemma flat_map_elem_of {A B : Type} (f : A → list B) (l : list A) (y : B) :
  y ∈ flat_map f l ↔ ∃ x, x ∈ l ∧ y ∈ f x.
Proof.
  rewrite list_elem_of_In, in_flat_map. split; intros (x & Hx & Hy); exists x.
  - by rewrite !list_elem_of_In.
  - by rewrite <- !list_elem_of_In.
Qed.

(** X20: a footnote of the collection gets a chunk exactly when some
    paragraph is on its page. *)
Theorem footnote_chunk_iff self f :
  f ∈ footnotes self →
  (∃ id, footnote_chunk id f ∈ create_semantic_chunks self)
  ↔ ∃ p, p ∈ paragraphs self ∧ page p = fn_page f.
Proof.
  intros Hf. rewrite create_semantic_chunks_sources. split.
  - intros (id & (k & x & Hx%list_elem_of_lookup_2 & Hc)%number_from_elem_of).
    apply flat_map_elem_of in Hx as (pg & Hpg & Hx).
    destruct x as [p|f']; [done|]. injection Hc as _ _ Hpage _ _ _.
    apply page_sources_footnote in Hx as [_ <-].
    apply sorted_pages_elem_of in Hpg as (p & Hp & Hpp). exists p.
    split; [done|]. congruence.
  - intros Hp%sorted_pages_elem_of.
    assert (inr f ∈ flat_map (page_sources self)
                      (sorted_pages (group_by_page (paragraphs self)))) as Hin.
    { apply flat_map_elem_of. exists (fn_page f). split; [done|].
      by apply page_sources_footnote. }
    apply list_elem_of_lookup_1 in Hin as [k Hk].
    exists (1 + Z.of_nat k). apply number_from_elem_of. by exists k, (inr f).
Qed.

Lemma footnote_chunk_iff_witness :
  ¬ ∃ id, footnote_chunk id footnote_page_3
          ∈ create_semantic_chunks chunker_with_lone_footnote.
Proof.
  intros H.
  apply (footnote_chunk_iff chunker_with_lone_footnote footnote_page_3) in H.
  - destruct H as (p & Hp%list_elem_of_singleton & Hpage). by subst p.
  - constructor.
Defined.

Lemma number_from_pages xs : ∀ id,
  map (λ c, fst (page_range c)) (number_from id xs) = map source_page xs.
Proof.
  induction xs as [|x xs IH]; intros id; simpl; [done|].
  rewrite IH. by destruct x.
Qed.

Lemma flat_map_sorted {A : Type} (key : A → Z) (f : Z → list A) pages :
  (∀ pg, Forall (λ a, key a = pg) (f pg)) →
  StronglySorted Z.lt pages →
  StronglySorted Z.le (map key (flat_map f pages)).
Proof.
  intros Hkey. induction 1 as [|pg pages _ IH Hpg]; simpl; [constructor|].
  rewrite map_app. apply StronglySorted_app_2; [| |done].
  - intros k1 k2 (a & -> & Ha)%list_elem_of_fmap (b & -> & Hb)%list_elem_of_fmap.
    apply flat_map_elem_of in Hb as (pg' & Hpg' & Hb).
    pose proof (Hkey pg) as H1. pose proof (Hkey pg') as H2.
    rewrite Forall_forall in H1, H2. rewrite Forall_forall in Hpg.
    rewrite (H1 a Ha), (H2 b Hb). specialize (Hpg pg' Hpg'). lia.
  - specialize (Hkey pg). induction Hkey as [|a g Ha Hg IHg]; simpl;
      constructor; [done|].
    apply Forall_forall. intros k (b & -> & Hb)%list_elem_of_fmap.
    rewrite Forall_forall in Hg. rewrite Ha, (Hg b Hb). lia.
Qed.

Lemma page_sources_page self pg :
  Forall (λ x, source_page x = pg) (page_sources self pg).
Proof.
  unfold page_sources. apply Forall_app. split; apply Forall_forall.
  - intros x (p & -> & Hp)%list_elem_of_fmap. simpl.
    by apply list_elem_of_filter in Hp as [Hp%Is_true_true_1%Z.eqb_eq _].
  - intros x (f & -> & Hf)%list_elem_of_fmap. simpl.
    by apply list_elem_of_filter in Hf as [Hf%Is_true_true_1%Z.eqb_eq _].
Qed.

(** X21: the chunks come in ascending page order, and the page range of
    every chunk is a single page that has a paragraph. *)
Theorem chunks_in_page_order self :
  StronglySorted Z.le (map (λ c, fst (page_range c)) (create_semantic_chunks self))
  ∧ Forall (λ c, snd (page_range c) = fst (page_range c)
                 ∧ ∃ p, p ∈ paragraphs self ∧ page p = fst (page_range c))
      (create_semantic_chunks self).
Proof.
  rewrite create_semantic_chunks_sources. split.
  - rewrite number_from_pages. apply flat_map_sorted.
    + apply page_sources_page.
    + apply sorted_pages_sorted.
  - apply Forall_forall.
    intros c (k & x & Hx%list_elem_of_lookup_2 & ->)%number_from_elem_of.
    apply flat_map_elem_of in Hx as (pg & Hpg%sorted_pages_elem_of & Hx).
    pose proof (page_sources_page self pg) as Hpage.
    rewrite Forall_forall in Hpage. specialize (Hpage x Hx).
    destruct x; simpl in *; by subst pg.
Qed.

Section SortedFilter.
Context {A : Type} (key : A → Z).

Lemma filter_key_above pg (l : list A) :
  Forall (λ a, pg < key a) l → filter (λ a, key a =? pg) l = [].
Proof.
  induction 1 as [|a l Ha _ IH]; [done|].
  rewrite filter_cons_False; [done|]. apply Is_true_false_2, Z.eqb_neq. lia.
Qed.

Lemma filter_key_split pg (rest : list Z) (l : list A) :
  StronglySorted Z.le (map key l) → Forall (Z.lt pg) rest →
  filter (λ a, key a =? pg) l ++ filter (λ a, bool_decide (key a ∈ rest)) l
  = filter (λ a, bool_decide (key a ∈ pg :: rest)) l.
Proof.
  intros Hsorted Hrest. rewrite Forall_forall in Hrest.
  induction l as [|a l IH]; [done|].
  apply StronglySorted_inv in Hsorted as [Hsorted Ha]. specialize (IH Hsorted).
  destruct (Z.eqb_spec (key a) pg) as [Heq|Hne].
  - rewrite (filter_cons_True (λ a, key a =? pg))
      by (by apply Is_true_true_2, Z.eqb_eq).
    rewrite (filter_cons_True (λ a, bool_decide (key a ∈ pg :: rest)))
      by (apply Is_true_true_2, bool_decide_eq_true_2; rewrite Heq; constructor).
    rewrite (filter_cons_False (λ a, bool_decide (key a ∈ rest))).
    + simpl. by rewrite IH.
    + apply Is_true_false_2, bool_decide_eq_false_2. rewrite Heq.
      intros H%Hrest. lia.
  - rewrite (filter_cons_False (λ a, key a =? pg))
      by (by apply Is_true_false_2, Z.eqb_neq).
    destruct (decide (key a ∈ rest)) as [Hin|Hnotin].
    + rewrite (filter_cons_True (λ a, bool_decide (key a ∈ rest)))
        by (by apply Is_true_true_2, bool_decide_eq_true_2).
      rewrite (filter_cons_True (λ a, bool_decide (key a ∈ pg :: rest)))
        by (apply Is_true_true_2, bool_decide_eq_true_2; by constructor).
      rewrite <- IH. rewrite filter_key_above; [done|].
      apply Forall_forall. intros b Hb. rewrite Forall_forall in Ha.
      specialize (Ha (key b) (list_elem_of_fmap_2 key _ _ Hb)).
      specialize (Hrest _ Hin). lia.
    + rewrite (filter_cons_False (λ a, bool_decide (key a ∈ rest)))
        by (by apply Is_true_false_2, bool_decide_eq_false_2).
      rewrite (filter_cons_False (λ a, bool_decide (key a ∈ pg :: rest))); [done|].
      apply Is_true_false_2, bool_decide_eq_false_2.
      by intros [H|H]%elem_of_cons.
Qed.

Lemma flat_map_filter_sorted (pages : list Z) (l : list A) :
  StronglySorted Z.lt pages → StronglySorted Z.le (map key l) →
  flat_map (λ pg, filter (λ a, key a =? pg) l) pages
  = filter (λ a, bool_decide (key a ∈ pages)) l.
Proof.
  intros Hpages Hl. induction Hpages as [|pg rest _ IH Hpg].
  - change (flat_map (λ pg, filter (λ a, key a =? pg) l) []) with (@nil A).
    clear Hl. induction l as [|a l IHl]; [done|].
    rewrite filter_cons_False; [done|].
    apply Is_true_false_2, bool_decide_eq_false_2, not_elem_of_nil.
  - change (filter (λ a, key a =? pg) l
            ++ flat_map (λ pg, filter (λ a, key a =? pg) l) rest
            = filter (λ a, bool_decide (key a ∈ pg :: rest)) l).
    rewrite IH. by apply filter_key_split.
Qed.

End SortedFilter.

Lemma source_paragraphs_app xs ys :
  source_paragraphs (xs ++ ys) = source_paragraphs xs ++ source_paragraphs ys.
Proof. apply flat_map_app. Qed.

Lemma source_paragraphs_inl ps : source_paragraphs (map inl ps) = ps.
Proof. induction ps as [|p ps IH]; simpl; [done|]. by rewrite IH. Qed.

Lemma source_paragraphs_inr fs : source_paragraphs (map inr fs) = [].
Proof. induction fs as [|f fs IH]; simpl; done. Qed.

Lemma source_paragraphs_pages self pages :
  source_paragraphs (flat_map (page_sources self) pages)
  = flat_map (λ pg, filter (λ p, page p =? pg) (paragraphs self)) pages.
Proof.
  induction pages as [|pg pages IH]; simpl; [done|].
  rewrite source_paragraphs_app, IH. unfold page_sources.
  by rewrite source_paragraphs_app, source_paragraphs_inl, source_paragraphs_inr,
    app_nil_r.
Qed.

Lemma paragraph_chunks_sources xs : ∀ id,
  map chunk_content (paragraph_chunks (number_from id xs))
  = map content (source_paragraphs xs)
  ∧ flat_map paragraph_numbers (number_from id xs)
    = map number (source_paragraphs xs).
Proof.
  unfold paragraph_chunks.
  induction xs as [|x xs IH]; intros id; simpl; [done|].
  destruct (IH (id + 1)) as [IH1 IH2]. destruct x as [p|f]; simpl.
  - by rewrite IH1, IH2.
  - rewrite filter_cons_False by (by intros ?). by rewrite IH1, IH2.
Qed.

Lemma sorted_paragraphs_sources self :
  StronglySorted Z.le (map page (paragraphs self)) →
  source_paragraphs
    (flat_map (page_sources self) (sorted_pages (group_by_page (paragraphs self))))
  = paragraphs self.
Proof.
  intros Hsorted.
  rewrite source_paragraphs_pages, flat_map_filter_sorted;
    [apply filter_paragraph_pages|apply sorted_pages_sorted|done].
Qed.

(** X22: when the paragraphs of the collection are in ascending page
    order, the paragraph chunks follow the order of the collection: their
    contents and their paragraph numbers are those of the paragraphs, one
    for one. *)
Theorem paragraph_chunks_in_order self :
  StronglySorted Z.le (map page (paragraphs self)) →
  map chunk_content (paragraph_chunks (create_semantic_chunks self))
  = map content (paragraphs self)
  ∧ flat_map paragraph_numbers (create_semantic_chunks self)
    = map number (paragraphs self).
Proof.
  intros Hsorted. rewrite create_semantic_chunks_sources.
  destruct (paragraph_chunks_sources
              (flat_map (page_sources self)
                 (sorted_pages (group_by_page (paragraphs self)))) 1) as [-> ->].
  by rewrite sorted_paragraphs_sources.
Qed.

Lemma paragraph_chunks_in_order_witness :
  map chunk_content (paragraph_chunks (create_semantic_chunks chunker_with_lone_footnote))
  = map content (paragraphs chunker_with_lone_footnote)
  ∧ flat_map paragraph_numbers (create_semantic_chunks chunker_with_lone_footnote)
    = map number (paragraphs chunker_with_lone_footnote).
Proof.
  apply (paragraph_chunks_in_order chunker_with_lone_footnote).
  repeat constructor.
Defined.

Lemma number_from_length xs : ∀ id, length (number_from id xs) = length xs.
Proof. induction xs as [|x xs IH]; intros id; simpl; [done|]. by rewrite IH. Qed.

Lemma process_document_sorted lib self self' paras fns :
  process_document lib self = Ok (self', (paras, fns)) →
  paragraphs self' = paras ∧ footnotes self' = fns
  ∧ StronglySorted Z.le (map page paras).
Proof.
  intros (self1 & skip & n & per_page & _ & _ & _ & Hall & -> & -> & ->)
    %process_document_ok.
  destruct (page_results_stamps _ _ _ Hall) as (Hparas & _ & _).
  destruct (concat_stamped page number _ _ Hparas (range_sorted _ _))
    as (_ & Hsorted & _).
  done.
Qed.

(** X23: the chunks built after a successful [process_document] list the
    paragraphs of the document in document order, content for content and
    number for number, and hold at most one further chunk per footnote. *)
Theorem document_chunks lib self self' paras fns :
  process_document lib self = Ok (self', (paras, fns)) →
  map chunk_content (paragraph_chunks (create_semantic_chunks self'))
  = map content paras
  ∧ flat_map paragraph_numbers (create_semantic_chunks self') = map number paras
  ∧ (length paras ≤ length (create_semantic_chunks self')
     ≤ length paras + length fns)%nat.
Proof.
  intros (Hp & Hf & Hsorted)%process_document_sorted.
  rewrite create_semantic_chunks_sources.
  destruct (paragraph_chunks_sources
              (flat_map (page_sources self')
                 (sorted_pages (group_by_page (paragraphs self')))) 1) as [-> ->].
  rewrite sorted_paragraphs_sources by (by rewrite Hp).
  rewrite number_from_length, chunk_sources_permutation, length_app, !length_map.
  rewrite Hp, Hf. repeat split; [lia|].
  pose proof (length_filter (on_paragraph_page self') fns). lia.
Qed.

Lemma document_chunks_witness :
  map chunk_content
    (paragraph_chunks
       (create_semantic_chunks
          (mkChunker "data/jugement.pdf" HYBRID_CHUNKING_CONFIG
             (Some sample_document) [paragraph_page_7]
             [footnote_page_7; footnote_page_8])))
  = map content [paragraph_page_7]
  ∧ flat_map paragraph_numbers
      (create_semantic_chunks
         (mkChunker "data/jugement.pdf" HYBRID_CHUNKING_CONFIG
            (Some sample_document) [paragraph_page_7]
            [footnote_page_7; footnote_page_8]))
    = map number [paragraph_page_7]
  ∧ (length [paragraph_page_7]
     ≤ length (create_semantic_chunks
                 (mkChunker "data/jugement.pdf" HYBRID_CHUNKING_CONFIG
                    (Some sample_document) [paragraph_page_7]
                    [footnote_page_7; footnote_page_8]))
     ≤ length [paragraph_page_7] + length [footnote_page_7; footnote_page_8])%nat.
Proof. exact (document_chunks _ _ _ _ _ sample_run). Defined.


(* ------------------------------------------------------------------ *)
(** ** The distributed orchestrator *)

Lemma partition_entry_unopened path c page_num :
  partition_entry (new_chunker path c) page_num = unopened_entry page_num.
Proof. reflexivity. Qed.

Lemma process_partition_unopened path c pages :
  _process_page_partition path c pages = map unopened_entry pages.
Proof.
  unfold _process_page_partition; simpl.
  induction pages as [|p pages IH]; simpl; [done|]. by rewrite IH.
Qed.

Lemma aggregate_unopened pages : ∀ paras fns ok failed,
  fold_left aggregate_step (map unopened_entry pages) (paras, fns, ok, failed)
  = (paras, fns, ok, failed + Z.of_nat (length pages)).
Proof.
  induction pages as [|p pages IH]; intros paras fns ok failed; simpl.
  - by rewrite Z.add_0_r.
  - rewrite IH. f_equal. lia.
Qed.

(** X24: run on any list of pages, the partition worker records every
    page, in order, as failed with the error of subscripting [None],
    since the chunker it builds never opens the document; such entries
    carry no paragraph and no footnote, and the aggregation loop counts
    each of them as failed. *)
Theorem partition_worker_fails_every_page path c pages :
  _process_page_partition path c pages = map unopened_entry pages
  ∧ map pe_page (_process_page_partition path c pages) = pages
  ∧ Forall (λ entry,
              pe_success entry = false
              ∧ pe_paragraphs entry = [] ∧ pe_footnotes entry = []
              ∧ pe_error entry = Some "'NoneType' object is not subscriptable")
      (_process_page_partition path c pages)
  ∧ fold_left aggregate_step (_process_page_partition path c pages) ([], [], 0, 0)
    = ([], [], 0, Z.of_nat (length pages)).
Proof.
  rewrite process_partition_unopened. split; [done|]. split; [|split].
  - rewrite map_map. simpl. apply map_id.
  - apply Forall_forall. by intros entry (p & -> & _)%list_elem_of_fmap.
  - by rewrite aggregate_unopened.
Qed.

(** X25: a distributed run raises before any page is read when the page
    count is 0, with the runtime error, which is what happens when the
    document cannot be opened; and otherwise when the partition size is
    configured as 0, with the error of [range] for a zero step. *)
Theorem distributed_run_errors path c total_pages start_time end_time :
  (total_pages = 0 →
   process_document_distributed path c total_pages start_time end_time
   = Raise (RuntimeError "Could not determine PDF page count"))
  ∧ (∀ lib e, fitz_open lib path = Raise e →
       process_document_distributed path c (_get_pdf_metadata lib path)
         start_time end_time
       = Raise (RuntimeError "Could not determine PDF page count"))
  ∧ (total_pages ≠ 0 → pages_per_partition c = Some 0 →
     process_document_distributed path c total_pages start_time end_time
     = Raise ValueError).
Proof.
  split; [|split].
  - intros ->. reflexivity.
  - intros lib e Hopen. unfold _get_pdf_metadata. by rewrite Hopen.
  - intros Htotal Hn. unfold process_document_distributed, collect_results.
    replace (total_pages =? 0) with false by (symmetry; by apply Z.eqb_neq).
    unfold page_partitions, make_partitions, range_step. by rewrite Hn.
Qed.

Lemma distributed_run_errors_witness :
  process_document_distributed "data/jugement.pdf" notebook_config 0 0 1
  = Raise (RuntimeError "Could not determine PDF page count")
  ∧ process_document_distributed "data/jugement.pdf" notebook_config
      (_get_pdf_metadata broken_fitz "data/jugement.pdf") 0 1
    = Raise (RuntimeError "Could not determine PDF page count")
  ∧ process_document_distributed "data/jugement.pdf" (config_with_partition 0) 106 0 1
    = Raise ValueError.
Proof.
  destruct (distributed_run_errors "data/jugement.pdf" notebook_config 0
              0%float 1%float) as (H1 & H2 & _).
  destruct (distributed_run_errors "data/jugement.pdf" (config_with_partition 0)
              106 0%float 1%float) as (_ & _ & H3).
  split; [by apply H1|]. split; [by eapply H2|]. by apply H3.
Defined.

(** X26: the page worker for user-defined functions never succeeds: for
    every page, path and configuration it returns the failure entry with
    the error of subscripting [None], the entry the partition worker
    records for the page. *)
Theorem process_page_for_databricks_fails page_num path c :
  process_page_for_databricks page_num path c = unopened_entry page_num
  ∧ pe_success (process_page_for_databricks page_num path c) = false
  ∧ pe_error (process_page_for_databricks page_num path c)
    = Some "'NoneType' object is not subscriptable"
  ∧ partition_entry (new_chunker path c) page_num
    = process_page_for_databricks page_num path c.
Proof. by repeat split. Qed.

Lemma slice_length {A : Type} (i n : Z) (l : list A) :
  0 <= i → 0 < n →
  Z.of_nat (length (slice i (i + n) l))
  = Z.max 0 (Z.min n (Z.of_nat (length l) - i)).
Proof.
  intros Hi Hn. unfold slice. rewrite length_take, length_drop. lia.
Qed.

Lemma partitions_shape {A : Type} (pages : list A) (n : Z) : 0 < n →
  ∀ fuel i, 0 <= i → Z.of_nat (length pages) - i <= Z.of_nat fuel →
    let parts := map (λ j, slice j (j + n) pages)
                   (range_step_aux fuel i (Z.of_nat (length pages)) n) in
    Forall (λ part, 1 <= Z.of_nat (length part) <= n) parts
    ∧ (∀ (k : nat) part, parts !! k = Some part → (S k < length parts)%nat →
                         Z.of_nat (length part) = n)
    ∧ Z.of_nat (length parts)
      = Z.max 0 (ceil_div (Z.of_nat (length pages) - i) n).
Proof.
  intros Hn. unfold ceil_div.
  induction fuel as [|fuel IH]; intros i Hi Hfuel; simpl.
  - split; [constructor|]. split; [done|].
    assert ((Z.of_nat (length pages) - i + n - 1) / n <= 0); [|lia].
    apply Z.lt_succ_r, Z.div_lt_upper_bound; lia.
  - destruct (Z.ltb_spec i (Z.of_nat (length pages))) as [Hlt|Hge]; simpl.
    + destruct (IH (i + n)) as (Hall & Hfull & Hcount); [lia|lia|].
      split; [|split].
      * constructor; [|done]. rewrite slice_length by lia. lia.
      * intros [|k] part; simpl.
        -- intros [= <-] Hmore. rewrite slice_length by lia.
           destruct fuel as [|fuel']; simpl in Hmore; [lia|].
           destruct (Z.ltb_spec (i + n) (Z.of_nat (length pages))); [lia|].
           simpl in Hmore. lia.
        -- intros Hk Hmore. apply (Hfull k); [done|lia].
      * rewrite Nat2Z.inj_succ, Hcount.
        replace (Z.of_nat (length pages) - i + n - 1)
          with (Z.of_nat (length pages) - (i + n) + n - 1 + 1 * n) by lia.
        rewrite Z.div_add by lia.
        assert (0 <= (Z.of_nat (length pages) - (i + n) + n - 1) / n); [|lia].
        apply Z.div_pos; lia.
    + split; [constructor|]. split; [done|].
      assert ((Z.of_nat (length pages) - i + n - 1) / n <= 0); [|lia].
      apply Z.lt_succ_r, Z.div_lt_upper_bound; lia.
Qed.

(** X27: with a positive partition size [n], the partitions are the page
    list cut into consecutive pieces: none is empty, every one but the
    last has exactly [n] pages, the last has at most [n], and there are
    [ceil(len(pages) / n)] of them. *)
Theorem partition_sizes pages n partitions :
  0 < n → make_partitions pages n = Ok partitions →
  concat partitions = pages
  ∧ Forall (λ part, 1 <= Z.of_nat (length part) <= n) partitions
  ∧ (∀ (k : nat) part, partitions !! k = Some part →
                       (S k < length partitions)%nat →
                       Z.of_nat (length part) = n)
  ∧ Z.of_nat (length partitions) = ceil_div (Z.of_nat (length pages)) n.
Proof.
  intros Hn Hparts.
  destruct (make_partitions_concat pages n Hn) as (partitions' & Heq & Hconcat).
  rewrite Hparts in Heq. injection Heq as <-. split; [done|].
  unfold make_partitions, range_step in Hparts.
  replace (n =? 0) with false in Hparts by (symmetry; apply Z.eqb_neq; lia).
  replace (n <? 0) with false in Hparts by (symmetry; apply Z.ltb_ge; lia).
  simpl in Hparts. injection Hparts as <-.
  destruct (partitions_shape pages n Hn
              (Z.to_nat (Z.of_nat (length pages) - 0)) 0) as (Hall & Hfull & Hcount);
    [lia|lia|].
  cbv zeta in Hall, Hfull, Hcount. rewrite !Z.sub_0_r in *.
  repeat split; try done.
  rewrite Hcount. unfold ceil_div.
  assert (0 <= (Z.of_nat (length pages) + n - 1) / n); [|lia].
  apply Z.div_pos; lia.
Qed.

Lemma partition_sizes_witness :
  concat [range 7 57; range 57 107; range 107 121] = range 7 121
  ∧ Forall (λ part, 1 <= Z.of_nat (length part) <= 50)
      [range 7 57; range 57 107; range 107 121]
  ∧ (∀ (k : nat) part,
       [range 7 57; range 57 107; range 107 121] !! k = Some part →
       (S k < length [range 7 57; range 57 107; range 107 121])%nat →
       Z.of_nat (length part) = 50)
  ∧ Z.of_nat (length [range 7 57; range 57 107; range 107 121])
    = ceil_div (Z.of_nat (length (range 7 121))) 50.
Proof.
  apply (partition_sizes (range 7 121) 50); [lia|by vm_compute].
Defined.


(* ------------------------------------------------------------------ *)
(** ** The OCR line source *)

Lemma lstrip_starts_clean s : starts_clean (lstrip s).
Proof.
  induction s as [|a s IH]; simpl; [done|].
  by destruct (isspace a) eqn:Ha.
Qed.

Lemma lstrip_clean s : starts_clean s → lstrip s = s.
Proof. destruct s as [|a s]; simpl; [done|]. by intros ->. Qed.

Lemma rstrip_starts_clean s : starts_clean s → starts_clean (rstrip s).
Proof.
  destruct s as [|a s]; simpl; [done|]. intros Ha.
  destruct (rstrip s); simpl; [by rewrite Ha|done].
Qed.

Lemma rstrip_idempotent s : rstrip (rstrip s) = rstrip s.
Proof.
  induction s as [|a s IH]; simpl; [done|].
  destruct (rstrip s) as [|b t] eqn:Hs.
  - destruct (isspace a) eqn:Ha; simpl; [done|]. by rewrite Ha.
  - change (rstrip (String a (String b t)))
      with (match rstrip (String b t) with
            | EmptyString => if isspace a then EmptyString else String a EmptyString
            | u => String a u
            end).
    by rewrite IH.
Qed.

Lemma strip_idempotent s : strip (strip s) = strip s.
Proof.
  unfold strip.
  rewrite (lstrip_clean (rstrip (lstrip s)))
    by apply rstrip_starts_clean, lstrip_starts_clean.
  apply rstrip_idempotent.
Qed.

Lemma ocr_lines_stripped self page_num :
  Forall (λ l, l ≠ "" ∧ strip l = l) (extract_text_with_ocr self page_num).
Proof.
  unfold extract_text_with_ocr.
  destruct (load_page self page_num ≫= image_to_string) as [text|e]; [|constructor].
  apply Forall_forall. intros l (l0 & -> & Hl0)%list_elem_of_fmap.
  apply list_elem_of_filter in Hl0 as [Htruthy _].
  split; [|apply strip_idempotent].
  by destruct (strip l0).
Qed.

(** X28: every line handed to the paragraph recogniser is non-empty,
    stripped and matches no header or footer pattern; when the page cannot
    be loaded or rendering or OCR fails there is no line at all. *)
Theorem cleaned_ocr_lines self page_num :
  Forall (λ l, l ≠ "" ∧ strip l = l ∧ is_header_footer self l = false)
    (clean_headers_footers self (extract_text_with_ocr self page_num))
  ∧ ((∀ pg, load_page self page_num = Ok pg → ∃ e, image_to_string pg = Raise e) →
     clean_headers_footers self (extract_text_with_ocr self page_num) = []).
Proof.
  split.
  - unfold clean_headers_footers. apply Forall_forall.
    intros l [Hclean Hl]%list_elem_of_filter.
    pose proof (ocr_lines_stripped self page_num) as Hlines.
    rewrite Forall_forall in Hlines. destruct (Hlines l Hl) as [Hne Hstrip].
    repeat split; try done.
    by destruct (is_header_footer self l).
  - intros Hfail. unfold extract_text_with_ocr.
    destruct (load_page self page_num) as [pg|e]; simpl; [|done].
    destruct (Hfail pg eq_refl) as [e ->]. done.
Qed.

Lemma cleaned_ocr_lines_witness :
  clean_headers_footers chunker_without_ocr
    (extract_text_with_ocr chunker_without_ocr 2) = [].
Proof.
  destruct (cleaned_ocr_lines chunker_without_ocr 2) as [_ H]. apply H.
  intros pg [= <-]. by eexists.
Defined.


(* ------------------------------------------------------------------ *)
(** ** The deployment configuration *)

Lemma lower_char_idempotent a : lower_char (lower_char a) = lower_char a.
Proof. by destruct a as [[] [] [] [] [] [] [] []]. Qed.

Lemma lower_idempotent s : lower (lower s) = lower s.
Proof.
  induction s as [|a s IH]; simpl; [done|].
  by rewrite lower_char_idempotent, IH.
Qed.

(** X29: [get_model_endpoint] looks at the lower-cased model type only:
    it returns one of the three endpoints exactly when the lower-cased
    argument is one of the three names, the same endpoint as for the
    lower-cased argument, and otherwise raises the value error whose
    message ends with the argument as given. *)
Theorem get_model_endpoint_cases model_type :
  match DatabricksConfig.get_model_endpoint model_type with
  | DatabricksConfig.Returns endpoint =>
      (lower model_type, endpoint)
        ∈ [("bge", DatabricksConfig.BGE_MODEL_ENDPOINT);
           ("llama", DatabricksConfig.LLAMA_MODEL_ENDPOINT);
           ("vector_search", DatabricksConfig.VECTOR_SEARCH_ENDPOINT)]
      ∧ DatabricksConfig.get_model_endpoint (lower model_type)
        = DatabricksConfig.Returns endpoint
  | DatabricksConfig.RaisesValueError msg =>
      msg = "Unknown model type: " +:+ model_type
      ∧ (lower model_type ∉ ["bge"; "llama"; "vector_search"])
      ∧ DatabricksConfig.get_model_endpoint (lower model_type)
        = DatabricksConfig.RaisesValueError
            ("Unknown model type: " +:+ lower model_type)
  end.
Proof.
  unfold DatabricksConfig.get_model_endpoint. rewrite lower_idempotent.
  destruct (String.eqb_spec (lower model_type) "bge") as [->|Hbge].
  { split; [|done]. constructor. }
  destruct (String.eqb_spec (lower model_type) "llama") as [->|Hllama].
  { split; [|done]. do 1 constructor. constructor. }
  destruct (String.eqb_spec (lower model_type) "vector_search") as [->|Hvs].
  { split; [|done]. do 2 constructor. constructor. }
  repeat split.
  intros H. repeat (apply elem_of_cons in H as [H|H]; [done|]).
  by apply not_elem_of_nil in H.
Qed.

Lemma section_weights_bounded :
  map_Forall (λ _ w, (0.5 <=? w)%float = true ∧ (w <=? 1.5)%float = true)
    DatabricksConfig.SECTION_WEIGHTS.
Proof.
  unfold DatabricksConfig.SECTION_WEIGHTS. simpl.
  repeat (apply map_Forall_insert_2; [by vm_compute|]).
  apply map_Forall_empty.
Qed.

Lemma legal_expansions_lowercase :
  map_Forall (λ key _, lower key = key) DatabricksConfig.LEGAL_EXPANSIONS.
Proof.
  unfold DatabricksConfig.LEGAL_EXPANSIONS. simpl.
  repeat (apply map_Forall_insert_2; [by vm_compute|]).
  apply map_Forall_empty.
Qed.

Lemma section_weight_unlisted section_type :
  section_type ∉ ["VERDICT"; "SENTENCE"; "FINDINGS_OF_FACT"; "OVERVIEW";
                  "EVIDENTIARY_CONSIDERATIONS"; "HEADER"] →
  DatabricksConfig.SECTION_WEIGHTS !! section_type = None.
Proof.
  intros Hnot. unfold DatabricksConfig.SECTION_WEIGHTS.
  by apply not_elem_of_list_to_map_1.
Qed.

(** X30: the lookup helpers never fail.  [get_section_weight] returns the
    weight listed for each of the six section names and 1.0 for every
    other name, hence always a weight between 0.5 and 1.5;
    [get_legal_expansions] ignores the case of the term, returns the
    entry of the table for any casing of a key, and the empty list for a
    term that is no key in lower case. *)
Theorem lookup_helpers :
  map DatabricksConfig.get_section_weight
    ["VERDICT"; "SENTENCE"; "FINDINGS_OF_FACT"; "OVERVIEW";
     "EVIDENTIARY_CONSIDERATIONS"; "HEADER"]
  = [1.5; 1.4; 1.3; 1.1; 1.0; 0.5]%float
  ∧ (∀ section_type,
       section_type ∉ ["VERDICT"; "SENTENCE"; "FINDINGS_OF_FACT"; "OVERVIEW";
                       "EVIDENTIARY_CONSIDERATIONS"; "HEADER"] →
       DatabricksConfig.get_section_weight section_type = 1.0%float)
  ∧ (∀ section_type,
       (0.5 <=? DatabricksConfig.get_section_weight section_type)%float = true
       ∧ (DatabricksConfig.get_section_weight section_type <=? 1.5)%float = true)
  ∧ (∀ term,
       DatabricksConfig.get_legal_expansions (lower term)
       = DatabricksConfig.get_legal_expansions term)
  ∧ (∀ key expansions term,
       DatabricksConfig.LEGAL_EXPANSIONS !! key = Some expansions →
       lower term = key →
       DatabricksConfig.get_legal_expansions term = expansions)
  ∧ (∀ term,
       DatabricksConfig.LEGAL_EXPANSIONS !! lower term = None →
       DatabricksConfig.get_legal_expansions term = []).
Proof.
  split; [by vm_compute|]. split; [|split; [|split; [|split]]].
  - intros section_type Hnot. unfold DatabricksConfig.get_section_weight.
    by rewrite section_weight_unlisted.
  - intros section_type. unfold DatabricksConfig.get_section_weight.
    destruct (DatabricksConfig.SECTION_WEIGHTS !! section_type) as [w|] eqn:Hw.
    + exact (section_weights_bounded _ _ Hw).
    + by vm_compute.
  - intros term. unfold DatabricksConfig.get_legal_expansions.
    by rewrite lower_idempotent.
  - intros key expansions term Hkey <-.
    unfold DatabricksConfig.get_legal_expansions. by rewrite Hkey.
  - intros term Hnone. unfold DatabricksConfig.get_legal_expansions.
    by rewrite Hnone.
Qed.

Lemma lookup_helpers_witness :
  DatabricksConfig.get_section_weight "verdict" = 1.0%float
  ∧ DatabricksConfig.get_legal_expansions "Murder"
    = ["kill"; "killing"; "assassination"; "homicide"; "unlawful killing"]
  ∧ DatabricksConfig.get_legal_expansions "arson" = [].
Proof.
  destruct lookup_helpers as (_ & Hunlisted & _ & _ & Hentry & Hnone).
  split; [|split].
  - apply Hunlisted. apply (bool_decide_unpack _). by vm_compute.
  - apply (Hentry "murder"); by vm_compute.
  - apply Hnone. by vm_compute.
Defined.
